(** * winboat: container-runtime abstraction layer and host readiness checks

    A shallow embedding of [containerRuntime.ts] (class [ContainerRuntime])
    and of [src/renderer/lib/specs.ts] ([satisfiesPrequisites], [getSpecs],
    [getMemoryInfo]).

    - JavaScript strings are sequences of code units; the embedding uses
      [string] and therefore covers the strings whose code units are below
      256 (ASCII and Latin-1).
    - [async] functions run to completion: an [await] is a sequencing point
      and nothing else runs in between.  Module [Async] alone lets two
      callers be in flight together.
    - Promise rejection and [throw] are the same effect ([Throw]).
    - The child processes, the file system and the FreeRDP locator form the
      host ([World]); every request the code sends to it is recorded in the
      trace of the state, and the host may answer differently each time. *)

From Stdlib Require Import Bool Arith NArith ZArith QArith Qround Lia.
From Stdlib Require Import Ascii String List.
Import ListNotations.

Local Open Scope string_scope.

(* ===================================================================== *)
(** * JavaScript string primitives *)
(* ===================================================================== *)

Module JS.

(** Code unit of a character. *)
Definition code (c : ascii) : N := N_of_ascii c.

(** [\d] of a regular expression: the ASCII digits only. *)
Definition isDigit (c : ascii) : bool :=
  ((48 <=? code c) && (code c <=? 57))%N.

(** [\s] of a regular expression, also what [trim] and [parseInt] strip:
    TAB, LF, VT, FF, CR, SPACE and NO-BREAK SPACE (the white space and line
    terminators below 256). *)
Definition isSpace (c : ascii) : bool :=
  (((9 <=? code c) && (code c <=? 13)) || (code c =? 32) || (code c =? 160))%N.

(** [String.prototype.toLowerCase] on one code unit: A-Z, and the Latin-1
    capitals U+00C0..U+00DE except the multiplication sign U+00D7. *)
Definition lowerChar (c : ascii) : ascii :=
  let n := code c in
  if (((65 <=? n) && (n <=? 90))
      || ((192 <=? n) && (n <=? 222) && negb (n =? 215)))%N
  then ascii_of_N (n + 32) else c.

Fixpoint toLowerCase (s : string) : string :=
  match s with
  | EmptyString => EmptyString
  | String c s' => String (lowerChar c) (toLowerCase s')
  end.

(** [s.startsWith(p)] *)
Fixpoint startsWith (s p : string) {struct p} : bool :=
  match p, s with
  | EmptyString, _ => true
  | String _ _, EmptyString => false
  | String b p', String a s' => Ascii.eqb a b && startsWith s' p'
  end.

(** [s.includes(p)] *)
Fixpoint includes (s p : string) : bool :=
  startsWith s p ||
  match s with
  | EmptyString => false
  | String _ s' => includes s' p
  end.

(** Truthiness of a string: [!!s], [if (s)]. *)
Definition truthy (s : string) : bool :=
  match s with EmptyString => false | String _ _ => true end.

Fixpoint trimStart (s : string) : string :=
  match s with
  | String c s' => if isSpace c then trimStart s' else s
  | EmptyString => EmptyString
  end.

Fixpoint trimEnd (s : string) : string :=
  match s with
  | EmptyString => EmptyString
  | String c s' =>
      let t := trimEnd s' in
      if isSpace c && negb (truthy t) then EmptyString else String c t
  end.

(** [s.trim()] *)
Definition trim (s : string) : string := trimEnd (trimStart s).

(** [s.split(sep)] for a separator of one character; never empty. *)
Fixpoint split_char (sep : ascii) (s : string) : list string :=
  match s with
  | EmptyString => [EmptyString]
  | String c s' =>
      if Ascii.eqb c sep then EmptyString :: split_char sep s'
      else match split_char sep s' with
           | [] => [String c EmptyString]
           | w :: ws => String c w :: ws
           end
  end.

(** [s.split(/\s+/)]: the pieces between maximal runs of white space; a
    leading or trailing run leaves an empty first or last piece.
    [split_ws_from inrun s]: [inrun] tells that the previous character
    belonged to a separator run. *)
Fixpoint split_ws_from (inrun : bool) (s : string) : list string :=
  match s with
  | EmptyString => [EmptyString]
  | String c s' =>
      if isSpace c then
        if inrun then split_ws_from true s'
        else EmptyString :: split_ws_from true s'
      else match split_ws_from false s' with
           | [] => [String c EmptyString]
           | w :: ws => String c w :: ws
           end
  end.

Definition split_ws (s : string) : list string := split_ws_from false s.

(** [arr.includes(x)] on an array of strings. *)
Definition array_includes (arr : list string) (x : string) : bool :=
  existsb (String.eqb x) arr.

(** [arr.find(p)]: [None] is [undefined]. *)
Definition array_find (p : string -> bool) (arr : list string) : option string :=
  List.find p arr.

(** What is left of [s] after the prefix [p], if [s] starts with it. *)
Fixpoint strip_prefix (p s : string) {struct p} : option string :=
  match p, s with
  | EmptyString, _ => Some s
  | String _ _, EmptyString => None
  | String b p', String a s' =>
      if Ascii.eqb a b then strip_prefix p' s' else None
  end.

(** The double-quote character of a command line. *)
Definition dquote : string := String (ascii_of_nat 34) EmptyString.

(** [versionMatch[1].split('.')[0]], [line.split(/\s+/)[1]]: an index out of
    range reads [undefined], which [parseInt] turns into a string first. *)
Definition at_index (arr : list string) (i : nat) : string :=
  match nth_error arr i with
  | Some x => x
  | None => "undefined"
  end.

(** ** The regular expression [/(\d+\.\d+\.\d+)/] *)

(** Longest prefix of digits, and what follows it. *)
Fixpoint span_digits (s : string) : string * string :=
  match s with
  | String c s' =>
      if isDigit c then let (d, r) := span_digits s' in (String c d, r)
      else (EmptyString, s)
  | EmptyString => (EmptyString, EmptyString)
  end.

(** The match that starts at the first character, if there is one.  Each
    [\d+] is greedy; giving back digits never helps, because the character
    after a shortened run is a digit and not the dot that has to follow. *)
Definition match_semver_here (s : string) : option string :=
  let (a, r1) := span_digits s in
  match a, r1 with
  | String _ _, String "." r2 =>
      let (b, r3) := span_digits r2 in
      match b, r3 with
      | String _ _, String "." r4 =>
          let (c, _) := span_digits r4 in
          match c with
          | String _ _ => Some (a ++ "." ++ b ++ "." ++ c)
          | EmptyString => None
          end
      | _, _ => None
      end
  | _, _ => None
  end.

(** [s.match(/(\d+\.\d+\.\d+)/)]: group 1 of the leftmost match, [None]
    for [null]. *)
Fixpoint match_semver (s : string) : option string :=
  match match_semver_here s with
  | Some m => Some m
  | None =>
      match s with
      | EmptyString => None
      | String _ s' => match_semver s'
      end
  end.

(** ** Numbers *)

(** A JavaScript number: [NaN] or a finite value, kept exact.  The program
    only compares these numbers with 2 and with 4, and rounding to a double
    cannot change such a comparison; the last digits of a value are those
    of exact arithmetic, not those of a double. *)
Inductive number : Type :=
| NaN
| Num (q : Q).

Definition of_Z (z : Z) : number := Num (inject_Z z).

(** [x >= y] on numbers: false as soon as one side is [NaN]. *)
Definition ge (x y : number) : bool :=
  match x, y with
  | Num a, Num b => Qle_bool b a
  | _, _ => false
  end.

(** [x / k] and [x * k] by a finite constant. *)
Definition div (x : number) (k : Q) : number :=
  match x with NaN => NaN | Num a => Num (a / k) end.

Definition mul (x : number) (k : Q) : number :=
  match x with NaN => NaN | Num a => Num (a * k) end.

(** [Math.round]: the nearest integer, halves towards plus infinity. *)
Definition round (x : number) : number :=
  match x with NaN => NaN | Num a => of_Z (Qfloor (a + (1 # 2))) end.

(** Value of a character as a digit in bases up to 36. *)
Definition digitValue (c : ascii) : option Z :=
  let n := Z.of_N (code c) in
  if ((48 <=? n) && (n <=? 57))%Z then Some (n - 48)%Z
  else if ((97 <=? n) && (n <=? 122))%Z then Some (n - 87)%Z
  else if ((65 <=? n) && (n <=? 90))%Z then Some (n - 55)%Z
  else None.

(** Reads the longest prefix of digits of base [R]; [None] when the first
    character is no such digit. *)
Fixpoint parseDigits (R : Z) (acc : option Z) (s : string) : option Z :=
  match s with
  | EmptyString => acc
  | String c s' =>
      match digitValue c with
      | Some d =>
          if (d <? R)%Z then
            parseDigits R (Some (match acc with
                                 | Some a => a * R + d
                                 | None => d
                                 end)%Z) s'
          else acc
      | None => acc
      end
  end.

(** [parseInt(s, radix)]; [radix = None] is a call with one argument.  The
    value is kept exact; a double rounds it beyond 2^53, which no
    comparison made here with 2 or 4 can notice. *)
Definition parseInt (s : string) (radix : option Z) : number :=
  let s1 := trimStart s in
  let '(neg, s2) :=
    match s1 with
    | String "-" r => (true, r)
    | String "+" r => (false, r)
    | _ => (false, s1)
    end in
  let R0 := match radix with Some r => r | None => 0%Z end in
  if negb (R0 =? 0)%Z && ((R0 <? 2) || (36 <? R0))%Z then NaN
  else
    let strip := (R0 =? 0)%Z || (R0 =? 16)%Z in
    let R1 := if (R0 =? 0)%Z then 10%Z else R0 in
    let '(R, s3) :=
      if strip && (startsWith s2 "0x" || startsWith s2 "0X")
      then (16%Z, match s2 with String _ (String _ r) => r | _ => s2 end)
      else (R1, s2) in
    match parseDigits R None s3 with
    | None => NaN
    | Some v => of_Z (if neg then - v else v)
    end.

End JS.

(* ===================================================================== *)
(** * The host and the effects of the code *)
(* ===================================================================== *)

(** An exception value (a rejected promise carries one as well). *)
Definition error : Type := string.

Inductive outcome (A : Type) : Type :=
| Return (a : A)
| Throw (e : error).
Arguments Return {A} a.
Arguments Throw {A} e.

(** What [execAsync] resolves to. *)
Record ExecResult : Type := mkExecResult {
  stdout : string;
  stderr : string
}.

(** A request sent to the host. *)
Inductive Probe : Type :=
| Exec (cmd : string)            (* execAsync(cmd) *)
| ReadFileSync (path : string)   (* fs.readFileSync(path, 'utf8') *)
| ExistsSync (path : string)     (* fs.existsSync(path) *)
| GetFreeRDP.                    (* getFreeRDP() of ../utils/getFreeRDP *)

Definition Trace : Type := list Probe.

(** The host answers a request knowing every request made before it, oldest
    first, so the same command may succeed now and fail later.
    [locate_freerdp] stands for [getFreeRDP], whose source is in another
    file: it throws, or yields a value of which only the truthiness is
    used. *)
Record World : Type := mkWorld {
  run_exec : Trace -> string -> outcome ExecResult;
  read_file : Trace -> string -> outcome string;
  file_exists : Trace -> string -> bool;
  locate_freerdp : Trace -> outcome bool
}.

(** [export type RuntimeType = 'docker' | 'podman'] *)
Inductive RuntimeType : Type := docker | podman.

(** The string a [RuntimeType] is in the source. *)
Definition runtimeName (r : RuntimeType) : string :=
  match r with docker => "docker" | podman => "podman" end.

Definition RuntimeType_eqb (a b : RuntimeType) : bool :=
  match a, b with
  | docker, docker | podman, podman => true
  | _, _ => false
  end.

(** [export interface ContainerRuntimeInfo] *)
Record ContainerRuntimeInfo : Type := mkInfo {
  type : RuntimeType;
  version : string;
  composeInstalled : bool;
  composeVersion : option string
}.

(** The two static fields of [ContainerRuntime], the requests made so far
    and the lines written to the console. *)
Record State : Type := mkState {
  detectedRuntime : option RuntimeType;
  runtimeInfo : option ContainerRuntimeInfo;
  trace : Trace;
  console : list string
}.

(** State at program start: both static fields are [null]. *)
Definition initial : State := mkState None None [] [].

(** Computations: state passing with exceptions; the state survives a
    throw. *)
Definition M (A : Type) : Type := State -> outcome A * State.

Definition ret {A} (a : A) : M A := fun s => (Return a, s).

Definition throw {A} (e : error) : M A := fun s => (Throw e, s).

Definition bind {A B} (m : M A) (k : A -> M B) : M B :=
  fun s =>
    match m s with
    | (Return a, s') => k a s'
    | (Throw e, s') => (Throw e, s')
    end.

(** [try { body } catch (e) { handler }] *)
Definition try_catch {A} (body : M A) (handler : error -> M A) : M A :=
  fun s =>
    match body s with
    | (Return a, s') => (Return a, s')
    | (Throw e, s') => handler e s'
    end.

Declare Scope js_scope.
Delimit Scope js_scope with js.
Notation "x <- m ;; k" := (bind m (fun x => k))
  (at level 61, m at next level, right associativity) : js_scope.
Notation "m ;;; k" := (bind m (fun _ => k))
  (at level 61, right associativity) : js_scope.
Local Open Scope js_scope.

Definition get_detectedRuntime : M (option RuntimeType) :=
  fun s => (Return (detectedRuntime s), s).

Definition set_detectedRuntime (r : option RuntimeType) : M unit :=
  fun s => (Return tt, mkState r (runtimeInfo s) (trace s) (console s)).

Definition get_runtimeInfo : M (option ContainerRuntimeInfo) :=
  fun s => (Return (runtimeInfo s), s).

Definition set_runtimeInfo (i : option ContainerRuntimeInfo) : M unit :=
  fun s => (Return tt, mkState (detectedRuntime s) i (trace s) (console s)).

(** [console.log] and [console.error]: the fixed part of the message. *)
Definition console_log (msg : string) : M unit :=
  fun s => (Return tt,
            mkState (detectedRuntime s) (runtimeInfo s) (trace s)
                    (console s ++ [msg])%list).

Definition record (p : Probe) (s : State) : State :=
  mkState (detectedRuntime s) (runtimeInfo s) (trace s ++ [p])%list (console s).

Section Host.

Variable W : World.

(** [await execAsync(cmd)] *)
Definition execAsync (cmd : string) : M ExecResult :=
  fun s => (run_exec W (trace s) cmd, record (Exec cmd) s).

(** [fs.readFileSync(path, 'utf8')] *)
Definition readFileSync (path : string) : M string :=
  fun s => (read_file W (trace s) path, record (ReadFileSync path) s).

(** [fs.existsSync(path)] *)
Definition existsSync (path : string) : M bool :=
  fun s => (Return (file_exists W (trace s) path), record (ExistsSync path) s).

(** [await getFreeRDP()] *)
Definition getFreeRDP : M bool :=
  fun s => (locate_freerdp W (trace s), record GetFreeRDP s).

End Host.

(* ===================================================================== *)
(** * class ContainerRuntime *)
(* ===================================================================== *)

Module ContainerRuntime.

Import JS.

(** [command.replace(/^(docker|podman)/, runtime)]: the pattern is anchored
    at the start of the string and the replacement holds no [$]. *)
Definition replace_leading_engine (command runtime : string) : string :=
  match strip_prefix "docker" command with
  | Some rest => runtime ++ rest
  | None =>
      match strip_prefix "podman" command with
      | Some rest => runtime ++ rest
      | None => command
      end
  end.

(** Lines 86-93: what the compose output adds to [info]. *)
Definition read_compose (info : ContainerRuntimeInfo) (composeOutput : string)
  : ContainerRuntimeInfo :=
  if truthy composeOutput then
    match match_semver composeOutput with
    | Some m =>
        let majorVersion := parseInt (at_index (split_char "." m) 0) (Some 10%Z) in
        mkInfo (type info) (version info) (ge majorVersion (of_Z 2)) (Some m)
    | None => info
    end
  else info.

Section Methods.

Variable W : World.

(** The first [try] either returns or throws, so the code after its empty
    [catch] is what runs when it throws. *)
Definition detectRuntime : M (option RuntimeType) :=
  cached <- get_detectedRuntime ;;
  match cached with
  | Some r => ret (Some r)
  | None =>
      try_catch
        (r <- execAsync W "docker --version" ;;
         if includes (toLowerCase (stdout r)) "podman" then
           console_log "[ContainerRuntime] Detected podman-docker wrapper" ;;;
           set_detectedRuntime (Some podman) ;;;
           ret (Some podman)
         else
           set_detectedRuntime (Some docker) ;;;
           ret (Some docker))
        (fun _ =>
           try_catch
             (execAsync W "podman --version" ;;;
              set_detectedRuntime (Some podman) ;;;
              ret (Some podman))
             (fun _ => ret None))
  end.

(** Lines 73-103 of [getRuntimeInfo]: the fresh [info] is built in a local
    object; only line 98 stores it. *)
Definition probeRuntimeInfo (runtime : RuntimeType) : M (option ContainerRuntimeInfo) :=
  let info := mkInfo runtime EmptyString false None in
  try_catch
    (v <- execAsync W (runtimeName runtime ++ " --version") ;;
     let info := mkInfo (type info) (trim (stdout v)) (composeInstalled info)
                        (composeVersion info) in
     info <- try_catch
               (c <- execAsync W (runtimeName runtime ++ " compose version") ;;
                ret (read_compose info (stdout c)))
               (fun _ =>
                  ret (mkInfo (type info) (version info) false (composeVersion info))) ;;
     set_runtimeInfo (Some info) ;;;
     ret (Some info))
    (fun _ =>
       console_log ("Error getting " ++ runtimeName runtime ++ " info:") ;;;
       ret None).

Definition getRuntimeInfo : M (option ContainerRuntimeInfo) :=
  runtime <- detectRuntime ;;
  match runtime with
  | None => ret None
  | Some runtime =>
      cached <- get_runtimeInfo ;;
      match cached with
      | Some i =>
          if RuntimeType_eqb (type i) runtime then ret (Some i)
          else probeRuntimeInfo runtime
      | None => probeRuntimeInfo runtime
      end
  end.

Definition getCommand : M string :=
  runtime <- detectRuntime ;;
  ret (match runtime with
       | Some r => runtimeName r
       | None => "docker"
       end).

Definition execCommand (command : string) : M ExecResult :=
  runtime <- getCommand ;;
  let fullCommand := replace_leading_engine command runtime in
  execAsync W fullCommand.

Definition isRuntimeRunning : M bool :=
  try_catch
    (runtime <- getCommand ;;
     r <- execAsync W (runtime ++ " ps") ;;
     ret (truthy (stdout r)))
    (fun _ => ret false).

Definition isUserInRuntimeGroup : M bool :=
  try_catch
    (runtime <- detectRuntime ;;
     match runtime with
     | None => ret false
     | Some podman => ret true
     | Some docker =>
         r <- execAsync W "id -Gn" ;;
         let userGroups := stdout r in
         ret (array_includes (split_ws userGroups) "docker")
     end)
    (fun _ => ret false).

Definition requiresGroupMembership : M bool :=
  runtime <- detectRuntime ;;
  ret (match runtime with
       | Some docker => true
       | _ => false
       end).

Definition reset : M unit :=
  set_detectedRuntime None ;;;
  set_runtimeInfo None.

Definition containerInspect (containerName format : string) : M string :=
  runtime <- getCommand ;;
  r <- execAsync W (runtime ++ " inspect --format=" ++ dquote ++ format ++ dquote ++ " " ++ containerName) ;;
  ret (trim (stdout r)).

Definition containerStart (containerName : string) : M string :=
  runtime <- getCommand ;;
  r <- execAsync W (runtime ++ " container start " ++ containerName) ;;
  ret (stdout r).

Definition containerStop (containerName : string) : M string :=
  runtime <- getCommand ;;
  r <- execAsync W (runtime ++ " container stop " ++ containerName) ;;
  ret (stdout r).

Definition containerPause (containerName : string) : M string :=
  runtime <- getCommand ;;
  r <- execAsync W (runtime ++ " container pause " ++ containerName) ;;
  ret (stdout r).

Definition containerUnpause (containerName : string) : M string :=
  runtime <- getCommand ;;
  r <- execAsync W (runtime ++ " container unpause " ++ containerName) ;;
  ret (stdout r).

Definition containerRemove (containerName : string) : M string :=
  runtime <- getCommand ;;
  r <- execAsync W (runtime ++ " rm " ++ containerName) ;;
  ret (stdout r).

Definition volumeRemove (volumeName : string) : M string :=
  runtime <- getCommand ;;
  r <- execAsync W (runtime ++ " volume rm " ++ volumeName) ;;
  ret (stdout r).

Definition containerList (filter : option string) : M string :=
  runtime <- getCommand ;;
  let filterArg :=
    match filter with
    | Some f =>
        if truthy f then "--filter " ++ dquote ++ f ++ dquote else EmptyString
    | None => EmptyString
    end in
  r <- execAsync W (runtime ++ " ps -a " ++ filterArg ++ " --format "
                      ++ dquote ++ "{{.Names}}" ++ dquote) ;;
  ret (stdout r).

Definition composeUp (composeFile : string) : M ExecResult :=
  runtime <- getCommand ;;
  execAsync W (runtime ++ " compose -f " ++ composeFile ++ " up -d").

Definition composeDown (composeFile : string) : M unit :=
  runtime <- getCommand ;;
  execAsync W (runtime ++ " compose -f " ++ composeFile ++ " down") ;;;
  ret tt.

(** [None] is [undefined]. *)
Definition getNetworkMode : M (option string) :=
  runtime <- detectRuntime ;;
  match runtime with
  | Some podman =>
      try_catch
        (info <- getRuntimeInfo ;;
         ret (match info with
              | Some i =>
                  if truthy (version i) && includes (version i) "4.4"
                  then Some "pasta" else Some "slirp4netns"
              | None => Some "slirp4netns"
              end))
        (fun _ => ret (Some "slirp4netns"))
  | _ => ret None
  end.

End Methods.

End ContainerRuntime.

(* ===================================================================== *)
(** * src/renderer/lib/specs.ts *)
(* ===================================================================== *)

Module SpecsTs.

Import JS.

(** The global type [Specs]; its fields are those of [defaultSpecs]. *)
Record Specs : Type := mkSpecs {
  cpuCores : number;
  ramGB : number;
  kvmEnabled : bool;
  dockerInstalled : bool;
  dockerComposeInstalled : bool;
  dockerIsRunning : bool;
  dockerIsInUserGroups : bool;
  freeRDP3Installed : bool;
  ipTablesLoaded : bool;
  iptableNatLoaded : bool
}.

Definition defaultSpecs : Specs :=
  mkSpecs (of_Z 0) (of_Z 0) false false false false false false false false.

Definition set_cpuCores (v : number) (s : Specs) : Specs :=
  mkSpecs v (ramGB s) (kvmEnabled s) (dockerInstalled s)
          (dockerComposeInstalled s) (dockerIsRunning s)
          (dockerIsInUserGroups s) (freeRDP3Installed s) (ipTablesLoaded s)
          (iptableNatLoaded s).

Definition set_ramGB (v : number) (s : Specs) : Specs :=
  mkSpecs (cpuCores s) v (kvmEnabled s) (dockerInstalled s)
          (dockerComposeInstalled s) (dockerIsRunning s)
          (dockerIsInUserGroups s) (freeRDP3Installed s) (ipTablesLoaded s)
          (iptableNatLoaded s).

Definition set_kvmEnabled (v : bool) (s : Specs) : Specs :=
  mkSpecs (cpuCores s) (ramGB s) v (dockerInstalled s)
          (dockerComposeInstalled s) (dockerIsRunning s)
          (dockerIsInUserGroups s) (freeRDP3Installed s) (ipTablesLoaded s)
          (iptableNatLoaded s).

Definition set_dockerInstalled (v : bool) (s : Specs) : Specs :=
  mkSpecs (cpuCores s) (ramGB s) (kvmEnabled s) v
          (dockerComposeInstalled s) (dockerIsRunning s)
          (dockerIsInUserGroups s) (freeRDP3Installed s) (ipTablesLoaded s)
          (iptableNatLoaded s).

Definition set_dockerComposeInstalled (v : bool) (s : Specs) : Specs :=
  mkSpecs (cpuCores s) (ramGB s) (kvmEnabled s) (dockerInstalled s)
          v (dockerIsRunning s)
          (dockerIsInUserGroups s) (freeRDP3Installed s) (ipTablesLoaded s)
          (iptableNatLoaded s).

Definition set_dockerIsRunning (v : bool) (s : Specs) : Specs :=
  mkSpecs (cpuCores s) (ramGB s) (kvmEnabled s) (dockerInstalled s)
          (dockerComposeInstalled s) v
          (dockerIsInUserGroups s) (freeRDP3Installed s) (ipTablesLoaded s)
          (iptableNatLoaded s).

Definition set_dockerIsInUserGroups (v : bool) (s : Specs) : Specs :=
  mkSpecs (cpuCores s) (ramGB s) (kvmEnabled s) (dockerInstalled s)
          (dockerComposeInstalled s) (dockerIsRunning s)
          v (freeRDP3Installed s) (ipTablesLoaded s)
          (iptableNatLoaded s).

Definition set_freeRDP3Installed (v : bool) (s : Specs) : Specs :=
  mkSpecs (cpuCores s) (ramGB s) (kvmEnabled s) (dockerInstalled s)
          (dockerComposeInstalled s) (dockerIsRunning s)
          (dockerIsInUserGroups s) v (ipTablesLoaded s)
          (iptableNatLoaded s).

Definition set_ipTablesLoaded (v : bool) (s : Specs) : Specs :=
  mkSpecs (cpuCores s) (ramGB s) (kvmEnabled s) (dockerInstalled s)
          (dockerComposeInstalled s) (dockerIsRunning s)
          (dockerIsInUserGroups s) (freeRDP3Installed s) v
          (iptableNatLoaded s).

Definition set_iptableNatLoaded (v : bool) (s : Specs) : Specs :=
  mkSpecs (cpuCores s) (ramGB s) (kvmEnabled s) (dockerInstalled s)
          (dockerComposeInstalled s) (dockerIsRunning s)
          (dockerIsInUserGroups s) (freeRDP3Installed s) (ipTablesLoaded s)
          v.

(** [export type MemoryInfo] *)
Record MemoryInfo : Type := mkMemoryInfo {
  totalGB : number;
  availableGB : number
}.

(** [Math.round(parseInt(line.split(/\s+/)[1]) / 1024 / 1024 * 100) / 100],
    kept exact, as every number is. *)
Definition kB_line_to_GB (line : string) : number :=
  div (round (mul (div (div
    (parseInt (at_index (split_ws line) 1) None)
    1024) 1024) 100)) 100.

Definition newline : ascii := ascii_of_nat 10.

Definition lscpu_command : string :=
  "lscpu -p | egrep -v " ++ dquote ++ "^#"
  ++ dquote ++ " | sort -u -t, -k 2,4 | wc -l".

Section Functions.

Variable W : World.

(** The conjunction of lines 14-23, after the group gate of lines 11-12. *)
Definition satisfiesPrequisites (specs : Specs) : M bool :=
  requiresGroup <- ContainerRuntime.requiresGroupMembership W ;;
  let groupCheckPassed :=
    if requiresGroup then dockerIsInUserGroups specs else true in
  ret (dockerInstalled specs &&
       dockerComposeInstalled specs &&
       dockerIsRunning specs &&
       groupCheckPassed &&
       freeRDP3Installed specs &&
       ipTablesLoaded specs &&
       iptableNatLoaded specs &&
       kvmEnabled specs &&
       ge (ramGB specs) (of_Z 4) &&
       ge (cpuCores specs) (of_Z 2)).

Definition getMemoryInfo : M MemoryInfo :=
  try_catch
    (memInfo <- readFileSync W "/proc/meminfo" ;;
     let totalMemLine :=
       array_find (fun line => startsWith line "MemTotal")
                  (split_char newline memInfo) in
     let availableMemLine :=
       array_find (fun line => startsWith line "MemAvailable")
                  (split_char newline memInfo) in
     let total :=
       match totalMemLine with
       | Some l => if truthy l then kB_line_to_GB l else of_Z 0
       | None => of_Z 0
       end in
     let available :=
       match availableMemLine with
       | Some l => if truthy l then kB_line_to_GB l else of_Z 0
       | None => of_Z 0
       end in
     ret (mkMemoryInfo total available))
    (fun e =>
       console_log "Error reading /proc/meminfo:" ;;;
       throw e).

(** [getSpecs] is a sequence of [try] blocks, each with its own [catch];
    a block updates the local object [specs], and one that throws leaves
    it as the blocks before made it.  The blocks are named after the
    comments that head them. *)

(** Lines 42-48: physical CPU cores check. *)
Definition cpuCoresCheck (specs : Specs) : M Specs :=
  try_catch
    (r <- execAsync W lscpu_command ;;
     ret (set_cpuCores (parseInt (trim (stdout r)) (Some 10%Z)) specs))
    (fun _ => console_log "Error getting CPU cores:" ;;; ret specs).

(** Lines 50-57: memory. *)
Definition memoryCheck (specs : Specs) : M Specs :=
  try_catch
    (memoryInfo <- getMemoryInfo ;;
     ret (set_ramGB (totalGB memoryInfo) specs))
    (fun _ => console_log "Error reading /proc/meminfo:" ;;; ret specs).

(** Lines 59-67: KVM check; [&&] asks for [/dev/kvm] only when a flag is
    there. *)
Definition kvmCheck (specs : Specs) : M Specs :=
  try_catch
    (cpuInfo <- readFileSync W "/proc/cpuinfo" ;;
     if includes cpuInfo "vmx" || includes cpuInfo "svm" then
       e <- existsSync W "/dev/kvm" ;;
       ret (if e then set_kvmEnabled true specs else specs)
     else ret specs)
    (fun _ =>
       console_log "Error reading /proc/cpuinfo or checking /dev/kvm:" ;;;
       ret specs).

(** Lines 69-75: container runtime check. *)
Definition runtimeCheck (specs : Specs) : M Specs :=
  try_catch
    (runtime <- ContainerRuntime.detectRuntime W ;;
     ret (set_dockerInstalled
            (match runtime with Some _ => true | None => false end)
            specs))
    (fun _ =>
       console_log "Error checking for container runtime installation:" ;;;
       ret specs).

(** Lines 77-87: compose plugin check. *)
Definition composeCheck (specs : Specs) : M Specs :=
  try_catch
    (runtimeInfo <- ContainerRuntime.getRuntimeInfo W ;;
     ret (match runtimeInfo with
          | Some i => set_dockerComposeInstalled (composeInstalled i) specs
          | None => set_dockerComposeInstalled false specs
          end))
    (fun _ =>
       console_log "Error checking container runtime compose version:" ;;;
       ret specs).

(** Lines 89-94: container runtime is running check. *)
Definition runningCheck (specs : Specs) : M Specs :=
  try_catch
    (b <- ContainerRuntime.isRuntimeRunning W ;;
     ret (set_dockerIsRunning b specs))
    (fun _ =>
       console_log "Error checking if container runtime is running:" ;;;
       ret specs).

(** Lines 96-101: user group check. *)
Definition userGroupCheck (specs : Specs) : M Specs :=
  try_catch
    (b <- ContainerRuntime.isUserInRuntimeGroup W ;;
     ret (set_dockerIsInUserGroups b specs))
    (fun _ =>
       console_log "Error checking user groups for container runtime:" ;;;
       ret specs).

(** Lines 103-109: FreeRDP check. *)
Definition freeRDPCheck (specs : Specs) : M Specs :=
  try_catch
    (freeRDPBin <- getFreeRDP W ;;
     ret (set_freeRDP3Installed freeRDPBin specs))
    (fun _ =>
       console_log "Error checking FreeRDP 3.x.x installation (most likely not installed):" ;;;
       ret specs).

(** Lines 111-117: ip_tables kernel module check. *)
Definition ipTablesCheck (specs : Specs) : M Specs :=
  try_catch
    (r <- execAsync W "lsmod | grep ip_tables" ;;
     ret (set_ipTablesLoaded (truthy (trim (stdout r))) specs))
    (fun _ => console_log "Error checking ip_tables module:" ;;; ret specs).

(** Lines 119-125: iptable_nat kernel module check. *)
Definition iptableNatCheck (specs : Specs) : M Specs :=
  try_catch
    (r <- execAsync W "lsmod | grep iptable_nat" ;;
     ret (set_iptableNatLoaded (truthy (trim (stdout r))) specs))
    (fun _ => console_log "Error checking iptable_nat module:" ;;; ret specs).

Definition getSpecs : M Specs :=
  let specs := defaultSpecs in
  specs <- cpuCoresCheck specs ;;
  specs <- memoryCheck specs ;;
  specs <- kvmCheck specs ;;
  specs <- runtimeCheck specs ;;
  specs <- composeCheck specs ;;
  specs <- runningCheck specs ;;
  specs <- userGroupCheck specs ;;
  specs <- freeRDPCheck specs ;;
  specs <- ipTablesCheck specs ;;
  specs <- iptableNatCheck specs ;;
  console_log "Specs:" ;;;
  ret specs.

End Functions.

End SpecsTs.

(* ===================================================================== *)
(** * Sequences of calls *)
(* ===================================================================== *)

(** A call of an exported function by the rest of the program. *)
Inductive Call : Type :=
| CallDetectRuntime
| CallGetRuntimeInfo
| CallGetCommand
| CallExecCommand (command : string)
| CallIsRuntimeRunning
| CallIsUserInRuntimeGroup
| CallRequiresGroupMembership
| CallReset
| CallContainerInspect (containerName format : string)
| CallContainerStart (containerName : string)
| CallContainerStop (containerName : string)
| CallContainerPause (containerName : string)
| CallContainerUnpause (containerName : string)
| CallContainerRemove (containerName : string)
| CallVolumeRemove (volumeName : string)
| CallContainerList (filter : option string)
| CallComposeUp (composeFile : string)
| CallComposeDown (composeFile : string)
| CallGetNetworkMode
| CallSatisfiesPrequisites (specs : SpecsTs.Specs)
| CallGetSpecs
| CallGetMemoryInfo.

Definition is_reset (c : Call) : bool :=
  match c with CallReset => true | _ => false end.

Section Calls.

Variable W : World.

(** State in which a call leaves the program, whether it returns or
    throws. *)
Definition after (c : Call) (s : State) : State :=
  match c with
  | CallDetectRuntime => snd (ContainerRuntime.detectRuntime W s)
  | CallGetRuntimeInfo => snd (ContainerRuntime.getRuntimeInfo W s)
  | CallGetCommand => snd (ContainerRuntime.getCommand W s)
  | CallExecCommand command => snd (ContainerRuntime.execCommand W command s)
  | CallIsRuntimeRunning => snd (ContainerRuntime.isRuntimeRunning W s)
  | CallIsUserInRuntimeGroup => snd (ContainerRuntime.isUserInRuntimeGroup W s)
  | CallRequiresGroupMembership => snd (ContainerRuntime.requiresGroupMembership W s)
  | CallReset => snd (ContainerRuntime.reset s)
  | CallContainerInspect n f => snd (ContainerRuntime.containerInspect W n f s)
  | CallContainerStart n => snd (ContainerRuntime.containerStart W n s)
  | CallContainerStop n => snd (ContainerRuntime.containerStop W n s)
  | CallContainerPause n => snd (ContainerRuntime.containerPause W n s)
  | CallContainerUnpause n => snd (ContainerRuntime.containerUnpause W n s)
  | CallContainerRemove n => snd (ContainerRuntime.containerRemove W n s)
  | CallVolumeRemove n => snd (ContainerRuntime.volumeRemove W n s)
  | CallContainerList f => snd (ContainerRuntime.containerList W f s)
  | CallComposeUp f => snd (ContainerRuntime.composeUp W f s)
  | CallComposeDown f => snd (ContainerRuntime.composeDown W f s)
  | CallGetNetworkMode => snd (ContainerRuntime.getNetworkMode W s)
  | CallSatisfiesPrequisites specs => snd (SpecsTs.satisfiesPrequisites W specs s)
  | CallGetSpecs => snd (SpecsTs.getSpecs W s)
  | CallGetMemoryInfo => snd (SpecsTs.getMemoryInfo W s)
  end.

(** The calls of [cs] one after the other, first to last. *)
Definition run (cs : list Call) (s : State) : State :=
  fold_left (fun s c => after c s) cs s.

End Calls.

(* ===================================================================== *)
(** * Calls in flight together *)
(* ===================================================================== *)

(** [detectRuntime] and [getRuntimeInfo] once more, now with their [await]s
    visible: lines 34 and 52 of [detectRuntime], lines 80 and 85 of
    [getRuntimeInfo].  Between two awaits a function runs undisturbed; at
    an await of a command the event loop may run other callers before it
    hands the answer back.  The await of [detectRuntime] at line 66 yields
    as well; it is left out, so that every run made here is one the
    program can make. *)
Module Async.

Import JS.

(** An async function: done, waiting for a command, looking at the static
    fields, or writing to them (or to the console). *)
Inductive Proc (A : Type) : Type :=
| Done (o : outcome A)
| AwaitExec (cmd : string) (k : outcome ExecResult -> Proc A)
| Read (k : State -> Proc A)
| Update (f : State -> State) (p : Proc A).
Arguments Done {A} o.
Arguments AwaitExec {A} cmd k.
Arguments Read {A} k.
Arguments Update {A} f p.

Definition ret {A} (a : A) : Proc A := Done (Return a).

Fixpoint bind {A B} (p : Proc A) (k : A -> Proc B) : Proc B :=
  match p with
  | Done (Return a) => k a
  | Done (Throw e) => Done (Throw e)
  | AwaitExec cmd c => AwaitExec cmd (fun r => bind (c r) k)
  | Read c => Read (fun s => bind (c s) k)
  | Update f p' => Update f (bind p' k)
  end.

Fixpoint try_catch {A} (body : Proc A) (handler : error -> Proc A) : Proc A :=
  match body with
  | Done (Return a) => Done (Return a)
  | Done (Throw e) => handler e
  | AwaitExec cmd c => AwaitExec cmd (fun r => try_catch (c r) handler)
  | Read c => Read (fun s => try_catch (c s) handler)
  | Update f p' => Update f (try_catch p' handler)
  end.

Definition execAsync (cmd : string) : Proc ExecResult :=
  AwaitExec cmd (fun r => Done r).

Definition get_detectedRuntime : Proc (option RuntimeType) :=
  Read (fun s => ret (detectedRuntime s)).

Definition set_detectedRuntime (r : option RuntimeType) : Proc unit :=
  Update (fun s => mkState r (runtimeInfo s) (trace s) (console s)) (ret tt).

Definition get_runtimeInfo : Proc (option ContainerRuntimeInfo) :=
  Read (fun s => ret (runtimeInfo s)).

Definition set_runtimeInfo (i : option ContainerRuntimeInfo) : Proc unit :=
  Update (fun s => mkState (detectedRuntime s) i (trace s) (console s)) (ret tt).

Definition console_log (msg : string) : Proc unit :=
  Update (fun s => mkState (detectedRuntime s) (runtimeInfo s) (trace s)
                           (console s ++ [msg])%list)
         (ret tt).

(** Lines 27-60. *)
Definition detectRuntime : Proc (option RuntimeType) :=
  bind get_detectedRuntime (fun cached =>
  match cached with
  | Some r => ret (Some r)
  | None =>
      try_catch
        (bind (execAsync "docker --version") (fun r =>
         if includes (toLowerCase (stdout r)) "podman" then
           bind (console_log "[ContainerRuntime] Detected podman-docker wrapper")
             (fun _ =>
           bind (set_detectedRuntime (Some podman)) (fun _ =>
           ret (Some podman)))
         else
           bind (set_detectedRuntime (Some docker)) (fun _ =>
           ret (Some docker))))
        (fun _ =>
           try_catch
             (bind (execAsync "podman --version") (fun _ =>
              bind (set_detectedRuntime (Some podman)) (fun _ =>
              ret (Some podman))))
             (fun _ => ret None))
  end).

(** Lines 73-103. *)
Definition probeRuntimeInfo (runtime : RuntimeType)
  : Proc (option ContainerRuntimeInfo) :=
  let info := mkInfo runtime EmptyString false None in
  try_catch
    (bind (execAsync (runtimeName runtime ++ " --version")) (fun v =>
     let info := mkInfo (type info) (trim (stdout v)) (composeInstalled info)
                        (composeVersion info) in
     bind (try_catch
             (bind (execAsync (runtimeName runtime ++ " compose version"))
                (fun c => ret (ContainerRuntime.read_compose info (stdout c))))
             (fun _ =>
                ret (mkInfo (type info) (version info) false
                            (composeVersion info))))
       (fun info =>
     bind (set_runtimeInfo (Some info)) (fun _ =>
     ret (Some info)))))
    (fun _ =>
       bind (console_log ("Error getting " ++ runtimeName runtime ++ " info:"))
         (fun _ => ret None)).

(** Lines 65-104. *)
Definition getRuntimeInfo : Proc (option ContainerRuntimeInfo) :=
  bind detectRuntime (fun runtime =>
  match runtime with
  | None => ret None
  | Some runtime =>
      bind get_runtimeInfo (fun cached =>
      match cached with
      | Some i =>
          if RuntimeType_eqb (type i) runtime then ret (Some i)
          else probeRuntimeInfo runtime
      | None => probeRuntimeInfo runtime
      end)
  end).

(** A caller between two turns of the event loop: it has returned or
    thrown, or its command has been sent and the answer waits for it. *)
Inductive Pending (A : Type) : Type :=
| Finished (o : outcome A)
| Waiting (answer : outcome ExecResult) (k : outcome ExecResult -> Proc A).
Arguments Finished {A} o.
Arguments Waiting {A} answer k.

Section Loop.

Variable W : World.

(** Runs a caller up to its next await: the command is sent (and recorded)
    at once, the host answering as it does at that moment. *)
Fixpoint advance {A} (p : Proc A) (s : State) : Pending A * State :=
  match p with
  | Done o => (Finished o, s)
  | AwaitExec cmd k => (Waiting (run_exec W (trace s) cmd) k, record (Exec cmd) s)
  | Read k => advance (k s) s
  | Update f p' => advance p' (f s)
  end.

(** Hands a waiting caller its answer and runs it up to its next await. *)
Definition resume {A} (x : Pending A) (s : State) : Pending A * State :=
  match x with
  | Finished o => (Finished o, s)
  | Waiting answer k => advance (k answer) s
  end.

(** A caller that is resumed at once at each await: nothing else runs
    before it is done. *)
Fixpoint alone {A} (p : Proc A) (s : State) : outcome A * State :=
  match p with
  | Done o => (o, s)
  | AwaitExec cmd k => alone (k (run_exec W (trace s) cmd)) (record (Exec cmd) s)
  | Read k => alone (k s) s
  | Update f p' => alone p' (f s)
  end.

End Loop.

End Async.

(* ===================================================================== *)
(** * Vocabulary of the statements *)
(* ===================================================================== *)

(** A request that the host refuses whenever it is made. *)
Definition always_fails {A} (answer : Trace -> outcome A) : Prop :=
  forall t, exists e, answer t = Throw e.

(** The two cache fields are as before. *)
Definition same_cache (s s' : State) : Prop :=
  detectedRuntime s' = detectedRuntime s /\ runtimeInfo s' = runtimeInfo s.

(** A computation that cannot throw. *)
Definition returns {A} (m : M A) : Prop :=
  forall s, exists a s', m s = (Return a, s').

(** The requests a computation adds to the trace come after those already
    there. *)
Definition extends (s s' : State) : Prop :=
  exists t, trace s' = (trace s ++ t)%list.

(** A computation keeps a property of the state, whether it returns or
    throws. *)
Definition keeps (I : State -> Prop) {A} (m : M A) : Prop :=
  forall s, I s -> I (snd (m s)).

(** The cached info, when there is one, is about the cached kind. *)
Definition coherent (s : State) : Prop :=
  forall i, runtimeInfo s = Some i -> detectedRuntime s = Some (type i).

(** Line 69: the cached info is served when it is about [r]. *)
Definition cache_hit (s : State) (r : RuntimeType) : bool :=
  match runtimeInfo s with
  | Some i => RuntimeType_eqb (type i) r
  | None => false
  end.

Definition no_reset (cs : list Call) : bool :=
  forallb (fun c => negb (is_reset c)) cs.

(** The info assembled from the two outputs (lines 73-96). *)
Definition assembled (r : RuntimeType) (v : ExecResult)
                     (c : outcome ExecResult) : ContainerRuntimeInfo :=
  let info := mkInfo r (JS.trim (stdout v)) false None in
  match c with
  | Return c => ContainerRuntime.read_compose info (stdout c)
  | Throw _ => info
  end.

(* ===================================================================== *)
(** * The pattern [\d+\.\d+\.\d+], declaratively *)
(* ===================================================================== *)

Module Semver.

Import JS.

Fixpoint all_digits (s : string) : bool :=
  match s with
  | EmptyString => true
  | String c s' => isDigit c && all_digits s'
  end.

(** [\d+]: one digit or more, and nothing else. *)
Definition is_number (s : string) : bool := truthy s && all_digits s.

Definition starts_with_digit (s : string) : bool :=
  match s with
  | String c _ => isDigit c
  | EmptyString => false
  end.

(** The strings the whole pattern matches. *)
Definition shaped (m : string) : Prop :=
  exists a b c,
    is_number a = true /\ is_number b = true /\ is_number c = true /\
    m = a ++ "." ++ b ++ "." ++ c.

(** [m] occurs in [s] and the pattern matches it. *)
Definition occurs (s m : string) : Prop :=
  exists pre post, s = pre ++ m ++ post /\ shaped m.

(** [m] is what a regular expression engine reports for [s]: the match
    starts at the leftmost position where one can start, and takes as many
    digits as there are. *)
Definition leftmost (s m : string) : Prop :=
  exists pre post,
    s = pre ++ m ++ post /\ shaped m /\ starts_with_digit post = false /\
    forall pre' m' post',
      s = pre' ++ m' ++ post' -> shaped m' ->
      (String.length pre <= String.length pre')%nat.

(** Value of a string of decimal digits, read after [acc]. *)
Fixpoint decimal_from (acc : Z) (s : string) : Z :=
  match s with
  | EmptyString => acc
  | String c s' => decimal_from (acc * 10 + (Z.of_N (code c) - 48)) s'
  end.

Definition decimal (s : string) : Z := decimal_from 0 s.

(** The major component as line 90 reads it:
    [parseInt(m.split('.')[0], 10)]. *)
Definition major (m : string) : number :=
  parseInt (at_index (split_char "." m) 0) (Some 10%Z).

End Semver.

(* ===================================================================== *)
(** * Words between white space, declaratively *)
(* ===================================================================== *)

Module Words.

Import JS.

Fixpoint no_space (w : string) : bool :=
  match w with
  | EmptyString => true
  | String c w' => negb (isSpace c) && no_space w'
  end.

Definition starts_with_space (s : string) : bool :=
  match s with
  | String c _ => isSpace c
  | EmptyString => false
  end.

Fixpoint ends_with_space (s : string) : bool :=
  match s with
  | EmptyString => false
  | String c EmptyString => isSpace c
  | String _ s' => ends_with_space s'
  end.

(** The characters before the first white space. *)
Fixpoint leading_word (s : string) : string :=
  match s with
  | EmptyString => EmptyString
  | String c s' => if isSpace c then EmptyString else String c (leading_word s')
  end.

(** [w] stands in [s] right after white space, and white space or the end
    of [s] follows it. *)
Definition later (s w : string) : Prop :=
  exists pre post,
    s = pre ++ w ++ post /\ ends_with_space pre = true /\
    (post = EmptyString \/ starts_with_space post = true).

(** [w] stands in [s] as a word: between white space or the ends of
    [s]. *)
Definition word_at (s w : string) : Prop :=
  exists pre post,
    s = pre ++ w ++ post /\
    (pre = EmptyString \/ ends_with_space pre = true) /\
    (post = EmptyString \/ starts_with_space post = true).

End Words.

(* ===================================================================== *)
(** * Vocabulary for the other functions *)
(* ===================================================================== *)

Module Text.

Import JS Words.

Fixpoint all_space (s : string) : bool :=
  match s with
  | EmptyString => true
  | String c s' => isSpace c && all_space s'
  end.

(** [n] space characters. *)
Fixpoint spaces (n : nat) : string :=
  match n with
  | O => EmptyString
  | S n' => String " " (spaces n')
  end.

(** No white space at either end. *)
Definition trimmed (s : string) : Prop :=
  starts_with_space s = false /\ ends_with_space s = false.

(** The character [c] does not occur in [s]. *)
Fixpoint lacks (c : ascii) (s : string) : bool :=
  match s with
  | EmptyString => true
  | String d s' => negb (Ascii.eqb d c) && lacks c s'
  end.

End Text.

(** What a cached info looks like: a trimmed version; a compose version,
    when there is one, that the pattern matches; and compose counted as
    installed only with a compose version of major component 2 or more. *)
Definition well_formed_info (i : ContainerRuntimeInfo) : Prop :=
  Text.trimmed (version i) /\
  (forall m, composeVersion i = Some m -> Semver.shaped m) /\
  (composeInstalled i = true ->
   exists m, composeVersion i = Some m /\
             JS.ge (Semver.major m) (JS.of_Z 2) = true).

(** The name [getCommand] resolves from a detection result. *)
Definition resolved_name (detected : outcome (option RuntimeType)) : string :=
  match detected with
  | Return (Some r) => runtimeName r
  | _ => "docker"
  end.

(** One command sent to the host from state [s]: its standard output when
    it succeeds, its error thrown on when it fails. *)
Definition passthrough (W : World) (cmd : string) (s : State)
  : outcome string * State :=
  (match run_exec W (trace s) cmd with
   | Return o => Return (stdout o)
   | Throw e => Throw e
   end,
   record (Exec cmd) s).

(** Lines 139-154 of [getMemoryInfo]: what it makes of the content of
    [/proc/meminfo]. *)
Definition parseMemInfo (memInfo : string) : SpecsTs.MemoryInfo :=
  let totalMemLine :=
    JS.array_find (fun line => JS.startsWith line "MemTotal")
                  (JS.split_char SpecsTs.newline memInfo) in
  let availableMemLine :=
    JS.array_find (fun line => JS.startsWith line "MemAvailable")
                  (JS.split_char SpecsTs.newline memInfo) in
  SpecsTs.mkMemoryInfo
    match totalMemLine with
    | Some l => if JS.truthy l then SpecsTs.kB_line_to_GB l else JS.of_Z 0
    | None => JS.of_Z 0
    end
    match availableMemLine with
    | Some l => if JS.truthy l then SpecsTs.kB_line_to_GB l else JS.of_Z 0
    | None => JS.of_Z 0
    end.

(** [Math.round(kB / 1024 / 1024 * 100) / 100] on an integer, in exact
    arithmetic; the statements use it through comparisons with 4 only. *)
Definition kB_to_GB (kB : Z) : Q :=
  inject_Z (Qfloor (inject_Z kB / 1024 / 1024 * 100 + (1 # 2))) / 100.

(* ===================================================================== *)
(** * Example hosts *)
(* ===================================================================== *)

Definition nl : string := String SpecsTs.newline EmptyString.

Fixpoint lookup (k : string) (tbl : list (string * string)) : option string :=
  match tbl with
  | [] => None
  | (k', v) :: tbl' => if String.eqb k k' then Some v else lookup k tbl'
  end.

(** A host that does not change: the commands of [cmds] succeed with the
    given output, the files of [files] exist with the given content, and
    everything else fails. *)
Definition staticHost (cmds files : list (string * string))
                      (rdp : outcome bool) : World :=
  mkWorld
    (fun _ cmd =>
       match lookup cmd cmds with
       | Some out => Return (mkExecResult out EmptyString)
       | None => Throw "Command failed"
       end)
    (fun _ path =>
       match lookup path files with
       | Some content => Return content
       | None => Throw "ENOENT"
       end)
    (fun _ path =>
       match lookup path files with Some _ => true | None => false end)
    (fun _ => rdp).

(** Nothing installed, nothing readable. *)
Definition bareHost : World := staticHost [] [] (Throw "not found").

(** Podman with the podman-docker package: [docker] is a wrapper. *)
Definition shimHost : World :=
  staticHost
    [("docker --version", "podman version 4.4.1");
     ("podman --version", "podman version 4.4.1");
     ("podman compose version",
      "podman-compose version 1.0.6 using podman version 4.4.1");
     ("podman ps", "CONTAINER ID  IMAGE  COMMAND  CREATED  STATUS  PORTS  NAMES")]
    [] (Return true).

(** Genuine Docker with the compose plugin; the user is in the group. *)
Definition dockerHost : World :=
  staticHost
    [("docker --version", "Docker version 24.0.7, build afdd53b");
     ("docker compose version", "Docker Compose version v2.5.1");
     ("docker ps", "CONTAINER ID   IMAGE     COMMAND   CREATED   STATUS    PORTS     NAMES");
     ("id -Gn", "alice wheel docker")]
    [] (Return true).

(** Docker with the old compose, version 1. *)
Definition oldComposeHost : World :=
  staticHost
    [("docker --version", "Docker version 20.10.7, build f0df350");
     ("docker compose version", "1.29.0")]
    [] (Return false).

(** Docker without any compose plugin. *)
Definition noComposeHost : World :=
  staticHost
    [("docker --version", "Docker version 24.0.7, build afdd53b")]
    [] (Return false).

(** A host on which Docker appears only after two requests were answered:
    it is installed while the program runs. *)
Definition lateDockerHost : World :=
  mkWorld
    (fun t cmd =>
       if (length t <? 2)%nat then Throw "Command failed"
       else run_exec dockerHost t cmd)
    (read_file dockerHost)
    (file_exists dockerHost)
    (locate_freerdp dockerHost).

(** A host on which Docker answers the first request and none after it:
    it is removed while the program runs. *)
Definition vanishingDockerHost : World :=
  mkWorld
    (fun t cmd =>
       if (length t =? 0)%nat then run_exec dockerHost t cmd
       else Throw "Command failed")
    (read_file dockerHost)
    (file_exists dockerHost)
    (locate_freerdp dockerHost).

(** A host on which the requests after the third all fail: Docker and
    its compose plugin answer once and are then removed. *)
Definition vanishingComposeHost : World :=
  mkWorld
    (fun t cmd =>
       if (length t <? 3)%nat then run_exec dockerHost t cmd
       else Throw "Command failed")
    (read_file dockerHost)
    (file_exists dockerHost)
    (locate_freerdp dockerHost).

(** Docker with a running container and a compose file that can be
    brought down. *)
Definition composeHost : World :=
  staticHost
    [("docker --version", "Docker version 24.0.7, build afdd53b" ++ nl);
     ("docker inspect --format=" ++ JS.dquote ++ "{{.State.Status}}"
      ++ JS.dquote ++ " WinBoat", "running" ++ nl);
     ("docker compose -f compose.yml down", EmptyString)]
    [] (Return true).

(** A host whose [/proc/meminfo] has no total in it. *)
Definition noTotalHost : World :=
  staticHost [] [("/proc/meminfo", "MemFree:         1234567 kB" ++ nl)]
             (Return false).

(** A host on which [docker] is Docker for the first request and the
    Podman wrapper from then on: the podman-docker package replaces it
    while the program runs. *)
Definition swappedHost : World :=
  mkWorld
    (fun t cmd =>
       if (length t =? 0)%nat then run_exec dockerHost t cmd
       else run_exec shimHost t cmd)
    (read_file shimHost)
    (file_exists shimHost)
    (locate_freerdp shimHost).

(** A host with Podman alone, of a version before 4.4. *)
Definition oldPodmanHost : World :=
  staticHost
    [("podman --version", "podman version 3.0.1");
     ("podman ps", "CONTAINER ID  IMAGE  COMMAND  CREATED  STATUS  PORTS  NAMES")]
    [] (Return true).

(** Docker, but the user is not in the group. *)
Definition outsiderHost : World :=
  staticHost
    [("docker --version", "Docker version 24.0.7, build afdd53b");
     ("docker compose version", "Docker Compose version v2.5.1");
     ("docker ps", "CONTAINER ID   IMAGE     COMMAND   CREATED   STATUS    PORTS     NAMES");
     ("id -Gn", "alice wheel dockerusers")]
    [] (Return true).

(** A host that is ready: 8 cores, 16 GB, KVM, Docker with compose 2.5.1,
    the user in the group, FreeRDP and both kernel modules. *)
Definition readyHost : World :=
  staticHost
    [("docker --version", "Docker version 24.0.7, build afdd53b" ++ nl);
     ("docker compose version", "Docker Compose version v2.5.1" ++ nl);
     ("docker ps", "CONTAINER ID   IMAGE     COMMAND   CREATED   STATUS    PORTS     NAMES" ++ nl);
     ("id -Gn", "alice wheel docker" ++ nl);
     (SpecsTs.lscpu_command, "8" ++ nl);
     ("lsmod | grep ip_tables", "ip_tables             32768  0" ++ nl);
     ("lsmod | grep iptable_nat", "iptable_nat            16384  1" ++ nl)]
    [("/proc/meminfo",
      "MemTotal:       16384256 kB" ++ nl ++
      "MemFree:         1234567 kB" ++ nl ++
      "MemAvailable:    8000000 kB" ++ nl);
     ("/proc/cpuinfo", "flags           : fpu vme de pse vmx sse sse2" ++ nl);
     ("/dev/kvm", EmptyString)]
    (Return true).

(** The inputs of the end-to-end readiness example: everything satisfied,
    4 GB, 2 cores, and the group check as given. *)
Definition exampleSpecs (groupSatisfied : bool) : SpecsTs.Specs :=
  SpecsTs.mkSpecs (JS.of_Z 2) (JS.of_Z 4) true true true true groupSatisfied
                  true true true.

(* ===================================================================== *)
(** * Facts about the string primitives *)
(* ===================================================================== *)

Module JSFacts.

Import JS.

Lemma startsWith_app (p r : string) : startsWith (p ++ r) p = true.
Proof.
  induction p as [|c p IH]; simpl.
  - reflexivity.
  - now rewrite Ascii.eqb_refl.
Qed.

Lemma startsWith_split (s p : string) :
  startsWith s p = true -> exists r, s = p ++ r.
Proof.
  revert s; induction p as [|b p IH]; intros s H.
  - now exists s.
  - destruct s as [|a s]; simpl in H; [discriminate|].
    apply andb_true_iff in H as [Hab Hs].
    apply Ascii.eqb_eq in Hab; subst b.
    destruct (IH _ Hs) as [r ->]. now exists r.
Qed.

Lemma append_assoc (a b c : string) : (a ++ b) ++ c = a ++ (b ++ c).
Proof. induction a; simpl; congruence. Qed.

Lemma append_empty_r (a : string) : a ++ EmptyString = a.
Proof. induction a; simpl; congruence. Qed.

Lemma includes_startsWith (s p : string) :
  startsWith s p = true -> includes s p = true.
Proof. intros H. destruct s; simpl; now rewrite H. Qed.

(** [includes] is the test for an occurrence somewhere in the string. *)
Lemma includes_iff (s p : string) :
  includes s p = true <-> exists a b, s = a ++ p ++ b.
Proof.
  split.
  - induction s as [|c s IH]; simpl; intros H.
    + rewrite orb_false_r in H.
      destruct (startsWith_split _ _ H) as [r Hr].
      exists EmptyString, r. exact Hr.
    + apply orb_true_iff in H as [H|H].
      * destruct (startsWith_split _ _ H) as [r Hr].
        exists EmptyString, r. exact Hr.
      * destruct (IH H) as (a & b & ->).
        now exists (String c a), b.
  - intros (a & b & ->).
    induction a as [|c a IH]; simpl.
    + apply includes_startsWith, startsWith_app.
    + rewrite IH. apply orb_true_r.
Qed.

Lemma toLowerCase_app (a b : string) :
  toLowerCase (a ++ b) = toLowerCase a ++ toLowerCase b.
Proof. induction a; simpl; congruence. Qed.

(** An occurrence of a lower-case word survives [toLowerCase]. *)
Lemma includes_toLowerCase (s p : string) :
  toLowerCase p = p -> includes s p = true ->
  includes (toLowerCase s) p = true.
Proof.
  intros Hp H. apply includes_iff in H as (a & b & ->).
  apply includes_iff.
  exists (toLowerCase a), (toLowerCase b).
  now rewrite !toLowerCase_app, Hp.
Qed.

Lemma strip_prefix_app (p r : string) : strip_prefix p (p ++ r) = Some r.
Proof.
  induction p as [|c p IH]; simpl.
  - reflexivity.
  - now rewrite Ascii.eqb_refl.
Qed.

Lemma strip_prefix_startsWith (p s : string) :
  strip_prefix p s = None <-> startsWith s p = false.
Proof.
  revert s; induction p as [|b p IH]; intros s; simpl.
  - split; discriminate.
  - destruct s as [|a s]; simpl.
    + tauto.
    + destruct (Ascii.eqb a b); simpl; [apply IH | tauto].
Qed.

(** The primitives on the strings this program meets. *)

Example split_ws_groups :
  split_ws ("alice  wheel docker" ++ String (ascii_of_nat 10) EmptyString)
  = ["alice"; "wheel"; "docker"; EmptyString].
Proof. reflexivity. Qed.

Example split_ws_leading : split_ws " a b" = [EmptyString; "a"; "b"].
Proof. reflexivity. Qed.

Example match_semver_compose :
  match_semver "Docker Compose version v2.5.1" = Some "2.5.1".
Proof. reflexivity. Qed.

Example match_semver_backtracks :
  match_semver "1.2.x 12.34.56abc" = Some "12.34.56".
Proof. reflexivity. Qed.

Example match_semver_absent : match_semver "version 2.5" = None.
Proof. reflexivity. Qed.

Example parseInt_prefix : parseInt "  12abc" (Some 10%Z) = of_Z 12.
Proof. reflexivity. Qed.

Example parseInt_hex : parseInt "0x1f" None = of_Z 31.
Proof. reflexivity. Qed.

Example parseInt_undefined : parseInt (at_index ["MemTotal:"] 1) None = NaN.
Proof. reflexivity. Qed.

Example trim_version :
  trim ("podman version 4.4.1" ++ String (ascii_of_nat 10) EmptyString)
  = "podman version 4.4.1".
Proof. reflexivity. Qed.

Example toLowerCase_wrapper : toLowerCase "Podman 4" = "podman 4".
Proof. reflexivity. Qed.

Example replace_leading_only :
  ContainerRuntime.replace_leading_engine
    "docker run docker.io/library/alpine" "podman"
  = "podman run docker.io/library/alpine".
Proof. reflexivity. Qed.

Example replace_not_leading :
  ContainerRuntime.replace_leading_engine "sudo docker ps" "podman"
  = "sudo docker ps".
Proof. reflexivity. Qed.

Example kB_line_to_GB_16 :
  SpecsTs.kB_line_to_GB "MemTotal:       16384256 kB" = Num (1563 / 100).
Proof. reflexivity. Qed.

End JSFacts.

(* ===================================================================== *)
(** * Reasoning about computations *)
(* ===================================================================== *)

Section Computations.

Context {A B : Type}.

Lemma bind_Return (m : M A) (k : A -> M B) s a s' :
  m s = (Return a, s') -> bind m k s = k a s'.
Proof. unfold bind; now intros ->. Qed.

Lemma bind_Throw (m : M A) (k : A -> M B) s e s' :
  m s = (Throw e, s') -> bind m k s = (Throw e, s').
Proof. unfold bind; now intros ->. Qed.

Lemma try_Return (m : M A) (h : error -> M A) s a s' :
  m s = (Return a, s') -> try_catch m h s = (Return a, s').
Proof. unfold try_catch; now intros ->. Qed.

Lemma try_Throw (m : M A) (h : error -> M A) s e s' :
  m s = (Throw e, s') -> try_catch m h s = h e s'.
Proof. unfold try_catch; now intros ->. Qed.

End Computations.

Lemma extends_refl s : extends s s.
Proof. exists []. now rewrite app_nil_r. Qed.

Lemma extends_trans s1 s2 s3 : extends s1 s2 -> extends s2 s3 -> extends s1 s3.
Proof.
  intros [t1 H1] [t2 H2]. exists (t1 ++ t2)%list.
  now rewrite H2, H1, app_assoc.
Qed.

Lemma extends_record p s : extends s (record p s).
Proof. now exists [p]. Qed.

Create HintDb js.
#[local] Hint Resolve extends_refl extends_record : js.

Ltac unfold_M :=
  unfold bind, ret, throw, try_catch, get_detectedRuntime,
    set_detectedRuntime, get_runtimeInfo, set_runtimeInfo, console_log,
    execAsync, readFileSync, existsSync, getFreeRDP in *.

(* ===================================================================== *)
(** * detectRuntime *)
(* ===================================================================== *)

Section DetectFacts.

Import JS ContainerRuntime.

Variable W : World.

(** A cached kind is returned as it is: nothing is asked, nothing changes. *)
Lemma detectRuntime_cached s r :
  detectedRuntime s = Some r ->
  detectRuntime W s = (Return (Some r), s).
Proof.
  intros H. unfold detectRuntime. unfold_M. now rewrite H.
Qed.

(** What a call of [detectRuntime] yields in general: it never throws, its
    result is what the cache holds afterwards, and it leaves the cached
    info alone. *)
Lemma detectRuntime_post s :
  exists res s',
    detectRuntime W s = (Return res, s') /\
    detectedRuntime s' = res /\
    runtimeInfo s' = runtimeInfo s /\
    extends s s' /\
    (detectedRuntime s = None \/ s' = s).
Proof.
  unfold detectRuntime. unfold_M.
  destruct (detectedRuntime s) as [r|] eqn:Hc.
  - exists (Some r), s. repeat split; auto with js.
  - destruct (run_exec W (trace s) "docker --version") as [o|e].
    + destruct (includes _ _); eexists; eexists;
        (split; [reflexivity|]); simpl; repeat split; auto;
        now exists [Exec "docker --version"].
    + simpl.
      destruct (run_exec W _ "podman --version") as [o|e'];
        eexists; eexists; (split; [reflexivity|]); simpl; repeat split; auto;
        exists [Exec "docker --version"; Exec "podman --version"];
        unfold record; simpl; now rewrite <- app_assoc.
Qed.

Lemma detectRuntime_returns : returns (detectRuntime W).
Proof.
  intros s. destruct (detectRuntime_post s) as (res & s' & H & _).
  now exists res, s'.
Qed.

End DetectFacts.

(* ===================================================================== *)
(** * Detection *)
(* ===================================================================== *)

Section Detection.

Import JS JSFacts ContainerRuntime.

Variable W : World.

(** C1. When nothing is cached, so that [docker --version] is run, and the
    command succeeds: the result is [podman] as soon as the output mentions
    podman, in whatever letter case (in particular when it contains the
    very word "podman"), and [docker] when it does not; the result is also
    what the cache holds afterwards. *)
Theorem detectRuntime_disambiguates (s : State) (o : ExecResult) :
  detectedRuntime s = None ->
  run_exec W (trace s) "docker --version" = Return o ->
  (includes (toLowerCase (stdout o)) "podman" = true ->
     fst (detectRuntime W s) = Return (Some podman) /\
     detectedRuntime (snd (detectRuntime W s)) = Some podman) /\
  (includes (stdout o) "podman" = true ->
     fst (detectRuntime W s) = Return (Some podman)) /\
  (includes (toLowerCase (stdout o)) "podman" = false ->
     fst (detectRuntime W s) = Return (Some docker) /\
     detectedRuntime (snd (detectRuntime W s)) = Some docker).
Proof.
  intros Hc Ho.
  assert (E : detectRuntime W s =
              if includes (toLowerCase (stdout o)) "podman"
              then (Return (Some podman),
                    mkState (Some podman) (runtimeInfo s)
                            (trace s ++ [Exec "docker --version"])%list
                            (console s ++ ["[ContainerRuntime] Detected podman-docker wrapper"])%list)
              else (Return (Some docker),
                    mkState (Some docker) (runtimeInfo s)
                            (trace s ++ [Exec "docker --version"])%list
                            (console s))).
  { unfold detectRuntime. unfold_M. rewrite Hc, Ho.
    now destruct (includes _ _). }
  split; [|split].
  - intros H. rewrite E, H. now split.
  - intros H.
    apply (includes_toLowerCase _ "podman" eq_refl) in H.
    now rewrite E, H.
  - intros H. rewrite E, H. now split.
Qed.

End Detection.

(** On the wrapper host the answer is [podman], on the Docker host [docker]. *)
Lemma detectRuntime_disambiguates_witness :
  fst (ContainerRuntime.detectRuntime shimHost initial) = Return (Some podman) /\
  fst (ContainerRuntime.detectRuntime dockerHost initial) = Return (Some docker).
Proof.
  split.
  - apply (proj1 (proj2 (detectRuntime_disambiguates shimHost initial
                           (mkExecResult "podman version 4.4.1" EmptyString)
                           eq_refl eq_refl))).
    reflexivity.
  - apply (proj2 (proj2 (detectRuntime_disambiguates dockerHost initial
                           (mkExecResult "Docker version 24.0.7, build afdd53b"
                                         EmptyString)
                           eq_refl eq_refl))).
    reflexivity.
Defined.

(* ===================================================================== *)
(** * What the cache keeps across calls *)
(* ===================================================================== *)

Section ProbeFacts.

Import JS ContainerRuntime.

Variable W : World.

Lemma read_compose_type info out : type (read_compose info out) = type info.
Proof.
  unfold read_compose.
  destruct (truthy out); [destruct (match_semver out)|]; reflexivity.
Qed.

Lemma read_compose_version info out :
  version (read_compose info out) = version info.
Proof.
  unfold read_compose.
  destruct (truthy out); [destruct (match_semver out)|]; reflexivity.
Qed.

Lemma assembled_type r v c : type (assembled r v c) = r.
Proof. destruct c; simpl; [apply read_compose_type | reflexivity]. Qed.

Lemma assembled_version r v c : version (assembled r v c) = trim (stdout v).
Proof. destruct c; simpl; [apply read_compose_version | reflexivity]. Qed.

(** The fresh probe, path by path. *)
Lemma probeRuntimeInfo_eq r s :
  probeRuntimeInfo W r s =
  let vcmd := runtimeName r ++ " --version" in
  let ccmd := runtimeName r ++ " compose version" in
  match run_exec W (trace s) vcmd with
  | Throw _ =>
      (Return None,
       mkState (detectedRuntime s) (runtimeInfo s)
               (trace s ++ [Exec vcmd])%list
               (console s ++ [("Error getting " ++ runtimeName r ++ " info:")%string])%list)
  | Return v =>
      let info := assembled r v (run_exec W (trace s ++ [Exec vcmd])%list ccmd) in
      (Return (Some info),
       mkState (detectedRuntime s) (Some info)
               (trace s ++ [Exec vcmd; Exec ccmd])%list (console s))
  end.
Proof.
  unfold probeRuntimeInfo. unfold_M. unfold record. simpl.
  destruct (run_exec W (trace s) _) as [v|e]; [|reflexivity].
  destruct (run_exec W _ _) as [c|e]; simpl; now rewrite <- app_assoc.
Qed.

Lemma probeRuntimeInfo_returns r : returns (probeRuntimeInfo W r).
Proof.
  intros s. rewrite probeRuntimeInfo_eq. cbv zeta.
  destruct (run_exec W (trace s) _); eauto.
Qed.

Lemma getRuntimeInfo_returns : returns (getRuntimeInfo W).
Proof.
  intros s. unfold getRuntimeInfo.
  destruct (detectRuntime_post W s) as (res & s1 & E & _).
  rewrite (bind_Return _ _ _ _ _ E).
  destruct res as [r|]; [|unfold ret; eauto].
  unfold bind at 1, get_runtimeInfo.
  destruct (runtimeInfo s1) as [i|]; [destruct (RuntimeType_eqb _ _)|];
    try apply probeRuntimeInfo_returns; unfold ret; eauto.
Qed.

End ProbeFacts.

(** Properties of the state that every call except [reset] keeps, given
    that recording a request, writing to the console, [detectRuntime] and
    [getRuntimeInfo] keep them. *)
Section Keeps.

Import ContainerRuntime SpecsTs.

Variable W : World.
Variable I : State -> Prop.

Hypothesis I_record : forall p s, I s -> I (record p s).
Hypothesis I_console : forall msg s, I s -> I (snd (console_log msg s)).
Hypothesis I_detect : forall s, I s -> I (snd (detectRuntime W s)).
Hypothesis I_info : forall s, I s -> I (snd (getRuntimeInfo W s)).

#[local] Abbreviation keeps := (keeps I).

Lemma keeps_ret {A} (a : A) : keeps (ret a).
Proof. intros s H; exact H. Qed.

Lemma keeps_throw {A} e : keeps (@throw A e).
Proof. intros s H; exact H. Qed.

Lemma keeps_bind {A B} (m : M A) (k : A -> M B) :
  keeps m -> (forall a, keeps (k a)) -> keeps (bind m k).
Proof.
  intros Hm Hk s H. unfold bind. specialize (Hm s H).
  destruct (m s) as [[a|e] s']; simpl in *; [now apply Hk | exact Hm].
Qed.

Lemma keeps_try {A} (m : M A) (h : error -> M A) :
  keeps m -> (forall e, keeps (h e)) -> keeps (try_catch m h).
Proof.
  intros Hm Hh s H. unfold try_catch. specialize (Hm s H).
  destruct (m s) as [[a|e] s']; simpl in *; [exact Hm | now apply Hh].
Qed.

Lemma keeps_execAsync cmd : keeps (execAsync W cmd).
Proof. intros s H; now apply I_record. Qed.

Lemma keeps_readFileSync path : keeps (readFileSync W path).
Proof. intros s H; now apply I_record. Qed.

Lemma keeps_existsSync path : keeps (existsSync W path).
Proof. intros s H; now apply I_record. Qed.

Lemma keeps_getFreeRDP : keeps (getFreeRDP W).
Proof. intros s H; now apply I_record. Qed.

Lemma keeps_console msg : keeps (console_log msg).
Proof. intros s H; now apply I_console. Qed.

Ltac keeps_step :=
  first
    [ apply keeps_ret | apply keeps_throw
    | apply keeps_execAsync | apply keeps_readFileSync
    | apply keeps_existsSync | apply keeps_getFreeRDP | apply keeps_console
    | exact I_detect | exact I_info
    | apply keeps_bind; [|intro] | apply keeps_try; [|intro]
    | match goal with
      | |- keeps (match ?x with _ => _ end) => destruct x
      | |- keeps (let _ := _ in _) => cbv zeta
      end ].

Ltac keeps_all := repeat keeps_step.

Lemma keeps_getCommand : keeps (getCommand W).
Proof. unfold getCommand. keeps_all. Qed.

Lemma keeps_getMemoryInfo : keeps (getMemoryInfo W).
Proof. unfold getMemoryInfo. keeps_all. Qed.

Lemma keeps_isRuntimeRunning : keeps (isRuntimeRunning W).
Proof. unfold isRuntimeRunning. keeps_all. Qed.

Lemma keeps_isUserInRuntimeGroup : keeps (isUserInRuntimeGroup W).
Proof. unfold isUserInRuntimeGroup. keeps_all. Qed.

Lemma keeps_getSpecs : keeps (getSpecs W).
Proof.
  unfold getSpecs, cpuCoresCheck, memoryCheck, kvmCheck, runtimeCheck,
    composeCheck, runningCheck, userGroupCheck, freeRDPCheck, ipTablesCheck,
    iptableNatCheck.
  repeat first [ apply keeps_getMemoryInfo | apply keeps_isRuntimeRunning
               | apply keeps_isUserInRuntimeGroup | keeps_step ].
Qed.

(** Every call but [reset] keeps [I]. *)
Lemma after_keeps (c : Call) (s : State) :
  is_reset c = false -> I s -> I (after W c s).
Proof.
  intros Hc H.
  destruct c; simpl in Hc; try discriminate; simpl;
    match goal with |- I (snd (?m s)) => revert s H; change (keeps m) end;
    try exact I_detect; try exact I_info;
    try apply keeps_getCommand; try apply keeps_isRuntimeRunning;
    try apply keeps_isUserInRuntimeGroup; try apply keeps_getSpecs;
    try apply keeps_getMemoryInfo;
    unfold execCommand, requiresGroupMembership, containerInspect,
      containerStart, containerStop, containerPause, containerUnpause,
      containerRemove, volumeRemove, containerList, composeUp, composeDown,
      getNetworkMode, satisfiesPrequisites, requiresGroupMembership;
    repeat first [ apply keeps_getCommand | keeps_step ].
Qed.

Lemma run_keeps (cs : list Call) (s : State) :
  forallb (fun c => negb (is_reset c)) cs = true -> I s -> I (run W cs s).
Proof.
  revert s; induction cs as [|c cs IH]; intros s Hcs H; simpl in *.
  - exact H.
  - apply andb_true_iff in Hcs as [Hc Hcs].
    apply IH; [exact Hcs|].
    apply after_keeps; [|exact H].
    now destruct (is_reset c).
Qed.

End Keeps.

(* ===================================================================== *)
(** * Idempotence of detection and coherence of the cache *)
(* ===================================================================== *)

Section CacheFacts.

Import ContainerRuntime.

Variable W : World.

Lemma probeRuntimeInfo_detected r s :
  detectedRuntime (snd (probeRuntimeInfo W r s)) = detectedRuntime s.
Proof.
  rewrite probeRuntimeInfo_eq. cbv zeta.
  destruct (run_exec W (trace s) _); reflexivity.
Qed.

(** [getRuntimeInfo] never touches a cached kind. *)
Lemma getRuntimeInfo_detected s r :
  detectedRuntime s = Some r ->
  detectedRuntime (snd (getRuntimeInfo W s)) = Some r.
Proof.
  intros H. unfold getRuntimeInfo.
  rewrite (bind_Return _ _ _ _ _ (detectRuntime_cached W s r H)).
  unfold bind, get_runtimeInfo.
  destruct (runtimeInfo s) as [i|]; [destruct (RuntimeType_eqb _ _)|];
    try (rewrite probeRuntimeInfo_detected); exact H.
Qed.

Lemma detectRuntime_coherent s :
  coherent s -> coherent (snd (detectRuntime W s)).
Proof.
  intros H. destruct (detectRuntime_post W s) as (res & s' & E & _ & Hi & _ & Hs).
  rewrite E; simpl. destruct Hs as [Hn | ->]; [|exact H].
  intros i Hi'. rewrite Hi in Hi'. specialize (H i Hi'). congruence.
Qed.

Lemma RuntimeType_eqb_eq a b : RuntimeType_eqb a b = true <-> a = b.
Proof. destruct a, b; simpl; split; congruence. Qed.

(** What [getRuntimeInfo] returns is about the kind the cache holds when it
    returns, from whatever state it starts. *)
Lemma getRuntimeInfo_served s i :
  fst (getRuntimeInfo W s) = Return (Some i) ->
  detectedRuntime (snd (getRuntimeInfo W s)) = Some (type i).
Proof.
  unfold getRuntimeInfo.
  destruct (detectRuntime_post W s) as (res & s1 & E & Hd & _).
  rewrite (bind_Return _ _ _ _ _ E).
  destruct res as [r|]; [|discriminate].
  unfold bind at 1 2, get_runtimeInfo.
  assert (P : fst (probeRuntimeInfo W r s1) = Return (Some i) ->
              detectedRuntime (snd (probeRuntimeInfo W r s1)) = Some (type i)).
  { rewrite probeRuntimeInfo_eq. cbv zeta.
    destruct (run_exec W (trace s1) _) as [v|e]; simpl; [|discriminate].
    intros [= <-]. now rewrite assembled_type. }
  destruct (runtimeInfo s1) as [j|]; [|exact P].
  destruct (RuntimeType_eqb (type j) r) eqn:Ej; [|exact P].
  simpl. intros [= ->]. apply RuntimeType_eqb_eq in Ej. congruence.
Qed.

Lemma getRuntimeInfo_coherent s :
  coherent s -> coherent (snd (getRuntimeInfo W s)).
Proof.
  intros H. apply detectRuntime_coherent in H. revert H.
  unfold getRuntimeInfo.
  destruct (detectRuntime_post W s) as (res & s1 & E & Hd & _).
  rewrite (bind_Return _ _ _ _ _ E), E; simpl.
  intros H. destruct res as [r|]; [|exact H].
  unfold bind, get_runtimeInfo.
  assert (P : coherent (snd (probeRuntimeInfo W r s1))).
  { rewrite probeRuntimeInfo_eq. cbv zeta.
    destruct (run_exec W (trace s1) _) as [v|e]; simpl.
    - intros i [= <-]. simpl. now rewrite assembled_type.
    - exact H. }
  destruct (runtimeInfo s1) as [j|]; [|exact P].
  destruct (RuntimeType_eqb (type j) r); [exact H | exact P].
Qed.

Lemma after_coherent c s : coherent s -> coherent (after W c s).
Proof.
  intros H. destruct (is_reset c) eqn:Hc.
  - destruct c; try discriminate Hc. intros i Hi. discriminate Hi.
  - apply (after_keeps W coherent); auto.
    + apply detectRuntime_coherent.
    + apply getRuntimeInfo_coherent.
Qed.

Lemma run_coherent cs s : coherent s -> coherent (run W cs s).
Proof.
  revert s; induction cs as [|c cs IH]; intros s H; simpl; auto.
  apply IH, after_coherent, H.
Qed.



End CacheFacts.




(* ===================================================================== *)
(** * The leftmost match of the version pattern *)
(* ===================================================================== *)

Module SemverFacts.

Import JS JSFacts Semver.

Lemma span_digits_spec s d r :
  span_digits s = (d, r) ->
  s = d ++ r /\ all_digits d = true /\ starts_with_digit r = false.
Proof.
  revert d r; induction s as [|c s IH]; simpl; intros d r H.
  - now inversion H.
  - destruct (isDigit c) eqn:Hc.
    + destruct (span_digits s) as [d' r'].
      inversion H; subst; clear H.
      destruct (IH _ _ eq_refl) as (-> & Hd & Hr).
      simpl. now rewrite Hc.
    + inversion H; subst; clear H. simpl. now rewrite Hc.
Qed.

Lemma span_digits_app d r :
  all_digits d = true -> starts_with_digit r = false ->
  span_digits (d ++ r) = (d, r).
Proof.
  intros Hd Hr. induction d as [|c d IH]; simpl in *.
  - destruct r as [|c r]; simpl in *; [reflexivity | now rewrite Hr].
  - apply andb_true_iff in Hd as [Hc Hd].
    now rewrite Hc, (IH Hd).
Qed.

(** A number followed by anything: the run of digits read from there is
    not empty. *)
Lemma span_digits_number c post :
  is_number c = true ->
  exists c' r, span_digits (c ++ post) = (c', r) /\ truthy c' = true.
Proof.
  destruct c as [|ch c]; [discriminate|].
  unfold is_number; simpl. intros H.
  apply andb_true_iff in H as [Hch _].
  rewrite Hch. destruct (span_digits (c ++ post)) as [d r].
  now exists (String ch d), r.
Qed.

Lemma is_number_split a :
  is_number a = true -> truthy a = true /\ all_digits a = true.
Proof. unfold is_number. apply andb_true_iff. Qed.

Lemma dot_not_digit r : starts_with_digit ("." ++ r) = false.
Proof. reflexivity. Qed.

Lemma match_semver_here_sound s m :
  match_semver_here s = Some m ->
  exists post, s = m ++ post /\ shaped m /\ starts_with_digit post = false.
Proof.
  unfold match_semver_here.
  destruct (span_digits s) as [a r1] eqn:Ea.
  destruct a as [|a0 a]; [discriminate|].
  destruct r1 as [|d1 r2]; [discriminate|].
  destruct (Ascii.eqb_spec d1 "."%char) as [->|N].
  2:{ destruct d1 as [[] [] [] [] [] [] [] []]; try discriminate.
      now contradiction N. }
  destruct (span_digits r2) as [b r3] eqn:Eb.
  destruct b as [|b0 b]; [discriminate|].
  destruct r3 as [|d2 r4]; [discriminate|].
  destruct (Ascii.eqb_spec d2 "."%char) as [->|N].
  2:{ destruct d2 as [[] [] [] [] [] [] [] []]; try discriminate.
      now contradiction N. }
  destruct (span_digits r4) as [c post] eqn:Ec.
  destruct c as [|c0 c]; [discriminate|].
  intros [= <-].
  apply span_digits_spec in Ea as (-> & Ha & _).
  apply span_digits_spec in Eb as (-> & Hb & _).
  apply span_digits_spec in Ec as (-> & Hc & Hp).
  exists post. split; [|split; [|exact Hp]].
  - simpl. f_equal. rewrite !append_assoc. simpl.
    rewrite !append_assoc. reflexivity.
  - exists (String a0 a), (String b0 b), (String c0 c).
    unfold is_number. rewrite Ha, Hb, Hc. now repeat split.
Qed.

(** Reading a shaped string followed by [post]: the first two numbers are
    read whole, and the third takes the digits of [post] as well. *)
Lemma match_semver_here_shaped a b c post :
  is_number a = true -> is_number b = true -> is_number c = true ->
  match_semver_here ((a ++ "." ++ b ++ "." ++ c) ++ post) =
  Some (a ++ "." ++ b ++ "." ++ fst (span_digits (c ++ post))).
Proof.
  intros Ha Hb Hc.
  destruct (is_number_split _ Ha) as [Ta Da].
  destruct (is_number_split _ Hb) as [Tb Db].
  destruct (span_digits_number c post Hc) as (c' & r & Ec & Tc).
  unfold match_semver_here.
  rewrite !append_assoc.
  rewrite (span_digits_app a _ Da (dot_not_digit _)).
  destruct a as [|a0 a]; [discriminate|].
  change ("." ++ b ++ "." ++ c ++ post)
    with (String "."%char (b ++ "." ++ c ++ post)).
  cbv iota beta.
  rewrite (span_digits_app b _ Db (dot_not_digit _)).
  destruct b as [|b0 b]; [discriminate|].
  change ("." ++ c ++ post) with (String "."%char (c ++ post)).
  cbv iota beta.
  rewrite Ec. simpl fst. destruct c' as [|c0 c']; [discriminate|].
  reflexivity.
Qed.

Lemma match_semver_here_complete s m post :
  s = m ++ post -> shaped m -> match_semver_here s <> None.
Proof.
  intros -> (a & b & c & Ha & Hb & Hc & ->).
  now rewrite match_semver_here_shaped.
Qed.

Lemma match_semver_here_exact m post :
  shaped m -> starts_with_digit post = false ->
  match_semver_here (m ++ post) = Some m.
Proof.
  intros (a & b & c & Ha & Hb & Hc & ->) Hp.
  rewrite match_semver_here_shaped by assumption.
  destruct (is_number_split _ Hc) as [_ Dc].
  now rewrite (span_digits_app c post Dc Hp).
Qed.

Lemma match_semver_unfold s :
  match_semver s =
  match match_semver_here s with
  | Some m => Some m
  | None => match s with
            | EmptyString => None
            | String _ s' => match_semver s'
            end
  end.
Proof. destruct s; reflexivity. Qed.

Lemma match_semver_leftmost s m :
  match_semver s = Some m -> leftmost s m.
Proof.
  revert m; induction s as [|ch s IH]; intros m; rewrite match_semver_unfold.
  - discriminate.
  - destruct (match_semver_here (String ch s)) as [m0|] eqn:E.
    + intros [= ->].
      destruct (match_semver_here_sound _ _ E) as (post & Hs & Hm & Hp).
      exists EmptyString, post. repeat split; auto.
      intros; simpl; lia.
    + intros H. destruct (IH _ H) as (pre & post & Hs & Hm & Hp & Hl).
      exists (String ch pre), post. repeat split; auto.
      * simpl. now rewrite Hs.
      * intros pre' m' post' Hs' Hm'.
        destruct pre' as [|c' pre'].
        -- exfalso.
           exact (match_semver_here_complete _ m' post' Hs' Hm' E).
        -- simpl in Hs'. injection Hs' as _ Hs'.
           specialize (Hl _ _ _ Hs' Hm'). simpl; lia.
Qed.

Lemma match_semver_none s :
  match_semver s = None -> forall m, ~ occurs s m.
Proof.
  induction s as [|ch s IH]; rewrite match_semver_unfold.
  - intros _ m (pre & post & Hs & Hm).
    destruct pre; [|discriminate].
    exact (match_semver_here_complete _ m post Hs Hm eq_refl).
  - destruct (match_semver_here (String ch s)) eqn:E; [discriminate|].
    intros H m (pre & post & Hs & Hm).
    destruct pre as [|c' pre].
    + exact (match_semver_here_complete _ m post Hs Hm E).
    + simpl in Hs. injection Hs as _ Hs.
      apply (IH H m). now exists pre, post.
Qed.

Lemma append_same_length (p q x y : string) :
  p ++ x = q ++ y -> String.length p = String.length q -> p = q /\ x = y.
Proof.
  revert q; induction p as [|c p IH]; intros [|d q] H L; simpl in *;
    try discriminate.
  - now split.
  - injection H as -> H. injection L as L.
    destruct (IH _ H L) as [-> ->]. now split.
Qed.

Lemma leftmost_unique s m m' : leftmost s m -> leftmost s m' -> m = m'.
Proof.
  intros (p & x & Hs & Hm & Hx & Hl) (q & y & Hs' & Hm' & Hy & Hl').
  assert (L : String.length p = String.length q).
  { apply Nat.le_antisymm; [eapply Hl | eapply Hl']; eauto. }
  rewrite Hs in Hs'.
  destruct (append_same_length _ _ _ _ Hs' L) as [_ E].
  pose proof (match_semver_here_exact m x Hm Hx) as E1.
  pose proof (match_semver_here_exact m' y Hm' Hy) as E2.
  rewrite E in E1. congruence.
Qed.

(** [match_semver] computes the leftmost match, and finds one whenever
    the pattern matches somewhere. *)
Theorem match_semver_spec s m : match_semver s = Some m <-> leftmost s m.
Proof.
  split; [apply match_semver_leftmost|].
  intros H. destruct (match_semver s) as [m0|] eqn:E.
  - f_equal. eapply leftmost_unique; [|exact H].
    now apply match_semver_leftmost.
  - exfalso. destruct H as (pre & post & Hs & Hm & _).
    apply (match_semver_none s E m). now exists pre, post.
Qed.

Theorem match_semver_none_iff s :
  match_semver s = None <-> forall m, ~ occurs s m.
Proof.
  split; [apply match_semver_none|].
  intros H. destruct (match_semver s) as [m|] eqn:E; [|reflexivity].
  exfalso. apply match_semver_leftmost in E as (pre & post & Hs & Hm & _).
  apply (H m). now exists pre, post.
Qed.

Lemma split_char_number a rest :
  all_digits a = true ->
  split_char "." (a ++ "." ++ rest) = a :: split_char "." rest.
Proof.
  intros Ha. induction a as [|ch a IH]; simpl in *.
  - reflexivity.
  - apply andb_true_iff in Ha as [Hc Ha]. rewrite (IH Ha).
    destruct (Ascii.eqb_spec ch "."%char) as [->|]; [discriminate|reflexivity].
Qed.

Lemma isDigit_value c :
  isDigit c = true ->
  digitValue c = Some (Z.of_N (code c) - 48)%Z /\ (Z.of_N (code c) - 48 < 10)%Z.
Proof.
  unfold isDigit, digitValue. intros H.
  apply andb_true_iff in H as [H1 H2].
  apply N.leb_le in H1, H2.
  assert (E : ((48 <=? Z.of_N (code c)) && (Z.of_N (code c) <=? 57))%Z = true).
  { apply andb_true_iff; split; apply Z.leb_le; lia. }
  cbv zeta. rewrite E. split; [reflexivity | lia].
Qed.

Lemma parseDigits_digits acc s :
  all_digits s = true ->
  parseDigits 10 (Some acc) s = Some (decimal_from acc s).
Proof.
  revert acc; induction s as [|c s IH]; intros acc H; simpl in *.
  - reflexivity.
  - apply andb_true_iff in H as [Hc H].
    destruct (isDigit_value c Hc) as [-> Hlt].
    apply Z.ltb_lt in Hlt. rewrite Hlt. now apply IH.
Qed.

Lemma parseInt_digit_first c s :
  isDigit c = true ->
  parseInt (String c s) (Some 10%Z) =
  match parseDigits 10 None (String c s) with
  | None => NaN
  | Some v => of_Z v
  end.
Proof.
  destruct c as [[] [] [] [] [] [] [] []]; try discriminate; reflexivity.
Qed.

(** On a string of digits, [parseInt] with radix 10 is its decimal value. *)
Lemma parseInt_number a :
  is_number a = true -> parseInt a (Some 10%Z) = of_Z (decimal a).
Proof.
  intros H. destruct (is_number_split _ H) as [T D].
  destruct a as [|c a]; [discriminate|].
  simpl in D. apply andb_true_iff in D as [Hc D].
  rewrite (parseInt_digit_first c a Hc).
  simpl parseDigits. destruct (isDigit_value c Hc) as [-> Hlt].
  apply Z.ltb_lt in Hlt. rewrite Hlt.
  rewrite (parseDigits_digits _ _ D). reflexivity.
Qed.

(** The major component of [a.b.c] is the value of [a]. *)
Theorem major_shaped a rest :
  is_number a = true -> major (a ++ "." ++ rest) = of_Z (decimal a).
Proof.
  intros H. destruct (is_number_split _ H) as [_ D].
  unfold major. rewrite (split_char_number a rest D). simpl at_index.
  now apply parseInt_number.
Qed.

Lemma ge_of_Z x y : ge (of_Z x) (of_Z y) = true <-> (y <= x)%Z.
Proof.
  unfold ge, of_Z. rewrite Qle_bool_iff, <- Zle_Qle. reflexivity.
Qed.

End SemverFacts.

(* ===================================================================== *)
(** * The fresh probe of getRuntimeInfo *)
(* ===================================================================== *)

Section FreshProbe.

Import JS JSFacts Semver SemverFacts ContainerRuntime.

Variable W : World.

(** Without a cached info about the detected kind, [getRuntimeInfo] is the
    fresh probe run after detection. *)
Lemma getRuntimeInfo_miss s r :
  fst (detectRuntime W s) = Return (Some r) ->
  cache_hit s r = false ->
  getRuntimeInfo W s = probeRuntimeInfo W r (snd (detectRuntime W s)).
Proof.
  intros H Hm. unfold getRuntimeInfo.
  destruct (detectRuntime_post W s) as (res & s1 & E & _ & Hi & _).
  rewrite E in H; simpl in H. injection H as ->.
  rewrite (bind_Return _ _ _ _ _ E), E; simpl.
  unfold bind, get_runtimeInfo. unfold cache_hit in Hm.
  rewrite Hi. destruct (runtimeInfo s) as [i|]; [|reflexivity].
  now rewrite Hm.
Qed.

(** The gate of lines 86-93 on one compose output. *)
Lemma read_compose_installed info out :
  composeInstalled info = false ->
  (composeInstalled (read_compose info out) = true <->
   exists m, leftmost out m /\ ge (major m) (of_Z 2) = true).
Proof.
  intros Hi. unfold read_compose.
  destruct (match_semver out) as [m|] eqn:E.
  - assert (L : leftmost out m) by now apply match_semver_spec.
    destruct (truthy out) eqn:T.
    + simpl. fold (major m). split.
      * intros H. now exists m.
      * intros (m' & L' & H). now rewrite (leftmost_unique _ _ _ L L').
    + destruct out; [discriminate E | discriminate T].
  - assert (N : forall m, ~ leftmost out m).
    { intros m L. apply match_semver_spec in L. congruence. }
    replace (if truthy out then info else info) with info
      by now destruct (truthy out).
    rewrite Hi. split; [discriminate|].
    intros (m & L & _). now destruct (N m).
Qed.

Lemma read_compose_version_of info out m :
  leftmost out m -> composeVersion (read_compose info out) = Some m.
Proof.
  intros L. apply match_semver_spec in L. unfold read_compose. rewrite L.
  destruct out; [discriminate L | reflexivity].
Qed.

(** C4 (as amended). When [getRuntimeInfo] assembles a fresh info and the
    version command has succeeded: the info is returned and cached whatever
    the compose command does; if the compose command succeeds,
    [composeInstalled] is true exactly when the leftmost match of
    [\d+\.\d+\.\d+] in its output has a major component of 2 or more (the
    number before its first dot, read in base ten), and that match is
    [composeVersion]; "Docker Compose version v2.5.1" gives
    true and "2.5.1", "1.29.0" gives false; if the compose command fails,
    [composeInstalled] is false and the version is kept. *)
Theorem compose_gating (s : State) (r : RuntimeType) (v : ExecResult) :
  fst (detectRuntime W s) = Return (Some r) ->
  cache_hit s r = false ->
  let s1 := snd (detectRuntime W s) in
  let vcmd := runtimeName r ++ " --version" in
  let ccmd := runtimeName r ++ " compose version" in
  run_exec W (trace s1) vcmd = Return v ->
  exists info,
    getRuntimeInfo W s =
      (Return (Some info),
       mkState (Some r) (Some info) (trace s1 ++ [Exec vcmd; Exec ccmd])%list
               (console s1)) /\
    type info = r /\ version info = trim (stdout v) /\
    match run_exec W (trace s1 ++ [Exec vcmd])%list ccmd with
    | Return c =>
        (composeInstalled info = true <->
         exists m, leftmost (stdout c) m /\ ge (major m) (of_Z 2) = true) /\
        (forall m, leftmost (stdout c) m -> composeVersion info = Some m) /\
        (forall a rest,
            is_number a = true -> leftmost (stdout c) (a ++ "." ++ rest) ->
            (composeInstalled info = true <-> (2 <= decimal a)%Z)) /\
        (stdout c = "Docker Compose version v2.5.1" ->
         composeInstalled info = true /\ composeVersion info = Some "2.5.1") /\
        (stdout c = "1.29.0" -> composeInstalled info = false)
    | Throw _ => composeInstalled info = false
    end.
Proof.
  intros H Hm s1 vcmd ccmd Hv.
  rewrite (getRuntimeInfo_miss s r H Hm).
  fold s1. rewrite probeRuntimeInfo_eq. cbv zeta. fold vcmd ccmd.
  rewrite Hv.
  assert (Hd : detectedRuntime s1 = Some r).
  { subst s1. destruct (detectRuntime_post W s) as (res & s' & E & Hd & _).
    rewrite E in *. simpl in *. congruence. }
  rewrite Hd. eexists. split; [reflexivity|].
  split; [apply assembled_type|]. split; [apply assembled_version|].
  destruct (run_exec W _ ccmd) as [c|e]; simpl; [|reflexivity].
  split; [now apply read_compose_installed|].
  split; [intros m; apply read_compose_version_of|].
  split.
  { intros a rest Ha L.
    rewrite read_compose_installed by reflexivity.
    rewrite <- ge_of_Z, <- (major_shaped a rest Ha). split.
    - intros (m & L' & G). now destruct (leftmost_unique _ _ _ L L').
    - intros G. now exists (a ++ "." ++ rest). }
  split; intros ->; [split|]; reflexivity.
Qed.

(** C10. When [getRuntimeInfo] has to assemble a fresh info and the
    version command of the detected engine fails, it returns [null] and the
    cached info is the one there was before, if any: the info under
    construction, with its empty version, is neither returned nor stored. *)
Theorem getRuntimeInfo_atomic (s : State) (r : RuntimeType) (e : error) :
  fst (detectRuntime W s) = Return (Some r) ->
  cache_hit s r = false ->
  run_exec W (trace (snd (detectRuntime W s))) (runtimeName r ++ " --version")
    = Throw e ->
  fst (getRuntimeInfo W s) = Return None /\
  runtimeInfo (snd (getRuntimeInfo W s)) = runtimeInfo s.
Proof.
  intros H Hm He.
  rewrite (getRuntimeInfo_miss s r H Hm), probeRuntimeInfo_eq. cbv zeta.
  rewrite He. simpl.
  destruct (detectRuntime_post W s) as (res & s' & E & _ & Hi & _).
  rewrite E. simpl. now split.
Qed.

End FreshProbe.

(** C4 as stated fails on an output with several matches: the first one
    decides.  Here the compose tool is podman-compose 1.0.6 and its output
    goes on to name Podman 4.4.1, a match with major component 4. *)
Lemma compose_gating_first_match_decides :
  let out := "podman-compose version 1.0.6 using podman version 4.4.1" in
  run_exec shimHost [Exec "docker --version"; Exec "podman --version"]
           "podman compose version" = Return (mkExecResult out EmptyString) /\
  fst (ContainerRuntime.getRuntimeInfo shimHost initial) =
    Return (Some (mkInfo podman "podman version 4.4.1" false (Some "1.0.6"))) /\
  Semver.occurs out "4.4.1" /\
  JS.ge (Semver.major "4.4.1") (JS.of_Z 2) = true.
Proof.
  repeat split.
  exists "podman-compose version 1.0.6 using podman version ", EmptyString.
  split; [reflexivity|].
  exists "4", "4", "1". repeat split.
Qed.

(** The compose plugin 2.5.1 of the Docker host. *)
Lemma compose_gating_witness :
  exists info,
    fst (ContainerRuntime.getRuntimeInfo dockerHost initial) = Return (Some info) /\
    composeInstalled info = true /\ composeVersion info = Some "2.5.1".
Proof.
  destruct (compose_gating dockerHost initial docker
              (mkExecResult "Docker version 24.0.7, build afdd53b" EmptyString)
              eq_refl eq_refl eq_refl) as (info & E & _ & _ & G).
  exists info. split; [now rewrite E|].
  simpl in G. destruct G as (_ & _ & _ & G & _). now apply G.
Defined.

(** Docker is detected, then its version command fails. *)
Lemma getRuntimeInfo_atomic_witness :
  fst (ContainerRuntime.getRuntimeInfo vanishingDockerHost initial) = Return None /\
  runtimeInfo (snd (ContainerRuntime.getRuntimeInfo vanishingDockerHost initial))
    = None.
Proof.
  apply (getRuntimeInfo_atomic vanishingDockerHost initial docker
           "Command failed"); reflexivity.
Defined.

(* ===================================================================== *)
(** * The pieces of split(/\s+/) *)
(* ===================================================================== *)

Module WordsFacts.

Import JS JSFacts Words.

Lemma split_ws_from_cons b s : exists hd tl, split_ws_from b s = hd :: tl.
Proof.
  revert b; induction s as [|c s IH]; intros b; simpl.
  - eauto.
  - destruct (isSpace c).
    + destruct b; [apply IH | eauto].
    + destruct (IH false) as (hd & tl & ->). eauto.
Qed.

Lemma ends_with_space_cons c s :
  truthy s = true -> ends_with_space (String c s) = ends_with_space s.
Proof. destruct s; [discriminate | reflexivity]. Qed.

Lemma ends_with_space_truthy s : ends_with_space s = true -> truthy s = true.
Proof. destruct s; [discriminate | reflexivity]. Qed.

(** A word without white space is a prefix of [s] followed by white space
    or by nothing exactly when it is the leading word of [s]. *)
Lemma leading_word_spec s w :
  no_space w = true ->
  ((exists post, s = w ++ post /\
                 (post = EmptyString \/ starts_with_space post = true))
   <-> w = leading_word s).
Proof.
  revert s; induction w as [|c w IH]; intros s Hw.
  - split.
    + intros (post & -> & [-> | H]); [reflexivity|].
      destruct post; simpl in *; [discriminate | now rewrite H].
    + intros H. exists s. split; [reflexivity|].
      destruct s as [|c s]; [now left | right]. simpl in *.
      destruct (isSpace c); [reflexivity | discriminate].
  - simpl in Hw. apply andb_true_iff in Hw as [Hc Hw].
    apply negb_true_iff in Hc. split.
    + intros (post & -> & H). simpl. rewrite Hc. f_equal.
      apply IH; eauto.
    + destruct s as [|d s]; [discriminate|]. simpl.
      destruct (isSpace d) eqn:Hd; [discriminate|].
      intros [= -> E]. apply IH in E as (post & -> & H); eauto.
Qed.

Lemma no_space_head c w :
  no_space (String c w) = true -> isSpace c = false.
Proof.
  simpl. intros H. apply andb_true_iff in H as [H _].
  now apply negb_true_iff.
Qed.

Lemma later_cons_space c s w :
  isSpace c = true ->
  (later (String c s) w <-> word_at s w).
Proof.
  intros Hc. split.
  - intros (pre & post & Hs & Hp & Hq).
    destruct pre as [|d pre]; [discriminate|].
    simpl in Hs. injection Hs as -> ->.
    exists pre, post. repeat split; auto.
    destruct pre as [|e pre]; [now left | right]. exact Hp.
  - intros (pre & post & -> & Hp & Hq).
    exists (String c pre), post. repeat split; auto.
    destruct Hp as [-> | Hp]; [exact Hc|].
    rewrite ends_with_space_cons; [exact Hp|].
    now apply ends_with_space_truthy.
Qed.

Lemma later_cons_other c s w :
  isSpace c = false ->
  (later (String c s) w <-> later s w).
Proof.
  intros Hc. split.
  - intros (pre & post & Hs & Hp & Hq).
    destruct pre as [|d pre]; [discriminate|].
    simpl in Hs. injection Hs as -> ->.
    destruct pre as [|e pre]; [simpl in Hp; congruence|].
    exists (String e pre), post. repeat split; auto.
  - intros (pre & post & -> & Hp & Hq).
    exists (String c pre), post. repeat split; auto.
    rewrite ends_with_space_cons; [exact Hp|].
    now apply ends_with_space_truthy.
Qed.

Lemma word_at_cases s w :
  word_at s w <->
  (exists post, s = w ++ post /\
                (post = EmptyString \/ starts_with_space post = true))
  \/ later s w.
Proof.
  split.
  - intros (pre & post & Hs & [-> | Hp] & Hq).
    + left. now exists post.
    + right. now exists pre, post.
  - intros [(post & Hs & Hq) | (pre & post & Hs & Hp & Hq)].
    + exists EmptyString, post. auto.
    + exists pre, post. auto.
Qed.

Lemma word_at_cons_space c s w :
  isSpace c = true -> truthy w = true -> no_space w = true ->
  (word_at (String c s) w <-> word_at s w).
Proof.
  intros Hc Tw Hw. rewrite <- (later_cons_space c s w Hc).
  rewrite word_at_cases. split; [|now right].
  intros [(post & Hs & _) | H]; [|exact H].
  destruct w as [|d w]; [discriminate|].
  simpl in Hs. injection Hs as <- _.
  apply no_space_head in Hw. congruence.
Qed.

(** The pieces of [split_ws_from], for a word [w] that is not empty and
    holds no white space: after a separator run the pieces equal to [w] are
    the words of [s]; otherwise the first piece is the leading word and the
    later pieces equal to [w] are the words after some white space. *)
Lemma split_ws_from_spec w :
  truthy w = true -> no_space w = true ->
  forall s,
    (In w (split_ws_from true s) <-> word_at s w) /\
    (exists tl, split_ws_from false s = leading_word s :: tl /\
                (In w tl <-> later s w)).
Proof.
  intros Tw Hw. induction s as [|c s [IHt (tl & IHf & IHl)]].
  - split.
    + simpl. split.
      * intros [<- | []]. discriminate.
      * intros (pre & post & Hs & _).
        destruct pre; [|discriminate]. destruct w; discriminate.
    + exists []. split; [reflexivity|]. split; [intros []|].
      intros (pre & post & Hs & Hp & _). destruct pre; discriminate.
  - simpl. destruct (isSpace c) eqn:Hc.
    + split.
      * rewrite IHt. symmetry. now apply word_at_cons_space.
      * exists (split_ws_from true s). split; [reflexivity|].
        rewrite IHt. symmetry. now apply later_cons_space.
    + rewrite IHf. split.
      * simpl. rewrite IHl, word_at_cases, (later_cons_other c s w Hc).
        rewrite (leading_word_spec (String c s) w Hw). simpl. rewrite Hc.
        split; (intros [H|H]; [left; congruence | now right]).
      * exists tl. split; [reflexivity|].
        rewrite IHl. symmetry. now apply later_cons_other.
Qed.

(** [w] is a piece of [s.split(/\s+/)] exactly when it stands in [s] as a
    word. *)
Theorem split_ws_In s w :
  truthy w = true -> no_space w = true ->
  (In w (split_ws s) <-> word_at s w).
Proof.
  intros Tw Hw. unfold split_ws.
  destruct (split_ws_from_spec w Tw Hw s) as [_ (tl & -> & Hl)].
  simpl. rewrite Hl, word_at_cases, (leading_word_spec s w Hw).
  split; (intros [H|H]; [left; congruence | now right]).
Qed.

End WordsFacts.

(* ===================================================================== *)
(** * Policies built on detection *)
(* ===================================================================== *)

Section Policies.

Import JS JSFacts ContainerRuntime SpecsTs.

Variable W : World.

Lemma detectRuntime_eta s :
  detectRuntime W s = (fst (detectRuntime W s), snd (detectRuntime W s)).
Proof. now destruct (detectRuntime W s). Qed.

Lemma array_includes_In arr x : array_includes arr x = true <-> In x arr.
Proof.
  unfold array_includes. rewrite existsb_exists. split.
  - intros (y & Hy & E). apply String.eqb_eq in E. now subst.
  - intros H. exists x. split; [exact H | apply String.eqb_refl].
Qed.

(** C5. With Podman detected the check is satisfied and [id -Gn] is not
    even run; with Docker detected it is satisfied exactly when "docker" is
    one of the pieces of the output of [id -Gn] split at white space, that
    is, when it stands in the output as a word, and it is not satisfied
    when [id -Gn] fails. *)
Theorem isUserInRuntimeGroup_policy (s : State) :
  let s1 := snd (detectRuntime W s) in
  (fst (detectRuntime W s) = Return (Some podman) ->
   isUserInRuntimeGroup W s = (Return true, s1)) /\
  (fst (detectRuntime W s) = Return (Some docker) ->
   forall o, run_exec W (trace s1) "id -Gn" = Return o ->
     fst (isUserInRuntimeGroup W s)
       = Return (array_includes (split_ws (stdout o)) "docker") /\
     (fst (isUserInRuntimeGroup W s) = Return true <->
      In "docker" (split_ws (stdout o))) /\
     (fst (isUserInRuntimeGroup W s) = Return true <->
      Words.word_at (stdout o) "docker")) /\
  (fst (detectRuntime W s) = Return (Some docker) ->
   forall e, run_exec W (trace s1) "id -Gn" = Throw e ->
     fst (isUserInRuntimeGroup W s) = Return false).
Proof.
  intros s1. subst s1.
  destruct (detectRuntime_post W s) as (res & s' & E & _).
  assert (B : forall (k : option RuntimeType -> M bool),
             bind (detectRuntime W) k s = k res s')
    by (intros; now apply bind_Return).
  unfold isUserInRuntimeGroup, try_catch. rewrite B, E. simpl fst; simpl snd.
  split; [|split]; intros [= ->].
  - reflexivity.
  - intros o Ho. unfold bind, execAsync, ret. rewrite Ho. simpl.
    split; [reflexivity|].
    assert (G : Return (array_includes (split_ws (stdout o)) "docker")
                  = Return true
                <-> In "docker" (split_ws (stdout o))).
    { rewrite <- array_includes_In. split; congruence. }
    split; [exact G|].
    now rewrite G, (WordsFacts.split_ws_In (stdout o) "docker" eq_refl eq_refl).
  - intros e He. unfold bind, execAsync, ret. now rewrite He.
Qed.

Lemma includes_nonempty s p :
  includes s p = true -> truthy p = true -> truthy s = true.
Proof. destruct s; [destruct p; discriminate | reflexivity]. Qed.

(** C6. With Podman detected the mode is "pasta" when the version of the
    runtime info contains "4.4" and "slirp4netns" otherwise, also when
    there is no runtime info because its probe failed; with Docker detected
    there is no mode. *)
Theorem getNetworkMode_policy (s : State) :
  let s1 := snd (detectRuntime W s) in
  (fst (detectRuntime W s) = Return (Some podman) ->
   fst (getNetworkMode W s) =
     Return (Some match fst (getRuntimeInfo W s1) with
                  | Return (Some i) =>
                      if includes (version i) "4.4"
                      then "pasta" else "slirp4netns"
                  | _ => "slirp4netns"
                  end) /\
   (forall e, cache_hit s1 podman = false ->
      run_exec W (trace s1) "podman --version" = Throw e ->
      fst (getNetworkMode W s) = Return (Some "slirp4netns"))) /\
  (fst (detectRuntime W s) = Return (Some docker) ->
   getNetworkMode W s = (Return None, s1)).
Proof.
  intros s1.
  split.
  - intros H.
    assert (G : fst (getNetworkMode W s) =
      Return (Some match fst (getRuntimeInfo W s1) with
                   | Return (Some i) =>
                       if includes (version i) "4.4"
                       then "pasta" else "slirp4netns"
                   | _ => "slirp4netns"
                   end)).
    { unfold getNetworkMode.
      rewrite (bind_Return _ _ s (Some podman) s1)
        by (rewrite detectRuntime_eta; now rewrite H).
      unfold try_catch, bind, ret.
      destruct (getRuntimeInfo_returns W s1) as (a & s2 & E). rewrite E. simpl.
      destruct a as [i|]; [|reflexivity].
      destruct (includes (version i) "4.4") eqn:Ei.
      - now rewrite (includes_nonempty _ _ Ei eq_refl).
      - now rewrite andb_false_r. }
    split; [exact G|].
    intros e Hm He. rewrite G.
    assert (Hs1 : fst (detectRuntime W s1) = Return (Some podman)).
    { rewrite (detectRuntime_cached W s1 podman); [reflexivity|].
      subst s1. destruct (detectRuntime_post W s) as (res & s' & E & Hd & _).
      rewrite E in *. simpl in *. congruence. }
    assert (Hs1' : snd (detectRuntime W s1) = s1).
    { rewrite (detectRuntime_cached W s1 podman); [reflexivity|].
      subst s1. destruct (detectRuntime_post W s) as (res & s' & E & Hd & _).
      rewrite E in *. simpl in *. congruence. }
    rewrite (getRuntimeInfo_miss W s1 podman Hs1 Hm), Hs1'.
    rewrite probeRuntimeInfo_eq. cbv zeta.
    change (runtimeName podman ++ " --version") with "podman --version".
    now rewrite He.
  - intros H. unfold getNetworkMode.
    rewrite (bind_Return _ _ s (Some docker) s1)
      by (rewrite detectRuntime_eta; now rewrite H).
    reflexivity.
Qed.

(** C7. [execCommand] runs the template with a leading "docker" or
    "podman" replaced by the resolved name and everything after it as it
    was, and runs a template that starts with neither as it is; the
    resolved name is that of the detected kind, and "docker" when nothing
    is detected. *)
Theorem execCommand_rewrites_leading_name (s : State) (command : string) :
  let name := match fst (detectRuntime W s) with
              | Return (Some r) => runtimeName r
              | _ => "docker"
              end in
  let s1 := snd (detectRuntime W s) in
  getCommand W s = (Return name, s1) /\
  (forall rest, command = "docker" ++ rest ->
     execCommand W command s = execAsync W (name ++ rest) s1) /\
  (forall rest, command = "podman" ++ rest ->
     execCommand W command s = execAsync W (name ++ rest) s1) /\
  (startsWith command "docker" = false ->
   startsWith command "podman" = false ->
   execCommand W command s = execAsync W command s1).
Proof.
  intros name s1.
  assert (G : getCommand W s = (Return name, s1)).
  { unfold getCommand. subst name s1.
    destruct (detectRuntime_post W s) as (res & s' & E & _).
    rewrite (bind_Return _ _ _ _ _ E), E. now destruct res. }
  split; [exact G|].
  unfold execCommand. rewrite (bind_Return _ _ _ _ _ G). cbv zeta.
  repeat split.
  - intros rest ->. unfold replace_leading_engine.
    now rewrite (strip_prefix_app "docker" rest).
  - intros rest ->. unfold replace_leading_engine.
    now rewrite (strip_prefix_app "podman" rest).
  - intros Hd Hp. unfold replace_leading_engine.
    apply strip_prefix_startsWith in Hd, Hp. now rewrite Hd, Hp.
Qed.

(** C8. [satisfiesPrequisites] returns the conjunction of the eight flags,
    with the group flag counted only when Docker is the detected kind, and
    of the two thresholds; on the example inputs, with the group required,
    it is false when the group check is not satisfied and true when it
    is. *)
Theorem satisfiesPrequisites_conjunction (s : State) (specs : Specs) :
  let requiresGroup := match fst (detectRuntime W s) with
                       | Return (Some docker) => true
                       | _ => false
                       end in
  satisfiesPrequisites W specs s =
    (Return (dockerInstalled specs && dockerComposeInstalled specs &&
             dockerIsRunning specs &&
             (if requiresGroup then dockerIsInUserGroups specs else true) &&
             freeRDP3Installed specs && ipTablesLoaded specs &&
             iptableNatLoaded specs && kvmEnabled specs &&
             ge (ramGB specs) (of_Z 4) && ge (cpuCores specs) (of_Z 2)),
     snd (detectRuntime W s)) /\
  (requiresGroup = true ->
   fst (satisfiesPrequisites W (exampleSpecs false) s) = Return false /\
   fst (satisfiesPrequisites W (exampleSpecs true) s) = Return true).
Proof.
  intros requiresGroup.
  assert (G : forall sp, satisfiesPrequisites W sp s =
    (Return (dockerInstalled sp && dockerComposeInstalled sp &&
             dockerIsRunning sp &&
             (if requiresGroup then dockerIsInUserGroups sp else true) &&
             freeRDP3Installed sp && ipTablesLoaded sp &&
             iptableNatLoaded sp && kvmEnabled sp &&
             ge (ramGB sp) (of_Z 4) && ge (cpuCores sp) (of_Z 2)),
     snd (detectRuntime W s))).
  { intros sp. unfold satisfiesPrequisites, requiresGroupMembership.
    subst requiresGroup.
    destruct (detectRuntime_post W s) as (res & s' & E & _).
    rewrite E. unfold bind, ret. rewrite E. simpl.
    now destruct res as [[|]|]. }
  split; [apply G|].
  intros R. rewrite !G, R. now split.
Qed.

End Policies.

(** Podman; Docker with and without the group; Docker without [id]. *)
Lemma isUserInRuntimeGroup_policy_witness :
  fst (ContainerRuntime.isUserInRuntimeGroup shimHost initial) = Return true /\
  fst (ContainerRuntime.isUserInRuntimeGroup dockerHost initial) = Return true /\
  fst (ContainerRuntime.isUserInRuntimeGroup outsiderHost initial) = Return false /\
  fst (ContainerRuntime.isUserInRuntimeGroup noComposeHost initial) = Return false.
Proof.
  split; [|split; [|split]].
  - now rewrite (proj1 (isUserInRuntimeGroup_policy shimHost initial) eq_refl).
  - now rewrite (proj1 (proj1 (proj2 (isUserInRuntimeGroup_policy dockerHost initial))
                          eq_refl (mkExecResult "alice wheel docker" EmptyString)
                          eq_refl)).
  - now rewrite (proj1 (proj1 (proj2 (isUserInRuntimeGroup_policy outsiderHost initial))
                          eq_refl (mkExecResult "alice wheel dockerusers" EmptyString)
                          eq_refl)).
  - now rewrite (proj2 (proj2 (isUserInRuntimeGroup_policy noComposeHost initial))
                   eq_refl "Command failed" eq_refl).
Defined.

(** Podman 4.4.1, Podman 3.0.1 and Docker. *)
Lemma getNetworkMode_policy_witness :
  fst (ContainerRuntime.getNetworkMode shimHost initial) = Return (Some "pasta") /\
  fst (ContainerRuntime.getNetworkMode oldPodmanHost initial)
    = Return (Some "slirp4netns") /\
  fst (ContainerRuntime.getNetworkMode dockerHost initial) = Return None.
Proof.
  split; [|split].
  - now rewrite (proj1 (proj1 (getNetworkMode_policy shimHost initial) eq_refl)).
  - now rewrite (proj1 (proj1 (getNetworkMode_policy oldPodmanHost initial) eq_refl)).
  - now rewrite (proj2 (getNetworkMode_policy dockerHost initial) eq_refl).
Defined.

(** The image name keeps its "docker" when the command becomes Podman's. *)
Lemma execCommand_rewrites_leading_name_witness :
  trace (snd (ContainerRuntime.execCommand shimHost
                "docker run docker.io/library/alpine" initial))
  = [Exec "docker --version"; Exec "podman run docker.io/library/alpine"].
Proof.
  now rewrite (proj1 (proj2 (execCommand_rewrites_leading_name shimHost initial
                               "docker run docker.io/library/alpine"))
                 " run docker.io/library/alpine" eq_refl).
Defined.

(** The end-to-end example on the Docker host. *)
Lemma satisfiesPrequisites_conjunction_witness :
  fst (SpecsTs.satisfiesPrequisites dockerHost (exampleSpecs false) initial)
    = Return false /\
  fst (SpecsTs.satisfiesPrequisites dockerHost (exampleSpecs true) initial)
    = Return true.
Proof.
  apply (proj2 (satisfiesPrequisites_conjunction dockerHost initial
                  (exampleSpecs true))).
  reflexivity.
Defined.

(* ===================================================================== *)
(** * The readiness collector *)
(* ===================================================================== *)

Section Collector.

Import JS JSFacts ContainerRuntime SpecsTs.

Variable W : World.

(** [getMemoryInfo] returns when the file can be read and throws the
    error of the read when it cannot. *)
Lemma getMemoryInfo_eq s :
  exists m,
    getMemoryInfo W s =
    match read_file W (trace s) "/proc/meminfo" with
    | Return _ => (Return m, record (ReadFileSync "/proc/meminfo") s)
    | Throw e =>
        (Throw e,
         snd (console_log "Error reading /proc/meminfo:"
                (record (ReadFileSync "/proc/meminfo") s)))
    end.
Proof.
  unfold getMemoryInfo. unfold_M.
  destruct (read_file W (trace s) "/proc/meminfo") as [c|e].
  - eexists. reflexivity.
  - exists (mkMemoryInfo NaN NaN). reflexivity.
Qed.

Lemma isRuntimeRunning_returns : returns (isRuntimeRunning W).
Proof.
  intros s. unfold isRuntimeRunning, getCommand.
  destruct (detectRuntime_post W s) as (res & s1 & E & _).
  unfold try_catch, bind. rewrite E. unfold ret, execAsync.
  destruct (run_exec W (trace s1) _); eauto.
Qed.

Lemma isUserInRuntimeGroup_returns : returns (isUserInRuntimeGroup W).
Proof.
  intros s. unfold isUserInRuntimeGroup.
  destruct (detectRuntime_post W s) as (res & s1 & E & _).
  unfold try_catch, bind. rewrite E. unfold ret, execAsync.
  destruct res as [[|]|]; eauto.
  destruct (run_exec W (trace s1) _); eauto.
Qed.

Lemma cpuCoresCheck_spec specs s :
  exists v s',
    cpuCoresCheck W specs s = (Return (set_cpuCores v specs), s') /\
    trace s' = (trace s ++ [Exec lscpu_command])%list /\
    same_cache s s' /\
    (always_fails (fun t => run_exec W t lscpu_command) -> v = cpuCores specs).
Proof.
  unfold cpuCoresCheck. unfold_M. destruct specs.
  destruct (run_exec W (trace s) lscpu_command) as [r|e] eqn:E.
  - eexists; eexists. split; [reflexivity|]. repeat split.
    intros F. destruct (F (trace s)) as [e' He]. congruence.
  - eexists; eexists. split; [reflexivity|]. repeat split.
Qed.

Lemma memoryCheck_spec specs s :
  exists v s',
    memoryCheck W specs s = (Return (set_ramGB v specs), s') /\
    trace s' = (trace s ++ [ReadFileSync "/proc/meminfo"])%list /\
    same_cache s s' /\
    (always_fails (fun t => read_file W t "/proc/meminfo") -> v = ramGB specs).
Proof.
  unfold memoryCheck. destruct (getMemoryInfo_eq s) as [m Hm].
  unfold try_catch, bind. rewrite Hm. destruct specs.
  destruct (read_file W (trace s) "/proc/meminfo") as [c|e] eqn:E.
  - eexists; eexists. split; [reflexivity|]. repeat split.
    intros F. destruct (F (trace s)) as [e' He]. congruence.
  - eexists; eexists. split; [reflexivity|]. repeat split.
Qed.

Lemma kvmCheck_spec specs s :
  exists v s' t,
    kvmCheck W specs s = (Return (set_kvmEnabled v specs), s') /\
    trace s' = (trace s ++ [ReadFileSync "/proc/cpuinfo"] ++ t)%list /\
    same_cache s s' /\
    (always_fails (fun t => read_file W t "/proc/cpuinfo") ->
     v = kvmEnabled specs).
Proof.
  unfold kvmCheck. unfold_M. destruct specs.
  destruct (read_file W (trace s) "/proc/cpuinfo") as [c|e] eqn:E.
  - destruct (includes c "vmx" || includes c "svm").
    + destruct (file_exists W _ "/dev/kvm");
        eexists; eexists; exists [ExistsSync "/dev/kvm"];
        (split; [reflexivity|]); simpl; rewrite <- app_assoc; repeat split;
        intros F; destruct (F (trace s)) as [e' He]; congruence.
    + eexists; eexists; exists []. split; [reflexivity|]. repeat split.
  - eexists; eexists; exists []. split; [reflexivity|]. repeat split.
Qed.

Lemma runtimeCheck_spec specs s :
  exists v s',
    runtimeCheck W specs s = (Return (set_dockerInstalled v specs), s') /\
    extends s s' /\
    runtimeInfo s' = runtimeInfo s /\
    (detectedRuntime s = None ->
     always_fails (fun t => run_exec W t "docker --version") ->
     always_fails (fun t => run_exec W t "podman --version") ->
     v = false).
Proof.
  unfold runtimeCheck.
  destruct (detectRuntime_post W s) as (res & s1 & E & Hd & Hi & Hx & _).
  unfold try_catch, bind. rewrite E. unfold ret.
  eexists; eexists. split; [reflexivity|]. repeat split; auto.
  intros Hn Fd Fp. revert E. unfold detectRuntime. unfold_M. rewrite Hn.
  destruct (Fd (trace s)) as [e ->]. simpl.
  destruct (Fp (trace (record (Exec "docker --version") s))) as [e' He'].
  simpl in He'. rewrite He'. now intros [= <- _].
Qed.

(** [getRuntimeInfo] in general: it never throws; when no info is cached
    and the compose command always fails, an info it returns says that
    compose is not installed; when no info is cached and the version
    command always fails, it returns none. *)
Lemma getRuntimeInfo_post s :
  exists res s',
    getRuntimeInfo W s = (Return res, s') /\
    extends s s' /\
    (runtimeInfo s = None ->
     (forall r, always_fails
                  (fun t => run_exec W t (runtimeName r ++ " compose version"))) ->
     forall i, res = Some i -> composeInstalled i = false) /\
    (runtimeInfo s = None ->
     (forall r, always_fails
                  (fun t => run_exec W t (runtimeName r ++ " --version"))) ->
     res = None).
Proof.
  unfold getRuntimeInfo.
  destruct (detectRuntime_post W s) as (res & s1 & E & Hd & Hi & Hx & _).
  rewrite (bind_Return _ _ _ _ _ E).
  destruct res as [r|].
  2:{ exists None, s1. unfold ret. repeat split; auto; discriminate. }
  unfold bind, get_runtimeInfo. rewrite Hi.
  destruct (runtimeInfo s) as [i|] eqn:Ei.
  - destruct (RuntimeType_eqb (type i) r).
    + exists (Some i), s1. unfold ret. split; [reflexivity|].
      split; [exact Hx|]. split; discriminate.
    + rewrite probeRuntimeInfo_eq. cbv zeta.
      destruct (run_exec W (trace s1) _) as [o|e];
        eexists; eexists; (split; [reflexivity|]);
        (split; [eapply extends_trans; [exact Hx|]; eexists; reflexivity|]);
        split; discriminate.
  - rewrite probeRuntimeInfo_eq. cbv zeta.
    destruct (run_exec W (trace s1) _) as [o|e] eqn:Ev;
      eexists; eexists; (split; [reflexivity|]);
      (split; [eapply extends_trans; [exact Hx|]; eexists; reflexivity|]);
      (split; [intros _ F j [= <-] | intros _ F]); try reflexivity.
    + destruct (F r (trace s1 ++ [Exec (runtimeName r ++ " --version")])%list)
        as [e He].
      unfold assembled. now rewrite He.
    + destruct (F r (trace s1)) as [e He]. congruence.
Qed.

Lemma composeCheck_spec specs s :
  exists v s',
    composeCheck W specs s = (Return (set_dockerComposeInstalled v specs), s') /\
    extends s s' /\
    (runtimeInfo s = None ->
     (forall r, always_fails
                  (fun t => run_exec W t (runtimeName r ++ " compose version"))) ->
     v = false) /\
    (runtimeInfo s = None ->
     (forall r, always_fails
                  (fun t => run_exec W t (runtimeName r ++ " --version"))) ->
     v = false).
Proof.
  unfold composeCheck.
  destruct (getRuntimeInfo_post s) as (res & s1 & E & Hx & Hc & Hv).
  unfold try_catch, bind. rewrite E. unfold ret.
  destruct res as [i|].
  - eexists; eexists. split; [reflexivity|]. split; [exact Hx|].
    split; intros Hn F.
    + now apply (Hc Hn F i).
    + discriminate (Hv Hn F).
  - eexists; eexists. split; [reflexivity|]. split; [exact Hx|].
    split; reflexivity.
Qed.

Lemma runningCheck_spec specs s :
  exists v s' t name,
    runningCheck W specs s = (Return (set_dockerIsRunning v specs), s') /\
    trace s' = (trace s ++ t ++ [Exec (name ++ " ps")])%list /\
    ((forall r, always_fails (fun t => run_exec W t (runtimeName r ++ " ps"))) ->
     v = false).
Proof.
  unfold runningCheck, isRuntimeRunning, getCommand.
  destruct (detectRuntime_post W s) as (res & s1 & E & Hd & Hi & [t Ht] & _).
  unfold try_catch, bind. rewrite E. unfold ret, execAsync.
  set (name := match res with Some r => runtimeName r | None => "docker" end).
  assert (Hname : exists r, name = runtimeName r).
  { subst name. destruct res as [r|]; [now exists r | now exists docker]. }
  destruct (run_exec W (trace s1) (name ++ " ps")) as [o|e] eqn:Eo;
    eexists; eexists; exists t, name; (split; [reflexivity|]);
    (split; [simpl; now rewrite Ht, <- app_assoc|]); intros F;
    try reflexivity.
  destruct Hname as [r Hr]. destruct (F r (trace s1)) as [e He].
  rewrite <- Hr in He. congruence.
Qed.

Lemma userGroupCheck_spec specs s :
  exists v s',
    userGroupCheck W specs s = (Return (set_dockerIsInUserGroups v specs), s') /\
    extends s s' /\
    (always_fails (fun t => run_exec W t "id -Gn") ->
     detectedRuntime s' <> Some podman -> v = false).
Proof.
  unfold userGroupCheck, isUserInRuntimeGroup.
  destruct (detectRuntime_post W s) as (res & s1 & E & Hd & Hi & Hx & _).
  unfold try_catch, bind. rewrite E. unfold ret, execAsync.
  destruct res as [[|]|].
  - destruct (run_exec W (trace s1) "id -Gn") as [o|e] eqn:Eo;
      eexists; eexists; (split; [reflexivity|]);
      (split; [eapply extends_trans; [exact Hx|]; apply extends_record|]);
      intros F _; try reflexivity.
    destruct (F (trace s1)) as [e He]. congruence.
  - eexists; eexists. split; [reflexivity|]. split; [exact Hx|].
    intros _ N. now destruct N.
  - eexists; eexists. split; [reflexivity|]. split; [exact Hx|]. reflexivity.
Qed.

Lemma freeRDPCheck_spec specs s :
  exists v s',
    freeRDPCheck W specs s = (Return (set_freeRDP3Installed v specs), s') /\
    trace s' = (trace s ++ [GetFreeRDP])%list /\
    same_cache s s' /\
    (always_fails (locate_freerdp W) -> v = freeRDP3Installed specs).
Proof.
  unfold freeRDPCheck. unfold_M. destruct specs.
  destruct (locate_freerdp W (trace s)) as [r|e] eqn:E.
  - eexists; eexists. split; [reflexivity|]. repeat split.
    intros F. destruct (F (trace s)) as [e' He]. congruence.
  - eexists; eexists. split; [reflexivity|]. repeat split.
Qed.

Lemma ipTablesCheck_spec specs s :
  exists v s',
    ipTablesCheck W specs s = (Return (set_ipTablesLoaded v specs), s') /\
    trace s' = (trace s ++ [Exec "lsmod | grep ip_tables"])%list /\
    same_cache s s' /\
    (always_fails (fun t => run_exec W t "lsmod | grep ip_tables") ->
     v = ipTablesLoaded specs).
Proof.
  unfold ipTablesCheck. unfold_M. destruct specs.
  destruct (run_exec W (trace s) _) as [r|e] eqn:E.
  - eexists; eexists. split; [reflexivity|]. repeat split.
    intros F. destruct (F (trace s)) as [e' He]. congruence.
  - eexists; eexists. split; [reflexivity|]. repeat split.
Qed.

Lemma iptableNatCheck_spec specs s :
  exists v s',
    iptableNatCheck W specs s = (Return (set_iptableNatLoaded v specs), s') /\
    trace s' = (trace s ++ [Exec "lsmod | grep iptable_nat"])%list /\
    same_cache s s' /\
    (always_fails (fun t => run_exec W t "lsmod | grep iptable_nat") ->
     v = iptableNatLoaded specs).
Proof.
  unfold iptableNatCheck. unfold_M. destruct specs.
  destruct (run_exec W (trace s) _) as [r|e] eqn:E.
  - eexists; eexists. split; [reflexivity|]. repeat split.
    intros F. destruct (F (trace s)) as [e' He]. congruence.
  - eexists; eexists. split; [reflexivity|]. repeat split.
Qed.

(** C9. [getMemoryInfo] throws the error of a failed read on to its
    caller, while the runtime probes that [getSpecs] calls never throw;
    [getSpecs] itself always returns, and whatever fails, it has asked the
    host for every sibling probe, in order; each field is at its default
    when the probe it comes from fails. *)
Theorem getSpecs_fault_isolation (s : State) :
  (forall s0 e, read_file W (trace s0) "/proc/meminfo" = Throw e ->
                fst (getMemoryInfo W s0) = Throw e) /\
  (returns (detectRuntime W) /\ returns (getRuntimeInfo W) /\
   returns (isRuntimeRunning W) /\ returns (isUserInRuntimeGroup W)) /\
  exists specs s',
    getSpecs W s = (Return specs, s') /\
    (exists t1 name t2,
        trace s' =
        (trace s ++
         [Exec lscpu_command; ReadFileSync "/proc/meminfo";
          ReadFileSync "/proc/cpuinfo"] ++
         t1 ++ [Exec (name ++ " ps")] ++ t2 ++
         [GetFreeRDP; Exec "lsmod | grep ip_tables";
          Exec "lsmod | grep iptable_nat"])%list) /\
    (always_fails (fun t => run_exec W t lscpu_command) ->
     cpuCores specs = of_Z 0) /\
    (always_fails (fun t => read_file W t "/proc/meminfo") ->
     ramGB specs = of_Z 0) /\
    (always_fails (fun t => read_file W t "/proc/cpuinfo") ->
     kvmEnabled specs = false) /\
    (detectedRuntime s = None ->
     always_fails (fun t => run_exec W t "docker --version") ->
     always_fails (fun t => run_exec W t "podman --version") ->
     dockerInstalled specs = false) /\
    (runtimeInfo s = None ->
     (forall r, always_fails
                  (fun t => run_exec W t (runtimeName r ++ " compose version"))) ->
     dockerComposeInstalled specs = false) /\
    (runtimeInfo s = None ->
     (forall r, always_fails
                  (fun t => run_exec W t (runtimeName r ++ " --version"))) ->
     dockerComposeInstalled specs = false) /\
    ((forall r, always_fails (fun t => run_exec W t (runtimeName r ++ " ps"))) ->
     dockerIsRunning specs = false) /\
    (always_fails (fun t => run_exec W t "id -Gn") ->
     detectedRuntime s' <> Some podman ->
     dockerIsInUserGroups specs = false) /\
    (always_fails (locate_freerdp W) -> freeRDP3Installed specs = false) /\
    (always_fails (fun t => run_exec W t "lsmod | grep ip_tables") ->
     ipTablesLoaded specs = false) /\
    (always_fails (fun t => run_exec W t "lsmod | grep iptable_nat") ->
     iptableNatLoaded specs = false).
Proof.
  split.
  { intros s0 e He. destruct (getMemoryInfo_eq s0) as [m ->]. now rewrite He. }
  split.
  { repeat split.
    - apply detectRuntime_returns.
    - apply getRuntimeInfo_returns.
    - apply isRuntimeRunning_returns.
    - apply isUserInRuntimeGroup_returns. }
  destruct (cpuCoresCheck_spec defaultSpecs s)
    as (v1 & s1 & E1 & T1 & [D1 I1] & F1).
  destruct (memoryCheck_spec (set_cpuCores v1 defaultSpecs) s1)
    as (v2 & s2 & E2 & T2 & [D2 I2] & F2).
  destruct (kvmCheck_spec (set_ramGB v2 (set_cpuCores v1 defaultSpecs)) s2)
    as (v3 & s3 & t3 & E3 & T3 & [D3 I3] & F3).
  destruct (runtimeCheck_spec
              (set_kvmEnabled v3 (set_ramGB v2 (set_cpuCores v1 defaultSpecs))) s3)
    as (v4 & s4 & E4 & [t4 T4] & I4 & F4).
  destruct (composeCheck_spec
              (set_dockerInstalled v4
                 (set_kvmEnabled v3 (set_ramGB v2 (set_cpuCores v1 defaultSpecs))))
              s4)
    as (v5 & s5 & E5 & [t5 T5] & F5 & F5').
  destruct (runningCheck_spec
              (set_dockerComposeInstalled v5
                 (set_dockerInstalled v4
                    (set_kvmEnabled v3
                       (set_ramGB v2 (set_cpuCores v1 defaultSpecs)))))
              s5)
    as (v6 & s6 & t6 & name & E6 & T6 & F6).
  destruct (userGroupCheck_spec
              (set_dockerIsRunning v6
                 (set_dockerComposeInstalled v5
                    (set_dockerInstalled v4
                       (set_kvmEnabled v3
                          (set_ramGB v2 (set_cpuCores v1 defaultSpecs))))))
              s6)
    as (v7 & s7 & E7 & [t7 T7] & F7).
  destruct (freeRDPCheck_spec
              (set_dockerIsInUserGroups v7
                 (set_dockerIsRunning v6
                    (set_dockerComposeInstalled v5
                       (set_dockerInstalled v4
                          (set_kvmEnabled v3
                             (set_ramGB v2 (set_cpuCores v1 defaultSpecs)))))))
              s7)
    as (v8 & s8 & E8 & T8 & [D8 I8] & F8).
  destruct (ipTablesCheck_spec
              (set_freeRDP3Installed v8
                 (set_dockerIsInUserGroups v7
                    (set_dockerIsRunning v6
                       (set_dockerComposeInstalled v5
                          (set_dockerInstalled v4
                             (set_kvmEnabled v3
                                (set_ramGB v2 (set_cpuCores v1 defaultSpecs))))))))
              s8)
    as (v9 & s9 & E9 & T9 & [D9 I9] & F9).
  destruct (iptableNatCheck_spec
              (set_ipTablesLoaded v9
                 (set_freeRDP3Installed v8
                    (set_dockerIsInUserGroups v7
                       (set_dockerIsRunning v6
                          (set_dockerComposeInstalled v5
                             (set_dockerInstalled v4
                                (set_kvmEnabled v3
                                   (set_ramGB v2
                                      (set_cpuCores v1 defaultSpecs)))))))))
              s9)
    as (v10 & s10 & E10 & T10 & [D10 I10] & F10).
  eexists; eexists. split.
  { unfold getSpecs. cbv zeta.
    rewrite (bind_Return _ _ _ _ _ E1), (bind_Return _ _ _ _ _ E2),
      (bind_Return _ _ _ _ _ E3), (bind_Return _ _ _ _ _ E4),
      (bind_Return _ _ _ _ _ E5), (bind_Return _ _ _ _ _ E6),
      (bind_Return _ _ _ _ _ E7), (bind_Return _ _ _ _ _ E8),
      (bind_Return _ _ _ _ _ E9), (bind_Return _ _ _ _ _ E10).
    reflexivity. }
  split.
  { exists (t3 ++ t4 ++ t5 ++ t6)%list, name, t7. simpl.
    rewrite T10, T9, T8, T7, T6, T5, T4, T3, T2, T1.
    rewrite <- !app_assoc. reflexivity. }
  simpl.
  split; [intros F; now rewrite (F1 F)|].
  split; [intros F; now rewrite (F2 F)|].
  split; [intros F; now rewrite (F3 F)|].
  split; [intros Hn Fd Fp; apply F4; [congruence | assumption..]|].
  split; [intros Hn F; apply F5; [congruence | assumption]|].
  split; [intros Hn F; apply F5'; [congruence | assumption]|].
  split; [exact F6|].
  split; [intros F N; apply F7; [assumption | congruence]|].
  split; [intros F; now rewrite (F8 F)|].
  split; [intros F; now rewrite (F9 F)|].
  intros F; now rewrite (F10 F).
Qed.

End Collector.

(** The collector and the predicate on the ready host. *)
Example getSpecs_readyHost :
  fst (SpecsTs.getSpecs readyHost initial)
  = Return (SpecsTs.mkSpecs (JS.of_Z 8) (JS.Num (1563 / 100)) true true true
                            true true true true true).
Proof. reflexivity. Qed.

Example satisfiesPrequisites_readyHost :
  let collected := SpecsTs.getSpecs readyHost initial in
  match fst collected with
  | Return specs =>
      fst (SpecsTs.satisfiesPrequisites readyHost specs (snd collected))
      = Return true
  | Throw _ => False
  end.
Proof. reflexivity. Qed.

Example getSpecs_readyHost_trace :
  trace (snd (SpecsTs.getSpecs readyHost initial))
  = [Exec SpecsTs.lscpu_command; ReadFileSync "/proc/meminfo";
     ReadFileSync "/proc/cpuinfo"; ExistsSync "/dev/kvm";
     Exec "docker --version"; Exec "docker --version";
     Exec "docker compose version"; Exec "docker ps"; Exec "id -Gn";
     GetFreeRDP; Exec "lsmod | grep ip_tables";
     Exec "lsmod | grep iptable_nat"].
Proof. reflexivity. Qed.

(** On a host where every probe fails, [getSpecs] returns the defaults. *)
Lemma getSpecs_fault_isolation_witness :
  fst (SpecsTs.getSpecs bareHost initial) = Return SpecsTs.defaultSpecs.
Proof.
  destruct (getSpecs_fault_isolation bareHost initial)
    as (_ & _ & specs & s' & E & _ & H1 & H2 & H3 & H4 & H5 & _ & H6 & H7
        & H8 & H9 & H10).
  assert (F : forall cmd, always_fails (fun t => run_exec bareHost t cmd))
    by (intros cmd t; now exists "Command failed").
  assert (G : forall path, always_fails (fun t => read_file bareHost t path))
    by (intros path t; now exists "ENOENT").
  assert (R : always_fails (locate_freerdp bareHost))
    by (intros t; now exists "not found").
  assert (N : detectedRuntime s' <> Some podman).
  { replace s' with (snd (SpecsTs.getSpecs bareHost initial))
      by now rewrite E.
    discriminate. }
  rewrite E. simpl. f_equal.
  specialize (H1 (F _)). specialize (H2 (G _)). specialize (H3 (G _)).
  specialize (H4 eq_refl (F _) (F _)).
  specialize (H5 eq_refl (fun r => F _)).
  specialize (H6 (fun r => F _)). specialize (H7 (F _) N).
  specialize (H8 R). specialize (H9 (F _)). specialize (H10 (F _)).
  destruct specs; simpl in *. unfold SpecsTs.defaultSpecs. congruence.
Defined.

(* ===================================================================== *)
(** * Detection: the fallback and the case of no engine *)
(* ===================================================================== *)

Section Fallback.

Import JS JSFacts ContainerRuntime.

Variable W : World.

(** X1. With an empty cache and a failing [docker --version], detection
    asks for [podman --version] next: if that succeeds the kind is
    [podman], whatever the command printed, and it is cached; if it fails
    the result is [null] and nothing is cached.  Either way these two
    requests are the only ones made, and nothing is logged. *)
Theorem detectRuntime_fallback (s : State) (e : error) :
  detectedRuntime s = None ->
  run_exec W (trace s) "docker --version" = Throw e ->
  let t1 := (trace s ++ [Exec "docker --version"])%list in
  let t2 := (t1 ++ [Exec "podman --version"])%list in
  (forall o, run_exec W t1 "podman --version" = Return o ->
     detectRuntime W s =
       (Return (Some podman),
        mkState (Some podman) (runtimeInfo s) t2 (console s))) /\
  (forall e', run_exec W t1 "podman --version" = Throw e' ->
     detectRuntime W s =
       (Return None, mkState None (runtimeInfo s) t2 (console s))).
Proof.
  intros Hc He t1 t2. subst t1 t2.
  split; intros x Hx; unfold detectRuntime; unfold_M; unfold record;
    rewrite Hc, He; simpl; rewrite Hx; simpl; rewrite ?Hc; reflexivity.
Qed.

(** X2. When detection finds no engine, every function built on it takes
    its fallback: no runtime info, the command name "docker", the user not
    in the group, no group required, no network mode. *)
Theorem no_engine_defaults (s : State) :
  fst (detectRuntime W s) = Return None ->
  fst (getRuntimeInfo W s) = Return None /\
  fst (getCommand W s) = Return "docker" /\
  fst (isUserInRuntimeGroup W s) = Return false /\
  fst (requiresGroupMembership W s) = Return false /\
  fst (getNetworkMode W s) = Return None.
Proof.
  intros H.
  destruct (detectRuntime_post W s) as (res & s1 & E & _).
  rewrite E in H. simpl in H. injection H as ->.
  assert (B : forall A (k : option RuntimeType -> M A),
             bind (detectRuntime W) k s = k None s1)
    by (intros; now apply bind_Return).
  unfold getRuntimeInfo, getCommand, isUserInRuntimeGroup,
    requiresGroupMembership, getNetworkMode, try_catch.
  rewrite !B.
  repeat (split; [reflexivity|]). reflexivity.
Qed.

(** X3. [getNetworkMode] never throws; its result is [undefined], "pasta"
    or "slirp4netns", and it is [undefined] exactly when the detected kind
    is not [podman]. *)
Theorem getNetworkMode_total (s : State) :
  exists m s',
    getNetworkMode W s = (Return m, s') /\
    (m = None \/ m = Some "pasta" \/ m = Some "slirp4netns") /\
    (m = None <-> fst (detectRuntime W s) <> Return (Some podman)).
Proof.
  unfold getNetworkMode.
  destruct (detectRuntime_post W s) as (res & s1 & E & _).
  rewrite (bind_Return _ _ _ _ _ E), E. simpl.
  destruct res as [[|]|].
  - exists None, s1. repeat split; auto; discriminate.
  - destruct (getRuntimeInfo_returns W s1) as (a & s2 & Ei).
    unfold try_catch, bind, ret. rewrite Ei.
    destruct a as [i|].
    + destruct (truthy (version i) && includes (version i) "4.4");
        eexists; eexists; (split; [reflexivity|]);
        (split; [auto|]); (split; [discriminate | intros N; now destruct N]).
    + eexists; eexists. split; [reflexivity|]. split; [auto|].
      split; [discriminate | intros N; now destruct N].
  - exists None, s1. repeat split; auto; discriminate.
Qed.

End Fallback.

Lemma detectRuntime_fallback_witness :
  fst (ContainerRuntime.detectRuntime oldPodmanHost initial)
    = Return (Some podman) /\
  ContainerRuntime.detectRuntime bareHost initial
    = (Return None,
       mkState None None [Exec "docker --version"; Exec "podman --version"] []).
Proof.
  split.
  - now rewrite (proj1 (detectRuntime_fallback oldPodmanHost initial
                          "Command failed" eq_refl eq_refl)
                   (mkExecResult "podman version 3.0.1" EmptyString) eq_refl).
  - now rewrite (proj2 (detectRuntime_fallback bareHost initial
                          "Command failed" eq_refl eq_refl)
                   "Command failed" eq_refl).
Defined.

Lemma no_engine_defaults_witness :
  fst (ContainerRuntime.getCommand bareHost initial) = Return "docker" /\
  fst (ContainerRuntime.getNetworkMode bareHost initial) = Return None.
Proof.
  destruct (no_engine_defaults bareHost initial eq_refl)
    as (_ & H1 & _ & _ & H2).
  now split.
Defined.

(* ===================================================================== *)
(** * Facts about trim *)
(* ===================================================================== *)

Module TextFacts.

Import JS JSFacts Words WordsFacts Text.

Lemma trimStart_starts s : starts_with_space (trimStart s) = false.
Proof.
  induction s as [|c s IH]; simpl; [reflexivity|].
  destruct (isSpace c) eqn:Hc; [exact IH | simpl; exact Hc].
Qed.

Lemma trimEnd_starts s :
  starts_with_space s = false -> starts_with_space (trimEnd s) = false.
Proof.
  destruct s as [|c s]; simpl; [reflexivity|].
  intros Hc. now rewrite Hc.
Qed.

Lemma trimEnd_ends s : ends_with_space (trimEnd s) = false.
Proof.
  induction s as [|c s IH]; simpl; [reflexivity|].
  destruct (isSpace c) eqn:Hc; simpl.
  - destruct (trimEnd s) as [|d t] eqn:E; simpl; [reflexivity|].
    exact IH.
  - destruct (trimEnd s) as [|d t] eqn:E; [exact Hc | exact IH].
Qed.

(** [trim] leaves no white space at either end. *)
Lemma trim_trimmed s : trimmed (trim s).
Proof.
  split.
  - apply trimEnd_starts, trimStart_starts.
  - apply trimEnd_ends.
Qed.

Lemma trimEnd_all_space ws : all_space ws = true -> trimEnd ws = EmptyString.
Proof.
  induction ws as [|c ws IH]; simpl; [reflexivity|].
  intros H. apply andb_true_iff in H as [Hc H].
  now rewrite (IH H), Hc.
Qed.

Lemma trimStart_all_space ws : all_space ws = true -> trimStart ws = EmptyString.
Proof.
  induction ws as [|c ws IH]; simpl; [reflexivity|].
  intros H. apply andb_true_iff in H as [Hc H].
  now rewrite Hc, (IH H).
Qed.

(** A word followed by white space only: [trim] gives the word back. *)
Lemma trim_word w ws :
  no_space w = true -> all_space ws = true -> trim (w ++ ws) = w.
Proof.
  intros Hw Hs. unfold trim.
  assert (E : trimEnd (w ++ ws) = w).
  { induction w as [|c w IH]; simpl in *.
    - now apply trimEnd_all_space.
    - apply andb_true_iff in Hw as [Hc Hw]. apply negb_true_iff in Hc.
      now rewrite (IH Hw), Hc. }
  destruct w as [|c w]; simpl in *.
  - rewrite (trimStart_all_space ws Hs). reflexivity.
  - apply andb_true_iff in Hw as [Hc Hw]. apply negb_true_iff in Hc.
    rewrite Hc. simpl in E. exact E.
Qed.

Lemma all_digits_no_space d : Semver.all_digits d = true -> no_space d = true.
Proof.
  induction d as [|c d IH]; simpl; [reflexivity|].
  intros H. apply andb_true_iff in H as [Hc H]. rewrite (IH H), andb_true_r.
  destruct c as [[] [] [] [] [] [] [] []]; try discriminate; reflexivity.
Qed.

End TextFacts.

(* ===================================================================== *)
(** * The cached info *)
(* ===================================================================== *)

Section InfoCache.

Import JS JSFacts Semver SemverFacts TextFacts ContainerRuntime.

Variable W : World.

(** A cached info about the cached kind is served as it is. *)
Lemma getRuntimeInfo_hit s i :
  detectedRuntime s = Some (type i) -> runtimeInfo s = Some i ->
  getRuntimeInfo W s = (Return (Some i), s).
Proof.
  intros Hd Hi. unfold getRuntimeInfo.
  rewrite (bind_Return _ _ _ _ _ (detectRuntime_cached W s _ Hd)).
  unfold bind, get_runtimeInfo. rewrite Hi.
  now destruct (type i).
Qed.

(** What [getRuntimeInfo] does to the cached info: nothing, or it stores
    an info assembled from a version output. *)
Lemma getRuntimeInfo_stores s :
  exists res s',
    getRuntimeInfo W s = (Return res, s') /\
    (runtimeInfo s' = runtimeInfo s \/
     exists r v c, runtimeInfo s' = Some (assembled r v c)) /\
    (forall i, res = Some i -> runtimeInfo s' = Some i).
Proof.
  unfold getRuntimeInfo.
  destruct (detectRuntime_post W s) as (res & s1 & E & Hd & Hi & _).
  rewrite (bind_Return _ _ _ _ _ E).
  destruct res as [r|].
  2:{ exists None, s1. unfold ret. repeat split; auto; discriminate. }
  unfold bind, get_runtimeInfo.
  assert (P : exists res s',
             probeRuntimeInfo W r s1 = (Return res, s') /\
             (runtimeInfo s' = runtimeInfo s \/
              exists r v c, runtimeInfo s' = Some (assembled r v c)) /\
             (forall i, res = Some i -> runtimeInfo s' = Some i)).
  { rewrite probeRuntimeInfo_eq. cbv zeta.
    destruct (run_exec W (trace s1) _) as [v|e];
      eexists; eexists; (split; [reflexivity|]); simpl.
    - split; [right; eauto | now intros i [= <-]].
    - split; [left; congruence | discriminate]. }
  destruct (runtimeInfo s1) as [j|] eqn:Ej; [|exact P].
  destruct (RuntimeType_eqb (type j) r); [|exact P].
  exists (Some j), s1. unfold ret. split; [reflexivity|].
  split; [left; congruence | intros i [= <-]; exact Ej].
Qed.



Lemma read_compose_well_formed r v out :
  well_formed_info (read_compose (mkInfo r (trim v) false None) out).
Proof.
  unfold read_compose.
  destruct (truthy out); [destruct (match_semver out) as [m|] eqn:E|].
  - split; [apply trim_trimmed|]. simpl. split.
    + intros m' [= <-]. apply match_semver_leftmost in E.
      now destruct E as (_ & _ & _ & Hm & _).
    + intros H. exists m. now split.
  - split; [apply trim_trimmed|]. simpl. split; discriminate.
  - split; [apply trim_trimmed|]. simpl. split; discriminate.
Qed.

Lemma assembled_well_formed r v c : well_formed_info (assembled r v c).
Proof.
  unfold assembled. destruct c as [c|e].
  - apply read_compose_well_formed.
  - split; [apply trim_trimmed|]. simpl. split; discriminate.
Qed.

(** X6. In every state reached from the start by calls of the exported
    functions, the cached info is well formed: its version has no white
    space at either end, its compose version, if any, is a string
    [digits.digits.digits], and compose counts as installed only together
    with a compose version whose major component is 2 or more. *)
Theorem cached_info_well_formed (cs : list Call) (i : ContainerRuntimeInfo) :
  runtimeInfo (run W cs initial) = Some i -> well_formed_info i.
Proof.
  set (I := fun st : State =>
              forall j, runtimeInfo st = Some j -> well_formed_info j).
  assert (K : forall c st, I st -> I (after W c st)).
  { intros c st H. destruct (is_reset c) eqn:Hc.
    - destruct c; try discriminate Hc. intros j Hj. discriminate Hj.
    - apply (after_keeps W I); auto.
      + intros st' H' j Hj.
        destruct (detectRuntime_post W st') as (res & s' & E & _ & Hi & _).
        rewrite E in Hj. simpl in Hj. rewrite Hi in Hj. now apply H'.
      + intros st' H' j Hj.
        destruct (getRuntimeInfo_stores st') as (res & s' & E & [Hs|Hs] & _);
          rewrite E in Hj; simpl in Hj.
        * rewrite Hs in Hj. now apply H'.
        * destruct Hs as (r & v & c' & Hs). rewrite Hs in Hj.
          injection Hj as <-. apply assembled_well_formed. }
  assert (R : forall l st, I st -> I (run W l st)).
  { induction l as [|c l IH]; intros st H; simpl; auto. }
  intros H. apply (R cs initial); [|exact H].
  intros j Hj. discriminate Hj.
Qed.

End InfoCache.


Lemma cached_info_well_formed_witness :
  well_formed_info (mkInfo podman "podman version 4.4.1" false (Some "1.0.6")).
Proof.
  apply (cached_info_well_formed shimHost [CallGetSpecs; CallGetRuntimeInfo]).
  reflexivity.
Defined.

(* ===================================================================== *)
(** * Liveness and the pass-through operations *)
(* ===================================================================== *)

Section Dispatch.

Import JS JSFacts TextFacts ContainerRuntime.

Variable W : World.

Lemma getCommand_eq s :
  getCommand W s
  = (Return (resolved_name (fst (detectRuntime W s))), snd (detectRuntime W s)).
Proof.
  unfold getCommand.
  destruct (detectRuntime_post W s) as (res & s1 & E & _).
  rewrite (bind_Return _ _ _ _ _ E), E. now destruct res.
Qed.

Lemma bind_getCommand {A} (k : string -> M A) s :
  bind (getCommand W) k s
  = k (resolved_name (fst (detectRuntime W s))) (snd (detectRuntime W s)).
Proof. apply bind_Return, getCommand_eq. Qed.

Lemma bind_execAsync_stdout cmd s :
  bind (execAsync W cmd) (fun r => ret (stdout r)) s = passthrough W cmd s.
Proof.
  unfold bind, execAsync, ret, passthrough.
  now destruct (run_exec W (trace s) cmd).
Qed.

(** X7. [isRuntimeRunning] never throws and makes one request after
    detection, [ps] under the resolved name ("docker" when nothing is
    detected); it is true exactly when that command succeeds and prints
    something. *)
Theorem isRuntimeRunning_spec (s : State) :
  let name := resolved_name (fst (detectRuntime W s)) in
  let s1 := snd (detectRuntime W s) in
  exists b,
    isRuntimeRunning W s = (Return b, record (Exec (name ++ " ps")) s1) /\
    (b = true <->
     exists o, run_exec W (trace s1) (name ++ " ps") = Return o /\
               stdout o <> EmptyString).
Proof.
  intros name s1. unfold isRuntimeRunning, try_catch.
  rewrite bind_getCommand. fold name s1.
  unfold bind, execAsync, ret.
  destruct (run_exec W (trace s1) (name ++ " ps")) as [o|e].
  - exists (truthy (stdout o)). split; [reflexivity|]. split.
    + intros T. exists o. split; [reflexivity|].
      intros E. now rewrite E in T.
    + intros (o' & [= <-] & N). destruct (stdout o); [now destruct N|reflexivity].
  - exists false. split; [reflexivity|]. split; [discriminate|].
    intros (o & Ho & _). discriminate Ho.
Qed.

(** X8. The container, volume and compose operations make one request
    after detection, the fixed command under the resolved name with the
    argument put in as it is, and change nothing else; the container and
    volume operations return its standard output, [composeUp] its whole
    result and [composeDown] nothing; when the command fails they all throw
    its error on to the caller. *)
Theorem lifecycle_passthrough (s : State) (target : string) :
  let name := resolved_name (fst (detectRuntime W s)) in
  let s1 := snd (detectRuntime W s) in
  containerStart W target s
    = passthrough W (name ++ " container start " ++ target) s1 /\
  containerStop W target s
    = passthrough W (name ++ " container stop " ++ target) s1 /\
  containerPause W target s
    = passthrough W (name ++ " container pause " ++ target) s1 /\
  containerUnpause W target s
    = passthrough W (name ++ " container unpause " ++ target) s1 /\
  containerRemove W target s = passthrough W (name ++ " rm " ++ target) s1 /\
  volumeRemove W target s = passthrough W (name ++ " volume rm " ++ target) s1 /\
  composeUp W target s
    = (run_exec W (trace s1) (name ++ " compose -f " ++ target ++ " up -d"),
       record (Exec (name ++ " compose -f " ++ target ++ " up -d")) s1) /\
  composeDown W target s
    = (match run_exec W (trace s1)
                      (name ++ " compose -f " ++ target ++ " down") with
       | Return _ => Return tt
       | Throw e => Throw e
       end,
       record (Exec (name ++ " compose -f " ++ target ++ " down")) s1).
Proof.
  intros name s1.
  unfold containerStart, containerStop, containerPause, containerUnpause,
    containerRemove, volumeRemove, composeUp, composeDown.
  rewrite !bind_getCommand. fold name s1.
  rewrite !bind_execAsync_stdout.
  repeat (split; [reflexivity|]).
  unfold bind, execAsync, ret.
  now destruct (run_exec W (trace s1) _).
Qed.

(** X9. [containerInspect] asks for [inspect] with the format between
    double quotes and throws the error of a failed command on; what it
    returns is the output without white space at either end. *)
Theorem containerInspect_trimmed (s : State) (containerName format : string) :
  let name := resolved_name (fst (detectRuntime W s)) in
  let s1 := snd (detectRuntime W s) in
  let cmd := name ++ " inspect --format=" ++ dquote ++ format ++ dquote
             ++ " " ++ containerName in
  snd (containerInspect W containerName format s) = record (Exec cmd) s1 /\
  (forall e, run_exec W (trace s1) cmd = Throw e ->
             fst (containerInspect W containerName format s) = Throw e) /\
  (forall out, fst (containerInspect W containerName format s) = Return out ->
               Text.trimmed out /\
               exists o, run_exec W (trace s1) cmd = Return o /\
                         out = trim (stdout o)).
Proof.
  intros name s1 cmd. unfold containerInspect.
  rewrite bind_getCommand. fold name s1 cmd.
  unfold bind, execAsync, ret.
  destruct (run_exec W (trace s1) cmd) as [o|e]; simpl.
  - split; [reflexivity|]. split; [discriminate|].
    intros out [= <-]. split; [apply trim_trimmed | now exists o].
  - split; [reflexivity|]. split; [now intros e' [= <-] | discriminate].
Qed.

(** X10. [containerList] treats an empty filter like no filter: both give
    [ps -a] with no [--filter] (and two spaces where it would be); any
    other filter is put between double quotes after [--filter]. *)
Theorem containerList_filter (s : State) :
  let name := resolved_name (fst (detectRuntime W s)) in
  let s1 := snd (detectRuntime W s) in
  let format := " --format " ++ dquote ++ "{{.Names}}" ++ dquote in
  containerList W None s = passthrough W (name ++ " ps -a " ++ format) s1 /\
  containerList W (Some EmptyString) s = containerList W None s /\
  (forall f, f <> EmptyString ->
     containerList W (Some f) s
     = passthrough W (name ++ " ps -a --filter " ++ dquote ++ f ++ dquote
                      ++ format) s1).
Proof.
  intros name s1 format. unfold containerList.
  rewrite !bind_getCommand. fold name s1. cbv zeta.
  rewrite !bind_execAsync_stdout.
  split; [reflexivity|]. split; [reflexivity|].
  intros f Hf. rewrite bind_getCommand. fold name s1.
  rewrite bind_execAsync_stdout.
  destruct f as [|c f]; [now destruct Hf|]. simpl truthy. cbv iota.
  f_equal. f_equal. rewrite !append_assoc. reflexivity.
Qed.

Lemma strip_prefix_Some p s r : strip_prefix p s = Some r -> s = p ++ r.
Proof.
  revert s; induction p as [|b p IH]; intros s H; simpl in *.
  - now injection H as ->.
  - destruct s as [|a s]; [discriminate|].
    destruct (Ascii.eqb_spec a b) as [->|]; [|discriminate].
    now rewrite (IH _ H).
Qed.

Lemma append_length (a b : string) :
  String.length (a ++ b) = (String.length a + String.length b)%nat.
Proof. induction a; simpl; congruence. Qed.

Lemma replace_leading_engine_again command r :
  replace_leading_engine
    (replace_leading_engine command (runtimeName r)) (runtimeName r)
  = replace_leading_engine command (runtimeName r) /\
  String.length (replace_leading_engine command (runtimeName r))
  = String.length command.
Proof.
  unfold replace_leading_engine at 2 3 4.
  destruct (strip_prefix "docker" command) as [rest|] eqn:Ed.
  - apply strip_prefix_Some in Ed as ->. split.
    + unfold replace_leading_engine. destruct r; simpl runtimeName.
      * now rewrite strip_prefix_app.
      * now rewrite (strip_prefix_app "podman" rest).
    + rewrite !append_length. now destruct r.
  - destruct (strip_prefix "podman" command) as [rest|] eqn:Ep.
    + apply strip_prefix_Some in Ep as ->. split.
      * unfold replace_leading_engine. destruct r; simpl runtimeName.
        -- now rewrite strip_prefix_app.
        -- now rewrite (strip_prefix_app "podman" rest).
      * rewrite !append_length. now destruct r.
    + split; [|reflexivity].
      unfold replace_leading_engine. now rewrite Ed, Ep.
Qed.

(** X11. The rewriting of [execCommand] keeps the length of the command,
    and a command that has been rewritten is executed as it is: running the
    rewritten command through [execCommand] is running the template. *)
Theorem execCommand_rewrite_stable (s : State) (command : string) :
  let name := resolved_name (fst (detectRuntime W s)) in
  String.length (replace_leading_engine command name) = String.length command /\
  execCommand W (replace_leading_engine command name) s = execCommand W command s.
Proof.
  intros name.
  assert (N : exists r, name = runtimeName r).
  { subst name. destruct (fst (detectRuntime W s)) as [[r|]|e];
      [now exists r | now exists docker | now exists docker]. }
  destruct N as [r Hr]. rewrite Hr.
  destruct (replace_leading_engine_again command r) as [Hi Hl].
  split; [exact Hl|].
  unfold execCommand. rewrite !bind_getCommand. fold name. rewrite Hr.
  cbv zeta. now rewrite Hi.
Qed.

End Dispatch.

Lemma lifecycle_passthrough_witness :
  ContainerRuntime.composeDown bareHost "compose.yml" initial
    = (Throw "Command failed",
       mkState None None
               [Exec "docker --version"; Exec "podman --version";
                Exec "docker compose -f compose.yml down"] []) /\
  ContainerRuntime.composeDown composeHost "compose.yml" initial
    = (Return tt,
       mkState (Some docker) None
               [Exec "docker --version";
                Exec "docker compose -f compose.yml down"] []).
Proof.
  destruct (lifecycle_passthrough bareHost initial "compose.yml")
    as (_ & _ & _ & _ & _ & _ & _ & H).
  destruct (lifecycle_passthrough composeHost initial "compose.yml")
    as (_ & _ & _ & _ & _ & _ & _ & H').
  split; [now rewrite H | now rewrite H'].
Defined.

Lemma containerInspect_trimmed_witness :
  Text.trimmed "running" /\
  exists o,
    run_exec composeHost [Exec "docker --version"]
      ("docker inspect --format=" ++ JS.dquote ++ "{{.State.Status}}"
       ++ JS.dquote ++ " WinBoat") = Return o /\
    "running" = JS.trim (stdout o).
Proof.
  apply (proj2 (proj2 (containerInspect_trimmed composeHost initial
                         "WinBoat" "{{.State.Status}}"))).
  reflexivity.
Defined.

Lemma containerList_filter_witness :
  trace (snd (ContainerRuntime.containerList composeHost
                (Some "name=WinBoat") initial))
  = [Exec "docker --version";
     Exec ("docker ps -a --filter " ++ JS.dquote ++ "name=WinBoat" ++ JS.dquote
           ++ " --format " ++ JS.dquote ++ "{{.Names}}" ++ JS.dquote)].
Proof.
  rewrite (proj2 (proj2 (containerList_filter composeHost initial))
             "name=WinBoat"); [reflexivity | discriminate].
Defined.

(* ===================================================================== *)
(** * Reading /proc/meminfo *)
(* ===================================================================== *)

Module MemInfoFacts.

Import JS JSFacts Words WordsFacts Text TextFacts Semver SemverFacts SpecsTs.

Lemma split_ws_word_end w :
  no_space w = true -> split_ws_from false w = [w].
Proof.
  induction w as [|c w IH]; simpl; [reflexivity|].
  intros H. apply andb_true_iff in H as [Hc H]. apply negb_true_iff in Hc.
  now rewrite Hc, (IH H).
Qed.

Lemma split_ws_word_then_space w c x :
  no_space w = true -> isSpace c = true ->
  split_ws_from false (w ++ String c x) = w :: split_ws_from true x.
Proof.
  intros Hw Hc. induction w as [|d w IH]; simpl in *.
  - now rewrite Hc.
  - apply andb_true_iff in Hw as [Hd Hw]. apply negb_true_iff in Hd.
    now rewrite Hd, (IH Hw).
Qed.

Lemma split_ws_true_spaces n y :
  split_ws_from true (spaces n ++ y) = split_ws_from true y.
Proof. induction n as [|n IH]; simpl; [reflexivity | exact IH]. Qed.

Lemma split_ws_true_word c w y :
  isSpace c = false ->
  split_ws_from true (String c w ++ y) = split_ws_from false (String c w ++ y).
Proof. intros Hc. simpl. now rewrite Hc. Qed.

(** The second piece of a line [key   number rest]. *)
Lemma second_piece key n kb rest :
  no_space key = true -> is_number kb = true ->
  rest = EmptyString \/ starts_with_space rest = true ->
  at_index (split_ws (key ++ spaces (S n) ++ kb ++ rest)) 1 = kb.
Proof.
  intros Hk Hn Hr. destruct (is_number_split _ Hn) as [T D].
  pose proof (all_digits_no_space kb D) as Nk.
  unfold split_ws. simpl spaces. simpl append at 2.
  rewrite (split_ws_word_then_space key " " _ Hk eq_refl).
  rewrite split_ws_true_spaces.
  destruct kb as [|c kb]; [discriminate|].
  rewrite split_ws_true_word by (simpl in Nk; apply andb_true_iff in Nk as [Nc _];
                                 now apply negb_true_iff in Nc).
  destruct Hr as [-> | Hr].
  - rewrite append_empty_r, (split_ws_word_end _ Nk). reflexivity.
  - destruct rest as [|d rest]; [discriminate|]. simpl in Hr.
    now rewrite (split_ws_word_then_space _ d rest Nk Hr).
Qed.

Lemma parseInt_none_digit_first c s :
  isDigit c = true -> s = EmptyString \/ starts_with_digit s = true ->
  parseInt (String c s) None =
  match parseDigits 10 None (String c s) with
  | None => NaN
  | Some v => of_Z v
  end.
Proof.
  intros Hc Hs.
  destruct c as [[] [] [] [] [] [] [] []]; try discriminate; try reflexivity.
  destruct Hs as [-> | Hs]; [reflexivity|].
  destruct s as [|d s]; [discriminate|]. simpl in Hs.
  destruct d as [[] [] [] [] [] [] [] []]; try discriminate; reflexivity.
Qed.

(** [parseInt] with one argument on a string of digits. *)
Lemma parseInt_none_number a :
  is_number a = true -> parseInt a None = of_Z (decimal a).
Proof.
  intros H. destruct (is_number_split _ H) as [T D].
  destruct a as [|c a]; [discriminate|].
  simpl in D. apply andb_true_iff in D as [Hc D].
  rewrite (parseInt_none_digit_first c a Hc).
  - simpl parseDigits. destruct (isDigit_value c Hc) as [-> Hlt].
    apply Z.ltb_lt in Hlt. rewrite Hlt.
    rewrite (parseDigits_digits _ _ D). reflexivity.
  - destruct a as [|d a]; [now left | right].
    simpl in D. now apply andb_true_iff in D as [Hd _].
Qed.

Lemma kB_line_value key n kb rest :
  no_space key = true -> is_number kb = true ->
  rest = EmptyString \/ starts_with_space rest = true ->
  kB_line_to_GB (key ++ spaces (S n) ++ kb ++ rest)
  = Num (kB_to_GB (decimal kb)).
Proof.
  intros Hk Hn Hr. unfold kB_line_to_GB.
  rewrite (second_piece key n kb rest Hk Hn Hr), (parseInt_none_number kb Hn).
  reflexivity.
Qed.

Lemma Qfloor_ge (n : Z) (x : Q) : (n <= Qfloor x)%Z <-> inject_Z n <= x.
Proof.
  split.
  - intros H. apply Qle_trans with (inject_Z (Qfloor x)).
    + now rewrite <- Zle_Qle.
    + apply Qfloor_le.
  - intros H. rewrite <- (Qfloor_Z n). now apply Qfloor_resp_le.
Qed.

(** The threshold of 4 GB in kB: the rounding to two decimals lets
    4189062 kB pass, a little under 4 GiB (4194304 kB). *)
Lemma kB_to_GB_enough (kB : Z) :
  Qle_bool 4 (kB_to_GB kB) = true <-> (4189062 <= kB)%Z.
Proof.
  rewrite Qle_bool_iff. unfold kB_to_GB.
  set (z := Qfloor (inject_Z kB / 1024 / 1024 * 100 + (1 # 2))).
  assert (E : 4 <= inject_Z z / 100 <-> (400 <= z)%Z).
  { unfold Qle, Qdiv, Qmult, Qinv, inject_Z. simpl. lia. }
  rewrite E. subst z. rewrite Qfloor_ge.
  unfold Qle, Qdiv, Qmult, Qplus, Qinv, inject_Z. simpl. lia.
Qed.

Lemma lacks_app c a b : lacks c (a ++ b) = lacks c a && lacks c b.
Proof.
  induction a as [|d a IH]; simpl; [reflexivity|].
  now rewrite IH, andb_assoc.
Qed.

Lemma no_space_lacks_newline w : no_space w = true -> lacks newline w = true.
Proof.
  induction w as [|c w IH]; simpl; [reflexivity|].
  intros H. apply andb_true_iff in H as [Hc H]. rewrite (IH H), andb_true_r.
  destruct (Ascii.eqb_spec c newline) as [->|]; [discriminate Hc | reflexivity].
Qed.

Lemma spaces_lack_newline n : lacks newline (spaces n) = true.
Proof. induction n; simpl; auto. Qed.

Lemma split_char_first line rest :
  lacks newline line = true ->
  split_char newline (line ++ String newline rest)
  = line :: split_char newline rest.
Proof.
  intros H. induction line as [|c line IH]; simpl in *.
  - reflexivity.
  - apply andb_true_iff in H as [Hc H]. apply negb_true_iff in Hc.
    now rewrite Hc, (IH H).
Qed.

Lemma split_char_single line :
  lacks newline line = true -> split_char newline line = [line].
Proof.
  intros H. induction line as [|c line IH]; simpl in *.
  - reflexivity.
  - apply andb_true_iff in H as [Hc H]. apply negb_true_iff in Hc.
    now rewrite Hc, (IH H).
Qed.

(** The first piece is a prefix of the text. *)
Lemma split_char_head sep s :
  exists w ws b, split_char sep s = w :: ws /\ s = w ++ b.
Proof.
  induction s as [|c s (w & ws & b & E & Hs)]; simpl.
  - now exists EmptyString, [], EmptyString.
  - destruct (Ascii.eqb c sep).
    + now exists EmptyString, (split_char sep s), (String c s).
    + rewrite E. exists (String c w), ws, b. simpl. now rewrite <- Hs.
Qed.

(** Every piece is a part of the text. *)
Lemma split_char_In sep s l :
  In l (split_char sep s) -> exists a b, s = a ++ l ++ b.
Proof.
  revert l; induction s as [|c s IH]; simpl; intros l H.
  - destruct H as [<- | []]. now exists EmptyString, EmptyString.
  - destruct (Ascii.eqb c sep).
    + destruct H as [<- | H].
      * now exists EmptyString, (String c s).
      * destruct (IH _ H) as (a & b & ->). now exists (String c a), b.
    + destruct (split_char_head sep s) as (w & ws & b & E & Hs).
      rewrite E in *. destruct H as [<- | H].
      * exists EmptyString, b. simpl. now rewrite <- Hs.
      * destruct (IH _ (or_intror H)) as (a & b' & ->).
        now exists (String c a), b'.
Qed.

(** A text that does not contain [p] has no line that starts with [p]. *)
Lemma find_line_none p s :
  includes s p = false ->
  array_find (fun line => startsWith line p) (split_char newline s) = None.
Proof.
  intros H. unfold array_find.
  destruct (find _ _) as [l|] eqn:E; [|reflexivity].
  apply find_some in E as [Hin Hp].
  destruct (split_char_In _ _ _ Hin) as (a & b & ->).
  destruct (startsWith_split _ _ Hp) as [r ->].
  assert (I : includes (a ++ (p ++ r) ++ b) p = true).
  { apply includes_iff. exists a, (r ++ b). now rewrite append_assoc. }
  congruence.
Qed.

End MemInfoFacts.

(* ===================================================================== *)
(** * Memory, cores and KVM in the readiness check *)
(* ===================================================================== *)

Section HostFields.

Import JS JSFacts Words Text TextFacts Semver SemverFacts MemInfoFacts.
Import ContainerRuntime SpecsTs.

Variable W : World.

Lemma find_first (p : string -> bool) l rest :
  p l = true -> find p (l :: rest) = Some l.
Proof. intros H. simpl. now rewrite H. Qed.

Lemma getMemoryInfo_parse s :
  getMemoryInfo W s =
  match read_file W (trace s) "/proc/meminfo" with
  | Return c => (Return (parseMemInfo c), record (ReadFileSync "/proc/meminfo") s)
  | Throw e =>
      (Throw e,
       snd (console_log "Error reading /proc/meminfo:"
              (record (ReadFileSync "/proc/meminfo") s)))
  end.
Proof.
  unfold getMemoryInfo. unfold_M.
  now destruct (read_file W (trace s) "/proc/meminfo").
Qed.

Lemma parseMemInfo_first_line n kb rest :
  is_number kb = true ->
  totalGB (parseMemInfo ("MemTotal:" ++ spaces (S n) ++ kb ++ " kB"
                         ++ String newline rest))
  = Num (kB_to_GB (decimal kb)).
Proof.
  intros Hn. destruct (is_number_split _ Hn) as [_ D].
  set (line := "MemTotal:" ++ spaces (S n) ++ kb ++ " kB").
  assert (E : "MemTotal:" ++ spaces (S n) ++ kb ++ " kB" ++ String newline rest
              = line ++ String newline rest).
  { subst line. now rewrite !append_assoc. }
  assert (L : lacks newline line = true).
  { subst line. rewrite !lacks_app, spaces_lack_newline.
    now rewrite (no_space_lacks_newline kb (all_digits_no_space kb D)). }
  assert (T1 : truthy line = true) by reflexivity.
  rewrite E. unfold parseMemInfo. rewrite (split_char_first line rest L).
  unfold array_find. rewrite (find_first _ line) by reflexivity.
  cbn [totalGB]. rewrite T1. subst line.
  apply (kB_line_value "MemTotal:" n kb " kB" eq_refl Hn). now right.
Qed.

(** X12. When [/proc/meminfo] starts with a line [MemTotal:], spaces, a
    number and [kB], [getMemoryInfo] returns, and the total it reports
    reaches the 4 GB of the readiness check exactly when that number is
    4189062 or more: the rounding to two decimals lets a little less than
    4 GiB (4194304 kB) pass. *)
Theorem getMemoryInfo_first_line (s : State) (n : nat) (kb rest : string) :
  is_number kb = true ->
  read_file W (trace s) "/proc/meminfo"
    = Return ("MemTotal:" ++ spaces (S n) ++ kb ++ " kB" ++ String newline rest) ->
  exists m,
    getMemoryInfo W s = (Return m, record (ReadFileSync "/proc/meminfo") s) /\
    (ge (totalGB m) (of_Z 4) = true <-> (4189062 <= decimal kb)%Z).
Proof.
  intros Hn Hr. rewrite getMemoryInfo_parse, Hr.
  eexists. split; [reflexivity|].
  rewrite (parseMemInfo_first_line n kb rest Hn).
  apply kB_to_GB_enough.
Qed.

(** X13. When [/proc/meminfo] can be read but has no [MemTotal] (or no
    [MemAvailable]) in it, the total (the available memory) is 0; when its
    first line starts with [MemTotal] and has no white space, the total is
    [NaN]. *)
Theorem getMemoryInfo_missing (s : State) (c : string) :
  read_file W (trace s) "/proc/meminfo" = Return c ->
  exists m,
    fst (getMemoryInfo W s) = Return m /\
    (includes c "MemTotal" = false -> totalGB m = of_Z 0) /\
    (includes c "MemAvailable" = false -> availableGB m = of_Z 0) /\
    (forall w rest, no_space w = true ->
       c = "MemTotal" ++ w ++ String newline rest -> totalGB m = NaN).
Proof.
  intros Hr. rewrite getMemoryInfo_parse, Hr.
  eexists. split; [reflexivity|]. unfold parseMemInfo.
  split; [|split].
  - intros H. cbn [totalGB]. now rewrite (find_line_none _ _ H).
  - intros H. cbn [availableGB]. now rewrite (find_line_none _ _ H).
  - intros w rest Hw ->.
    assert (Nl : no_space ("MemTotal" ++ w) = true) by (simpl; exact Hw).
    assert (E : "MemTotal" ++ w ++ String newline rest
                = ("MemTotal" ++ w) ++ String newline rest)
      by now rewrite append_assoc.
    rewrite E, (split_char_first _ rest (no_space_lacks_newline _ Nl)).
    assert (T1 : truthy ("MemTotal" ++ w) = true) by reflexivity.
    unfold array_find. rewrite (find_first _ ("MemTotal" ++ w)) by reflexivity.
    cbn [totalGB]. rewrite T1. unfold kB_line_to_GB, split_ws.
    now rewrite (split_ws_word_end _ Nl).
Qed.

Lemma cpuCoresCheck_value specs s v s' :
  cpuCoresCheck W specs s = (Return (set_cpuCores v specs), s') ->
  v = match run_exec W (trace s) lscpu_command with
      | Return r => parseInt (trim (stdout r)) (Some 10%Z)
      | Throw _ => cpuCores specs
      end.
Proof.
  unfold cpuCoresCheck. unfold_M. destruct specs.
  destruct (run_exec W (trace s) lscpu_command); simpl; now intros [= <-].
Qed.

Lemma memoryCheck_value specs s v s' :
  memoryCheck W specs s = (Return (set_ramGB v specs), s') ->
  v = match read_file W (trace s) "/proc/meminfo" with
      | Return c => totalGB (parseMemInfo c)
      | Throw _ => ramGB specs
      end.
Proof.
  unfold memoryCheck, try_catch, bind. rewrite getMemoryInfo_parse.
  destruct specs.
  destruct (read_file W (trace s) "/proc/meminfo"); simpl; now intros [= <-].
Qed.

Lemma kvmCheck_value specs s v s' :
  kvmCheck W specs s = (Return (set_kvmEnabled v specs), s') ->
  kvmEnabled specs = false ->
  v = match read_file W (trace s) "/proc/cpuinfo" with
      | Return c =>
          (includes c "vmx" || includes c "svm") &&
          file_exists W (trace s ++ [ReadFileSync "/proc/cpuinfo"])%list "/dev/kvm"
      | Throw _ => false
      end /\
  trace s' = (trace s ++ ReadFileSync "/proc/cpuinfo" ::
              match read_file W (trace s) "/proc/cpuinfo" with
              | Return c =>
                  if includes c "vmx" || includes c "svm"
                  then [ExistsSync "/dev/kvm"] else []
              | Throw _ => []
              end)%list.
Proof.
  unfold kvmCheck. unfold_M. unfold record. destruct specs. simpl.
  intros H ->. revert H.
  destruct (read_file W (trace s) "/proc/cpuinfo") as [c|e]; simpl.
  - destruct (includes c "vmx" || includes c "svm"); simpl.
    + destruct (file_exists W _ "/dev/kvm"); simpl; intros [= <- <-]; simpl;
        now rewrite <- app_assoc.
    + now intros [= <- <-].
  - now intros [= <- <-].
Qed.

(** The first three fields of what [getSpecs] returns come from the first
    three answers of the host, whatever the later blocks do. *)
Lemma getSpecs_host_fields s :
  let t1 := (trace s ++ [Exec lscpu_command])%list in
  let t2 := (t1 ++ [ReadFileSync "/proc/meminfo"])%list in
  exists specs s' t,
    getSpecs W s = (Return specs, s') /\
    cpuCores specs =
      match run_exec W (trace s) lscpu_command with
      | Return r => parseInt (trim (stdout r)) (Some 10%Z)
      | Throw _ => of_Z 0
      end /\
    ramGB specs =
      match read_file W t1 "/proc/meminfo" with
      | Return c => totalGB (parseMemInfo c)
      | Throw _ => of_Z 0
      end /\
    kvmEnabled specs =
      match read_file W t2 "/proc/cpuinfo" with
      | Return c =>
          (includes c "vmx" || includes c "svm") &&
          file_exists W (t2 ++ [ReadFileSync "/proc/cpuinfo"])%list "/dev/kvm"
      | Throw _ => false
      end /\
    trace s' =
      (t2 ++ ReadFileSync "/proc/cpuinfo" ::
       match read_file W t2 "/proc/cpuinfo" with
       | Return c =>
           if includes c "vmx" || includes c "svm"
           then [ExistsSync "/dev/kvm"] else []
       | Throw _ => []
       end ++ t)%list.
Proof.
  intros t1 t2.
  destruct (cpuCoresCheck_spec W defaultSpecs s)
    as (v1 & s1 & E1 & T1 & _ & _).
  destruct (memoryCheck_spec W (set_cpuCores v1 defaultSpecs) s1)
    as (v2 & s2 & E2 & T2 & _ & _).
  destruct (kvmCheck_spec W (set_ramGB v2 (set_cpuCores v1 defaultSpecs)) s2)
    as (v3 & s3 & t3 & E3 & T3 & _ & _).
  destruct (runtimeCheck_spec W
              (set_kvmEnabled v3 (set_ramGB v2 (set_cpuCores v1 defaultSpecs))) s3)
    as (v4 & s4 & E4 & [t4 T4] & _).
  destruct (composeCheck_spec W
              (set_dockerInstalled v4
                 (set_kvmEnabled v3 (set_ramGB v2 (set_cpuCores v1 defaultSpecs))))
              s4)
    as (v5 & s5 & E5 & [t5 T5] & _).
  destruct (runningCheck_spec W
              (set_dockerComposeInstalled v5
                 (set_dockerInstalled v4
                    (set_kvmEnabled v3
                       (set_ramGB v2 (set_cpuCores v1 defaultSpecs)))))
              s5)
    as (v6 & s6 & t6 & name & E6 & T6 & _).
  destruct (userGroupCheck_spec W
              (set_dockerIsRunning v6
                 (set_dockerComposeInstalled v5
                    (set_dockerInstalled v4
                       (set_kvmEnabled v3
                          (set_ramGB v2 (set_cpuCores v1 defaultSpecs))))))
              s6)
    as (v7 & s7 & E7 & [t7 T7] & _).
  destruct (freeRDPCheck_spec W
              (set_dockerIsInUserGroups v7
                 (set_dockerIsRunning v6
                    (set_dockerComposeInstalled v5
                       (set_dockerInstalled v4
                          (set_kvmEnabled v3
                             (set_ramGB v2 (set_cpuCores v1 defaultSpecs)))))))
              s7)
    as (v8 & s8 & E8 & T8 & _).
  destruct (ipTablesCheck_spec W
              (set_freeRDP3Installed v8
                 (set_dockerIsInUserGroups v7
                    (set_dockerIsRunning v6
                       (set_dockerComposeInstalled v5
                          (set_dockerInstalled v4
                             (set_kvmEnabled v3
                                (set_ramGB v2 (set_cpuCores v1 defaultSpecs))))))))
              s8)
    as (v9 & s9 & E9 & T9 & _).
  destruct (iptableNatCheck_spec W
              (set_ipTablesLoaded v9
                 (set_freeRDP3Installed v8
                    (set_dockerIsInUserGroups v7
                       (set_dockerIsRunning v6
                          (set_dockerComposeInstalled v5
                             (set_dockerInstalled v4
                                (set_kvmEnabled v3
                                   (set_ramGB v2
                                      (set_cpuCores v1 defaultSpecs)))))))))
              s9)
    as (v10 & s10 & E10 & T10 & _).
  pose proof (cpuCoresCheck_value _ _ _ _ E1) as V1.
  pose proof (memoryCheck_value _ _ _ _ E2) as V2.
  destruct (kvmCheck_value _ _ _ _ E3 eq_refl) as [V3 T3'].
  rewrite T1 in V2. rewrite T2, T1 in V3, T3'. fold t1 t2 in V2, V3, T3'.
  eexists; eexists;
    exists (t4 ++ t5 ++ t6 ++ [Exec (name ++ " ps")] ++ t7 ++
            [GetFreeRDP; Exec "lsmod | grep ip_tables";
             Exec "lsmod | grep iptable_nat"])%list.
  split.
  { unfold getSpecs. cbv zeta.
    rewrite (bind_Return _ _ _ _ _ E1), (bind_Return _ _ _ _ _ E2),
      (bind_Return _ _ _ _ _ E3), (bind_Return _ _ _ _ _ E4),
      (bind_Return _ _ _ _ _ E5), (bind_Return _ _ _ _ _ E6),
      (bind_Return _ _ _ _ _ E7), (bind_Return _ _ _ _ _ E8),
      (bind_Return _ _ _ _ _ E9), (bind_Return _ _ _ _ _ E10).
    reflexivity. }
  simpl. split; [exact V1|]. split; [exact V2|]. split; [exact V3|].
  rewrite T10, T9, T8, T7, T6, T5, T4, T3'.
  rewrite <- !app_assoc. reflexivity.
Qed.

(** What a positive verdict of [satisfiesPrequisites] says of the two
    numbers. *)
Lemma satisfiesPrequisites_thresholds specs s :
  fst (satisfiesPrequisites W specs s) = Return true ->
  ge (ramGB specs) (of_Z 4) = true /\ ge (cpuCores specs) (of_Z 2) = true.
Proof.
  unfold satisfiesPrequisites, requiresGroupMembership.
  destruct (detectRuntime_post W s) as (res & s1 & E & _).
  unfold bind, ret. rewrite E. simpl. intros [= H].
  apply andb_true_iff in H as [H Hc]. apply andb_true_iff in H as [_ Hr].
  now split.
Qed.

(** X14. The memory that [getSpecs] reports is the total of
    [/proc/meminfo] as read right after the CPU probe, whatever the other
    probes do: with a first line [MemTotal:   n kB] it reaches 4 GB
    exactly when n is at least 4189062, and the readiness check on the
    specs collected can only pass then. *)
Theorem readiness_needs_memory (s : State) (n : nat) (kb rest : string)
    (specs : Specs) (s' : State) :
  is_number kb = true ->
  read_file W (trace s ++ [Exec lscpu_command])%list "/proc/meminfo"
    = Return ("MemTotal:" ++ spaces (S n) ++ kb ++ " kB" ++ String newline rest) ->
  getSpecs W s = (Return specs, s') ->
  (ge (ramGB specs) (of_Z 4) = true <-> (4189062 <= decimal kb)%Z) /\
  (forall s'', fst (satisfiesPrequisites W specs s'') = Return true ->
               (4189062 <= decimal kb)%Z).
Proof.
  intros Hn Hr Hg.
  destruct (getSpecs_host_fields s) as (specs0 & s0 & t & E & _ & R & _).
  rewrite E in Hg. injection Hg as <- <-.
  rewrite Hr, (parseMemInfo_first_line n kb rest Hn) in R.
  assert (G : ge (ramGB specs0) (of_Z 4) = true <-> (4189062 <= decimal kb)%Z).
  { rewrite R. apply kB_to_GB_enough. }
  split; [exact G|].
  intros s'' H. apply satisfiesPrequisites_thresholds in H as [H _].
  now apply G.
Qed.

(** X15. The cores that [getSpecs] reports come from what the CPU pipeline
    prints, whatever the other probes do: when it prints a number, with
    white space after it, they reach the 2 of the readiness check exactly
    when that number, read in base ten, is 2 or more, and the readiness
    check on the specs collected can only pass then; when it prints white
    space only, the cores are [NaN] and the readiness check does not
    pass. *)
Theorem readiness_needs_cores (s : State) (o : ExecResult) (specs : Specs)
    (s' : State) :
  run_exec W (trace s) lscpu_command = Return o ->
  getSpecs W s = (Return specs, s') ->
  (forall d ws, is_number d = true -> all_space ws = true ->
     stdout o = d ++ ws ->
     (ge (cpuCores specs) (of_Z 2) = true <-> (2 <= decimal d)%Z) /\
     (forall s'', fst (satisfiesPrequisites W specs s'') = Return true ->
                  (2 <= decimal d)%Z)) /\
  (all_space (stdout o) = true ->
   cpuCores specs = NaN /\
   forall s'', fst (satisfiesPrequisites W specs s'') <> Return true).
Proof.
  intros Ho Hg.
  destruct (getSpecs_host_fields s) as (specs0 & s0 & t & E & C & _).
  rewrite E in Hg. injection Hg as <- <-. rewrite Ho in C.
  split.
  - intros d ws Hd Hw Hs. destruct (is_number_split _ Hd) as [_ D].
    rewrite Hs, (trim_word d ws (all_digits_no_space d D) Hw) in C.
    rewrite (parseInt_number d Hd) in C.
    assert (G : ge (cpuCores specs0) (of_Z 2) = true <-> (2 <= decimal d)%Z).
    { rewrite C. apply ge_of_Z. }
    split; [exact G|].
    intros s'' H. apply satisfiesPrequisites_thresholds in H as [_ H].
    now apply G.
  - intros Hw.
    assert (T : trim (stdout o) = EmptyString).
    { unfold trim. now rewrite (trimStart_all_space _ Hw). }
    rewrite T in C. split; [exact C|].
    intros s'' H. apply satisfiesPrequisites_thresholds in H as [_ H].
    rewrite C in H. discriminate H.
Qed.

(** X16. [getSpecs] reports KVM as enabled exactly when [/proc/cpuinfo],
    read right after [/proc/meminfo], can be read, contains "vmx" or "svm",
    and [/dev/kvm], looked up next, exists; the other probes have no say
    in it. *)
Theorem getSpecs_kvmEnabled (s : State) :
  let t2 := (trace s ++ [Exec lscpu_command; ReadFileSync "/proc/meminfo"])%list in
  let t3 := (t2 ++ [ReadFileSync "/proc/cpuinfo"])%list in
  exists specs s',
    getSpecs W s = (Return specs, s') /\
    (kvmEnabled specs = true <->
     exists c, read_file W t2 "/proc/cpuinfo" = Return c /\
               (includes c "vmx" = true \/ includes c "svm" = true) /\
               file_exists W t3 "/dev/kvm" = true).
Proof.
  intros t2 t3.
  destruct (getSpecs_host_fields s) as (specs & s' & t & E & _ & _ & K & T).
  assert (E2 : ((trace s ++ [Exec lscpu_command])
                  ++ [ReadFileSync "/proc/meminfo"] = t2)%list)
    by (subst t2; now rewrite <- app_assoc).
  rewrite E2 in K. fold t3 in K.
  exists specs, s'. split; [exact E|].
  rewrite K. destruct (read_file W t2 "/proc/cpuinfo") as [c|e].
  - rewrite andb_true_iff, orb_true_iff. split.
    + intros [F X]. now exists c.
    + intros (c' & [= <-] & F & X). now split.
  - split; [discriminate | intros (c & Hc & _); discriminate Hc].
Qed.

End HostFields.

Lemma getMemoryInfo_first_line_witness :
  exists m,
    SpecsTs.getMemoryInfo readyHost initial
      = (Return m, record (ReadFileSync "/proc/meminfo") initial) /\
    (JS.ge (SpecsTs.totalGB m) (JS.of_Z 4) = true <->
     (4189062 <= Semver.decimal "16384256")%Z).
Proof.
  exact (getMemoryInfo_first_line readyHost initial 6 "16384256"
           ("MemFree:         1234567 kB" ++ nl ++
            "MemAvailable:    8000000 kB" ++ nl)
           eq_refl eq_refl).
Defined.

Lemma getMemoryInfo_missing_witness :
  exists m,
    fst (SpecsTs.getMemoryInfo noTotalHost initial) = Return m /\
    SpecsTs.totalGB m = JS.of_Z 0.
Proof.
  destruct (getMemoryInfo_missing noTotalHost initial
              ("MemFree:         1234567 kB" ++ nl) eq_refl)
    as (m & E & H & _).
  exists m. split; [exact E | now apply H].
Defined.

Lemma readiness_needs_memory_witness :
  (4189062 <= Semver.decimal "16384256")%Z.
Proof.
  apply (proj2 (readiness_needs_memory readyHost initial 6 "16384256"
                  ("MemFree:         1234567 kB" ++ nl ++
                   "MemAvailable:    8000000 kB" ++ nl)
                  (SpecsTs.mkSpecs (JS.of_Z 8) (JS.Num (1563 / 100)) true true
                                   true true true true true true)
                  (snd (SpecsTs.getSpecs readyHost initial))
                  eq_refl eq_refl eq_refl)
           initial).
  reflexivity.
Defined.

Lemma readiness_needs_cores_witness : (2 <= Semver.decimal "8")%Z.
Proof.
  apply (proj2 (proj1 (readiness_needs_cores readyHost initial
                         (mkExecResult ("8" ++ nl) EmptyString)
                         (SpecsTs.mkSpecs (JS.of_Z 8) (JS.Num (1563 / 100))
                                          true true true true true true true
                                          true)
                         (snd (SpecsTs.getSpecs readyHost initial))
                         eq_refl eq_refl)
                      "8" nl eq_refl eq_refl eq_refl)
           initial).
  reflexivity.
Defined.

(* ===================================================================== *)
(** * FreeRDP and the kernel modules in the readiness check *)
(* ===================================================================== *)

Section TailFields.

Import JS JSFacts Words Text TextFacts ContainerRuntime SpecsTs.

Variable W : World.

Lemma trimStart_not_all_space s :
  all_space s = false -> truthy (trimEnd (trimStart s)) = true.
Proof.
  induction s as [|c s IH]; simpl; [discriminate|].
  destruct (isSpace c) eqn:Hc; simpl.
  - exact IH.
  - intros _. rewrite Hc. reflexivity.
Qed.

(** [!!s.trim()] tells whether [s] has a character that is not white
    space. *)
Lemma truthy_trim s : truthy (trim s) = negb (all_space s).
Proof.
  destruct (all_space s) eqn:H; simpl.
  - unfold trim. now rewrite (trimStart_all_space s H).
  - now apply trimStart_not_all_space.
Qed.

Lemma freeRDPCheck_value specs s v s' :
  freeRDPCheck W specs s = (Return (set_freeRDP3Installed v specs), s') ->
  v = match locate_freerdp W (trace s) with
      | Return b => b
      | Throw _ => freeRDP3Installed specs
      end.
Proof.
  unfold freeRDPCheck. unfold_M. destruct specs.
  destruct (locate_freerdp W (trace s)); simpl; now intros [= <-].
Qed.

Lemma ipTablesCheck_value specs s v s' :
  ipTablesCheck W specs s = (Return (set_ipTablesLoaded v specs), s') ->
  v = match run_exec W (trace s) "lsmod | grep ip_tables" with
      | Return r => truthy (trim (stdout r))
      | Throw _ => ipTablesLoaded specs
      end.
Proof.
  unfold ipTablesCheck. unfold_M. destruct specs.
  destruct (run_exec W (trace s) _); simpl; now intros [= <-].
Qed.

Lemma iptableNatCheck_value specs s v s' :
  iptableNatCheck W specs s = (Return (set_iptableNatLoaded v specs), s') ->
  v = match run_exec W (trace s) "lsmod | grep iptable_nat" with
      | Return r => truthy (trim (stdout r))
      | Throw _ => iptableNatLoaded specs
      end.
Proof.
  unfold iptableNatCheck. unfold_M. destruct specs.
  destruct (run_exec W (trace s) _); simpl; now intros [= <-].
Qed.

(** The last three fields of what [getSpecs] returns come from the last
    three answers of the host. *)
Lemma getSpecs_tail_fields s :
  exists specs s' t0,
    getSpecs W s = (Return specs, s') /\
    trace s' = (t0 ++ [GetFreeRDP; Exec "lsmod | grep ip_tables";
                       Exec "lsmod | grep iptable_nat"])%list /\
    freeRDP3Installed specs =
      match locate_freerdp W t0 with
      | Return b => b
      | Throw _ => false
      end /\
    ipTablesLoaded specs =
      match run_exec W (t0 ++ [GetFreeRDP])%list "lsmod | grep ip_tables" with
      | Return r => truthy (trim (stdout r))
      | Throw _ => false
      end /\
    iptableNatLoaded specs =
      match run_exec W (t0 ++ [GetFreeRDP; Exec "lsmod | grep ip_tables"])%list
                     "lsmod | grep iptable_nat" with
      | Return r => truthy (trim (stdout r))
      | Throw _ => false
      end.
Proof.
  destruct (cpuCoresCheck_spec W defaultSpecs s) as (v1 & s1 & E1 & _).
  destruct (memoryCheck_spec W (set_cpuCores v1 defaultSpecs) s1)
    as (v2 & s2 & E2 & _).
  destruct (kvmCheck_spec W (set_ramGB v2 (set_cpuCores v1 defaultSpecs)) s2)
    as (v3 & s3 & t3 & E3 & _).
  destruct (runtimeCheck_spec W
              (set_kvmEnabled v3 (set_ramGB v2 (set_cpuCores v1 defaultSpecs))) s3)
    as (v4 & s4 & E4 & _).
  destruct (composeCheck_spec W
              (set_dockerInstalled v4
                 (set_kvmEnabled v3 (set_ramGB v2 (set_cpuCores v1 defaultSpecs))))
              s4)
    as (v5 & s5 & E5 & _).
  destruct (runningCheck_spec W
              (set_dockerComposeInstalled v5
                 (set_dockerInstalled v4
                    (set_kvmEnabled v3
                       (set_ramGB v2 (set_cpuCores v1 defaultSpecs)))))
              s5)
    as (v6 & s6 & t6 & name & E6 & _).
  destruct (userGroupCheck_spec W
              (set_dockerIsRunning v6
                 (set_dockerComposeInstalled v5
                    (set_dockerInstalled v4
                       (set_kvmEnabled v3
                          (set_ramGB v2 (set_cpuCores v1 defaultSpecs))))))
              s6)
    as (v7 & s7 & E7 & _).
  destruct (freeRDPCheck_spec W
              (set_dockerIsInUserGroups v7
                 (set_dockerIsRunning v6
                    (set_dockerComposeInstalled v5
                       (set_dockerInstalled v4
                          (set_kvmEnabled v3
                             (set_ramGB v2 (set_cpuCores v1 defaultSpecs)))))))
              s7)
    as (v8 & s8 & E8 & T8 & _).
  destruct (ipTablesCheck_spec W
              (set_freeRDP3Installed v8
                 (set_dockerIsInUserGroups v7
                    (set_dockerIsRunning v6
                       (set_dockerComposeInstalled v5
                          (set_dockerInstalled v4
                             (set_kvmEnabled v3
                                (set_ramGB v2 (set_cpuCores v1 defaultSpecs))))))))
              s8)
    as (v9 & s9 & E9 & T9 & _).
  destruct (iptableNatCheck_spec W
              (set_ipTablesLoaded v9
                 (set_freeRDP3Installed v8
                    (set_dockerIsInUserGroups v7
                       (set_dockerIsRunning v6
                          (set_dockerComposeInstalled v5
                             (set_dockerInstalled v4
                                (set_kvmEnabled v3
                                   (set_ramGB v2
                                      (set_cpuCores v1 defaultSpecs)))))))))
              s9)
    as (v10 & s10 & E10 & T10 & _).
  pose proof (freeRDPCheck_value _ _ _ _ E8) as V8.
  pose proof (ipTablesCheck_value _ _ _ _ E9) as V9.
  pose proof (iptableNatCheck_value _ _ _ _ E10) as V10.
  rewrite T9, T8, <- app_assoc in V10. rewrite T8 in V9.
  eexists; eexists; exists (trace s7).
  split.
  { unfold getSpecs. cbv zeta.
    rewrite (bind_Return _ _ _ _ _ E1), (bind_Return _ _ _ _ _ E2),
      (bind_Return _ _ _ _ _ E3), (bind_Return _ _ _ _ _ E4),
      (bind_Return _ _ _ _ _ E5), (bind_Return _ _ _ _ _ E6),
      (bind_Return _ _ _ _ _ E7), (bind_Return _ _ _ _ _ E8),
      (bind_Return _ _ _ _ _ E9), (bind_Return _ _ _ _ _ E10).
    reflexivity. }
  simpl. split.
  { rewrite T10, T9, T8, <- !app_assoc. reflexivity. }
  split; [exact V8|]. split; [exact V9 | exact V10].
Qed.

(** X17. On a host whose FreeRDP locator and whose two [lsmod] commands
    answer the same at any time, [getSpecs] reports FreeRDP as the locator
    says, and each kernel module as loaded exactly when its command prints
    something other than white space. *)
Theorem getSpecs_modules (s : State) (rdp : bool) (ip nat : ExecResult) :
  (forall t, locate_freerdp W t = Return rdp) ->
  (forall t, run_exec W t "lsmod | grep ip_tables" = Return ip) ->
  (forall t, run_exec W t "lsmod | grep iptable_nat" = Return nat) ->
  exists specs s',
    getSpecs W s = (Return specs, s') /\
    freeRDP3Installed specs = rdp /\
    ipTablesLoaded specs = negb (all_space (stdout ip)) /\
    iptableNatLoaded specs = negb (all_space (stdout nat)).
Proof.
  intros Hr Hi Hn.
  destruct (getSpecs_tail_fields s) as (specs & s' & t0 & E & _ & R & I & N).
  rewrite Hr in R. rewrite Hi in I. rewrite Hn in N.
  rewrite truthy_trim in I, N.
  exists specs, s'. now repeat split.
Qed.

End TailFields.

Lemma getSpecs_modules_witness :
  exists specs s',
    SpecsTs.getSpecs readyHost initial = (Return specs, s') /\
    SpecsTs.freeRDP3Installed specs = true /\
    SpecsTs.ipTablesLoaded specs = true /\
    SpecsTs.iptableNatLoaded specs = true.
Proof.
  exact (getSpecs_modules readyHost initial true
           (mkExecResult ("ip_tables             32768  0" ++ nl) EmptyString)
           (mkExecResult ("iptable_nat            16384  1" ++ nl) EmptyString)
           (fun _ => eq_refl) (fun _ => eq_refl) (fun _ => eq_refl)).
Defined.


(* ===================================================================== *)
(** * Two callers in flight *)
(* ===================================================================== *)

Section InFlight.

Variable W : World.

(** Run alone, the functions with visible awaits are the functions of
    [ContainerRuntime]. *)
Lemma alone_detectRuntime s :
  Async.alone W Async.detectRuntime s = ContainerRuntime.detectRuntime W s.
Proof.
  unfold ContainerRuntime.detectRuntime. unfold_M. unfold record.
  unfold Async.detectRuntime. simpl.
  destruct (detectedRuntime s) as [r|]; simpl; [reflexivity|].
  destruct (run_exec W (trace s) "docker --version") as [o|e]; simpl.
  - destruct (JS.includes _ _); reflexivity.
  - destruct (run_exec W _ "podman --version"); reflexivity.
Qed.

Lemma alone_bind {A B} (p : Async.Proc A) (k : A -> Async.Proc B) s :
  Async.alone W (Async.bind p k) s
  = bind (Async.alone W p) (fun a => Async.alone W (k a)) s.
Proof.
  revert s. induction p as [[a|e]|cmd c IH|c IH|f p IH]; intros s; simpl.
  - reflexivity.
  - reflexivity.
  - rewrite IH. reflexivity.
  - rewrite IH. reflexivity.
  - rewrite IH. reflexivity.
Qed.

Lemma alone_probeRuntimeInfo r s :
  Async.alone W (Async.probeRuntimeInfo r) s
  = ContainerRuntime.probeRuntimeInfo W r s.
Proof.
  unfold ContainerRuntime.probeRuntimeInfo. unfold_M. unfold record.
  unfold Async.probeRuntimeInfo. simpl.
  destruct (run_exec W (trace s) _) as [v|e]; simpl; [|reflexivity].
  destruct (run_exec W _ _) as [c|e]; reflexivity.
Qed.

Lemma alone_getRuntimeInfo s :
  Async.alone W Async.getRuntimeInfo s = ContainerRuntime.getRuntimeInfo W s.
Proof.
  unfold Async.getRuntimeInfo, ContainerRuntime.getRuntimeInfo.
  rewrite alone_bind. unfold bind at 1 2. rewrite alone_detectRuntime.
  destruct (ContainerRuntime.detectRuntime W s) as [[[r|]|e] s1];
    try reflexivity.
  simpl. unfold bind, get_runtimeInfo.
  destruct (runtimeInfo s1) as [i|];
    [destruct (RuntimeType_eqb (type i) r)|];
    try reflexivity; apply alone_probeRuntimeInfo.
Qed.

End InFlight.

